(** * Postmark template client: a shallow embedding of [main.go]

    The client issues one HTTP request per operation and maps the response
    to a Go result pair [(value, error)].  The development models

    - Go strings as byte strings ([string] of the Standard Library),
    - [int] and [int64] as [Z] (the decoder checks the 64-bit range),
    - the part of [encoding/json] the client relies on: the grammar the
      decoder accepts, [Marshal] of the structs with their field tags and
      [Decode] into them,
    - the network as a state-passing function [client_Do] on an abstract
      world, so that a test double is just one instance of it. *)

From Stdlib Require Import ZArith NArith Ascii String List Lia Bool.
From Stdlib Require Import DecimalString DecimalZ ZifyBool.
From stdpp Require Import base option gmap strings.

Import ListNotations.
Local Open Scope string_scope.
Local Open Scope Z_scope.

(** ** Integers as decimal text: [%d] of [fmt] and [strconv] *)

Module strconv.

(** [strconv.Itoa], also what the verb [%d] prints. *)
Definition Itoa (z : Z) : string := NilZero.string_of_int (Z.to_int z).

Definition is_digit (c : ascii) : bool :=
  let n := N_of_ascii c in (48 <=? n)%N && (n <=? 57)%N.

Definition all_digits (s : string) : bool :=
  forallb is_digit (list_ascii_of_string s).

Definition min_int64 : Z := - 2 ^ 63.
Definition max_int64 : Z := 2 ^ 63 - 1.

Definition in_int64 (z : Z) : bool := (min_int64 <=? z) && (z <=? max_int64).

(** [strconv.ParseInt(s, 10, 64)]: an optional sign, then one or more
    decimal digits; a value outside the 64-bit range is an error. *)
Definition ParseInt (s : string) : option Z :=
  let digits := match s with
                | String "-"%char r => r
                | String "+"%char r => r
                | _ => s
                end in
  match digits with
  | EmptyString => None
  | _ =>
    if all_digits digits then
      match NilEmpty.uint_of_string digits with
      | Some u =>
        let z := match s with
                 | String "-"%char _ => Z.of_int (Decimal.Neg u)
                 | _ => Z.of_int (Decimal.Pos u)
                 end in
        if in_int64 z then Some z else None
      | None => None
      end
    else None
  end.

End strconv.

(** ** Bytes and UTF-8: the part of [unicode/utf8] the JSON codec calls *)

Definition byteval (c : ascii) : Z := Z.of_N (N_of_ascii c).
Definition mkbyte (z : Z) : ascii := ascii_of_N (Z.to_N z).

Module utf8.

Definition RuneError : Z := 65533.   (* U+FFFD *)
Definition RuneSelf : Z := 128.

Definition between (lo hi : Z) (c : ascii) : bool :=
  (lo <=? byteval c) && (byteval c <=? hi).

(** [utf8.DecodeRune]: the rune at the front of [s] and its width.  An
    ill-formed or truncated sequence yields [(RuneError, 1)], the empty
    string [(RuneError, 0)].  The accepted ranges are those of the
    package's [first] and [acceptRanges] tables; the masks and shifts of
    the Go text are written as the sums they compute on bytes of those
    ranges. *)
Definition DecodeRune (s : string) : Z * nat :=
  match s with
  | EmptyString => (RuneError, 0%nat)
  | String b0 r0 =>
    let n0 := byteval b0 in
    if n0 <? 128 then (n0, 1%nat)
    else if (194 <=? n0) && (n0 <=? 223) then
      match r0 with
      | String b1 _ =>
        if between 128 191 b1
        then ((n0 - 192) * 64 + (byteval b1 - 128), 2%nat)
        else (RuneError, 1%nat)
      | _ => (RuneError, 1%nat)
      end
    else if (224 <=? n0) && (n0 <=? 239) then
      let lo := if n0 =? 224 then 160 else 128 in
      let hi := if n0 =? 237 then 159 else 191 in
      match r0 with
      | String b1 (String b2 _) =>
        if between lo hi b1 && between 128 191 b2
        then ((n0 - 224) * 4096 + (byteval b1 - 128) * 64
              + (byteval b2 - 128), 3%nat)
        else (RuneError, 1%nat)
      | _ => (RuneError, 1%nat)
      end
    else if (240 <=? n0) && (n0 <=? 244) then
      let lo := if n0 =? 240 then 144 else 128 in
      let hi := if n0 =? 244 then 143 else 191 in
      match r0 with
      | String b1 (String b2 (String b3 _)) =>
        if between lo hi b1 && between 128 191 b2 && between 128 191 b3
        then ((n0 - 240) * 262144 + (byteval b1 - 128) * 4096
              + (byteval b2 - 128) * 64 + (byteval b3 - 128), 4%nat)
        else (RuneError, 1%nat)
      | _ => (RuneError, 1%nat)
      end
    else (RuneError, 1%nat)
  end.

(** [utf8.EncodeRune]: surrogates and values beyond U+10FFFF are written
    as U+FFFD. *)
Definition EncodeRune (r : Z) : string :=
  if r <? 0 then String (mkbyte 239) (String (mkbyte 191) (String (mkbyte 189) ""))
  else if r <? 128 then String (mkbyte r) ""
  else if r <? 2048 then
    String (mkbyte (192 + r / 64)) (String (mkbyte (128 + r mod 64)) "")
  else if (1114111 <? r) || ((55296 <=? r) && (r <=? 57343)) then
    String (mkbyte 239) (String (mkbyte 191) (String (mkbyte 189) ""))
  else if r <? 65536 then
    String (mkbyte (224 + r / 4096))
      (String (mkbyte (128 + (r / 64) mod 64))
         (String (mkbyte (128 + r mod 64)) ""))
  else
    String (mkbyte (240 + r / 262144))
      (String (mkbyte (128 + (r / 4096) mod 64))
         (String (mkbyte (128 + (r / 64) mod 64))
            (String (mkbyte (128 + r mod 64)) ""))).

(** A position holds an ill-formed byte when the decoder answers
    [(RuneError, 1)]. *)
Definition ill_formed (d : Z * nat) : bool :=
  (fst d =? RuneError) && Nat.eqb (snd d) 1.

Fixpoint string_drop (k : nat) (s : string) : string :=
  match k, s with
  | S k', String _ r => string_drop k' r
  | _, _ => s
  end.

Fixpoint string_take (k : nat) (s : string) : string :=
  match k, s with
  | S k', String c r => String c (string_take k' r)
  | _, _ => EmptyString
  end.

(** [utf8.ValidString], by the decoder itself; [n] bounds the number of
    runes and [String.length s] is always enough. *)
Fixpoint valid_upto (n : nat) (s : string) : bool :=
  match s with
  | EmptyString => true
  | _ =>
    match n with
    | O => false
    | S n' =>
      let d := DecodeRune s in
      negb (ill_formed d) && valid_upto n' (string_drop (snd d) s)
    end
  end.

Definition ValidString (s : string) : bool := valid_upto (String.length s) s.

End utf8.

(** ** JSON values and the text the [encoding/json] package reads and writes *)

Definition dquote : ascii := mkbyte 34.
Definition bslash : ascii := mkbyte 92.

#[warnings="-register-all"]
Inductive json : Type :=
| JNull
| JBool (b : bool)
| JNumber (lit : string)            (* the literal as written *)
| JString (s : string)
| JArray (elems : list json)
| JObject (members : list (string * json)).

Module jsontext.

(** *** Writing: [appendString] with HTML escaping, as [Marshal] uses it *)

Definition hex (d : Z) : ascii :=
  if d <? 10 then mkbyte (48 + d) else mkbyte (87 + d).

(** [htmlSafeSet]: printable ASCII without the quote, the backslash and
    the three characters [<], [>], [&]. *)
Definition htmlSafe (b : ascii) : bool :=
  let n := byteval b in
  (32 <=? n) && (n <? 128)
  && negb ((n =? 34) || (n =? 92) || (n =? 60) || (n =? 62) || (n =? 38)).

Definition u00 (b : ascii) : string :=
  String bslash (String "u" (String "0" (String "0"
    (String (hex (byteval b / 16)) (String (hex (byteval b mod 16)) ""))))).

Definition escape (b : ascii) : string :=
  let n := byteval b in
  if (n =? 92) || (n =? 34) then String bslash (String b "")
  else if n =? 8 then String bslash "b"
  else if n =? 12 then String bslash "f"
  else if n =? 10 then String bslash "n"
  else if n =? 13 then String bslash "r"
  else if n =? 9 then String bslash "t"
  else u00 b.

(** The loop of [appendString] over the bytes of [s]; [n] bounds the
    iterations. *)
Fixpoint quote_body (n : nat) (s : string) : string :=
  match n, s with
  | O, _ => ""
  | _, EmptyString => ""
  | S n', String b r =>
    if byteval b <? utf8.RuneSelf then
      (if htmlSafe b then String b "" else escape b) ++ quote_body n' r
    else
      let d := utf8.DecodeRune s in
      if utf8.ill_formed d then
        String bslash "ufffd" ++ quote_body n' r
      else if (fst d =? 8232) || (fst d =? 8233) then
        String bslash "u202" ++ String (hex (fst d mod 16)) ""
          ++ quote_body n' (utf8.string_drop (snd d) s)
      else
        utf8.string_take (snd d) s
          ++ quote_body n' (utf8.string_drop (snd d) s)
  end.

Definition quote (s : string) : string :=
  String dquote (quote_body (String.length s) s ++ String dquote "").

Fixpoint join_comma (l : list string) : string :=
  match l with
  | [] => ""
  | [x] => x
  | x :: l' => x ++ "," ++ join_comma l'
  end.

(** Compact rendering of a value, members in the order given. *)
Fixpoint render (j : json) : string :=
  match j with
  | JNull => "null"
  | JBool true => "true"
  | JBool false => "false"
  | JNumber lit => lit
  | JString s => quote s
  | JArray elems => "[" ++ join_comma (map render elems) ++ "]"
  | JObject members =>
    "{" ++ join_comma (map (fun kv => quote (fst kv) ++ ":" ++ render (snd kv))
                           members) ++ "}"
  end.

(** *** Reading: the scanner's grammar and [unquote] *)

Definition is_space (c : ascii) : bool :=
  let n := byteval c in (n =? 32) || (n =? 9) || (n =? 13) || (n =? 10).

Fixpoint skip_ws (s : string) : string :=
  match s with
  | String c r => if is_space c then skip_ws r else s
  | EmptyString => EmptyString
  end.

Definition hexval (c : ascii) : option Z :=
  let n := byteval c in
  if (48 <=? n) && (n <=? 57) then Some (n - 48)
  else if (97 <=? n) && (n <=? 102) then Some (n - 87)
  else if (65 <=? n) && (n <=? 70) then Some (n - 55)
  else None.

(** [getu4]: the rune of a [\uXXXX] escape at the front of [s]. *)
Definition getu4 (s : string) : option (Z * string) :=
  match s with
  | String b (String "u" (String h3 (String h2 (String h1 (String h0 r))))) =>
    if Ascii.eqb b bslash then
      match hexval h3, hexval h2, hexval h1, hexval h0 with
      | Some a, Some b, Some c, Some d =>
        Some (a * 4096 + b * 256 + c * 16 + d, r)
      | _, _, _, _ => None
      end
    else None
  | _ => None
  end.

Definition IsSurrogate (r : Z) : bool := (55296 <=? r) && (r <? 57344).

(** [utf16.DecodeRune]. *)
Definition utf16_DecodeRune (r1 r2 : Z) : Z :=
  if (55296 <=? r1) && (r1 <? 56320) && (56320 <=? r2) && (r2 <? 57344)
  then (r1 - 55296) * 1024 + (r2 - 56320) + 65536
  else utf8.RuneError.

Definition simple_escape (e : ascii) : option ascii :=
  let n := byteval e in
  if (n =? 34) || (n =? 92) || (n =? 47) then Some e
  else if n =? 98 then Some (mkbyte 8)
  else if n =? 102 then Some (mkbyte 12)
  else if n =? 110 then Some (mkbyte 10)
  else if n =? 114 then Some (mkbyte 13)
  else if n =? 116 then Some (mkbyte 9)
  else None.

Definition prepend (p : string) (r : option (string * string))
  : option (string * string) :=
  match r with
  | Some (s, rest) => Some (p ++ s, rest)
  | None => None
  end.

(** The text after an opening quote: the decoded string and what follows
    the closing quote.  Control characters and unknown escapes are
    syntax errors; ill-formed UTF-8 is coerced to U+FFFD. *)
Fixpoint unquote (n : nat) (s : string) : option (string * string) :=
  match n, s with
  | O, _ => None
  | _, EmptyString => None
  | S n', String c r =>
    if Ascii.eqb c dquote then Some ("", r)
    else if Ascii.eqb c bslash then
      match r with
      | EmptyString => None
      | String e r' =>
        match simple_escape e with
        | Some ch => prepend (String ch "") (unquote n' r')
        | None =>
          match getu4 s with
          | None => None
          | Some (rr, r2) =>
            if IsSurrogate rr then
              match getu4 r2 with
              | Some (rr1, r3) =>
                let dec := utf16_DecodeRune rr rr1 in
                if dec =? utf8.RuneError
                then prepend (utf8.EncodeRune utf8.RuneError) (unquote n' r2)
                else prepend (utf8.EncodeRune dec) (unquote n' r3)
              | None =>
                prepend (utf8.EncodeRune utf8.RuneError) (unquote n' r2)
              end
            else prepend (utf8.EncodeRune rr) (unquote n' r2)
          end
        end
      end
    else if byteval c <? 32 then None
    else if byteval c <? utf8.RuneSelf then
      prepend (String c "") (unquote n' r)
    else
      let d := utf8.DecodeRune s in
      prepend (utf8.EncodeRune (fst d))
              (unquote n' (utf8.string_drop (snd d) s))
  end.

Fixpoint span_digits (s : string) : string * string :=
  match s with
  | String c r =>
    if strconv.is_digit c
    then let (ds, rest) := span_digits r in (String c ds, rest)
    else (EmptyString, s)
  | EmptyString => (EmptyString, EmptyString)
  end.

(** One or more digits. *)
Definition digits1 (s : string) : option (string * string) :=
  match span_digits s with
  | (EmptyString, _) => None
  | (ds, rest) => Some (ds, rest)
  end.

(** The number grammar of the scanner: an optional minus sign; a zero, or
    a nonzero digit and further digits; an optional fraction (a point and
    one or more digits); an optional exponent (e or E, an optional sign,
    one or more digits). *)
Definition scan_number (s : string) : option (string * string) :=
  let (sign, s1) := match s with
                    | String "-"%char r => ("-", r)
                    | _ => ("", s)
                    end in
  let int_part :=
    match s1 with
    | String "0"%char r => Some ("0", r)
    | _ => digits1 s1
    end in
  match int_part with
  | None => None
  | Some (ip, s2) =>
    let frac :=
      match s2 with
      | String "."%char r =>
        match digits1 r with
        | Some (ds, r') => Some ("." ++ ds, r')
        | None => None
        end
      | _ => Some ("", s2)
      end in
    match frac with
    | None => None
    | Some (fp, s3) =>
      let exp :=
        match s3 with
        | String e r =>
          if (byteval e =? 101) || (byteval e =? 69) then
            let (sg, r1) := match r with
                            | String "+"%char r1 => ("+", r1)
                            | String "-"%char r1 => ("-", r1)
                            | _ => ("", r)
                            end in
            match digits1 r1 with
            | Some (ds, r') => Some (String e sg ++ ds, r')
            | None => None
            end
          else Some ("", s3)
        | EmptyString => Some ("", s3)
        end in
      match exp with
      | None => None
      | Some (ep, s4) => Some (sign ++ ip ++ fp ++ ep, s4)
      end
    end
  end.

Fixpoint strip_prefix (p s : string) : option string :=
  match p, s with
  | EmptyString, _ => Some s
  | String a p', String b s' => if Ascii.eqb a b then strip_prefix p' s' else None
  | String _ _, EmptyString => None
  end.

Definition maxNestingDepth : N := 10000.

(** One value at the front of [s] (after white space) and the text that
    follows it.  [depth] counts the enclosing arrays and objects; [n]
    bounds the recursion: each call consumes a byte or is followed by one
    that does, so twice the length of the text is always enough. *)
Fixpoint parse_value (n : nat) (depth : N) (s : string) {struct n}
  : option (json * string) :=
  match n with
  | O => None
  | S n' =>
    match skip_ws s with
    | EmptyString => None
    | String c r =>
      if Ascii.eqb c dquote then
        match unquote (String.length r) r with
        | Some (str, rest) => Some (JString str, rest)
        | None => None
        end
      else
      match c with
      | "{"%char =>
        if (depth <? maxNestingDepth)%N then
          match skip_ws r with
          | String "}"%char r' => Some (JObject [], r')
          | r1 =>
            match parse_members n' (depth + 1)%N r1 with
            | Some (ms, rest) => Some (JObject ms, rest)
            | None => None
            end
          end
        else None
      | "["%char =>
        if (depth <? maxNestingDepth)%N then
          match skip_ws r with
          | String "]"%char r' => Some (JArray [], r')
          | r1 =>
            match parse_elements n' (depth + 1)%N r1 with
            | Some (es, rest) => Some (JArray es, rest)
            | None => None
            end
          end
        else None
      | "t"%char =>
        match strip_prefix "rue" r with
        | Some rest => Some (JBool true, rest) | None => None end
      | "f"%char =>
        match strip_prefix "alse" r with
        | Some rest => Some (JBool false, rest) | None => None end
      | "n"%char =>
        match strip_prefix "ull" r with
        | Some rest => Some (JNull, rest) | None => None end
      | _ =>
        match scan_number (String c r) with
        | Some (lit, rest) => Some (JNumber lit, rest)
        | None => None
        end
      end
    end
  end

with parse_members (n : nat) (depth : N) (s : string) {struct n}
  : option (list (string * json) * string) :=
  match n with
  | O => None
  | S n' =>
    match skip_ws s with
    | String c r =>
      if Ascii.eqb c dquote then
        match unquote (String.length r) r with
        | Some (key, r1) =>
          match skip_ws r1 with
          | String ":"%char r2 =>
            match parse_value n' depth r2 with
            | Some (v, r3) =>
              match skip_ws r3 with
              | String ","%char r4 =>
                match parse_members n' depth r4 with
                | Some (ms, r5) => Some ((key, v) :: ms, r5)
                | None => None
                end
              | String "}"%char r4 => Some ([(key, v)], r4)
              | _ => None
              end
            | None => None
            end
          | _ => None
          end
        | None => None
        end
      else None
    | EmptyString => None
    end
  end

with parse_elements (n : nat) (depth : N) (s : string) {struct n}
  : option (list json * string) :=
  match n with
  | O => None
  | S n' =>
    match parse_value n' depth s with
    | Some (v, r1) =>
      match skip_ws r1 with
      | String ","%char r2 =>
        match parse_elements n' depth r2 with
        | Some (es, r3) => Some (v :: es, r3)
        | None => None
        end
      | String "]"%char r2 => Some ([v], r2)
      | _ => None
      end
    | None => None
    end
  end.

End jsontext.

(** JSON text in examples is written with ['] where the wire has the
    double quote. *)
Definition wire (s : string) : string :=
  string_of_list_ascii
    (map (fun c => if Ascii.eqb c "'"%char then dquote else c)
         (list_ascii_of_string s)).

(** ** Errors *)

(** What [Decoder.Decode] can answer: [io.EOF] on an empty body, a syntax
    error (with [io.ErrUnexpectedEOF] on a truncated value), or an
    [UnmarshalTypeError] naming the JSON value and the struct field. *)
Inductive json_error : Type :=
| io_EOF
| SyntaxError
| UnmarshalTypeError (Value : string) (Field : string).

(** Go errors as the client builds them.  The texts the client supplies
    are kept literally; the texts of library errors are not modelled. *)
Inductive error : Type :=
| errorString (msg : string)               (* [fmt.Errorf] without [%w] *)
| jsonError (e : json_error)               (* from [encoding/json] *)
| httpError (msg : string)                 (* from [net/http], [net/url] *)
| wrapError (prefix : string) (err : error). (* [fmt.Errorf(prefix + "%w", err)] *)

Definition Unwrap (e : error) : option error :=
  match e with
  | wrapError _ err => Some err
  | _ => None
  end.

Inductive result (A E : Type) : Type :=
| Ok (a : A)
| Err (e : E).
Arguments Ok {A E} a.
Arguments Err {A E} e.

Definition bind {A B E} (r : result A E) (f : A -> result B E) : result B E :=
  match r with
  | Ok a => f a
  | Err e => Err e
  end.

Notation "x <- r ;; k" := (bind r (fun x => k))
  (at level 100, r at next level, right associativity).

(** ** The structs of [main.go] *)

Record Template : Type := mkTemplate {
  TemplateID : Z;        (* json:"templateID,omitempty" *)
  Name : string;         (* json:"name" *)
  Subject : string;      (* json:"subject" *)
  HtmlBody : string;     (* json:"htmlBody" *)
  TextBody : string;     (* json:"textBody" *)
  Alias : string;        (* json:"alias,omitempty" *)
  Active : bool          (* json:"active,omitempty" *)
}.

(** A Go slice is [nil] or a sequence: [None] is the nil slice. *)
Definition slice (A : Type) : Type := option (list A).

Definition len {A} (s : slice A) : nat :=
  match s with
  | Some l => List.length l
  | None => O
  end.

Record TemplatesResponse : Type := mkTemplatesResponse {
  Templates : slice Template;   (* json:"templates" *)
  TotalCount : Z                (* json:"totalCount" *)
}.

Record PostmarkResponse : Type := mkPostmarkResponse {
  RespTemplateID : Z;    (* TemplateID, json:"templateID" *)
  ErrorCode : Z;         (* json:"errorCode" *)
  Message : string       (* json:"message" *)
}.

Definition zero_Template : Template := mkTemplate 0 "" "" "" "" "" false.
Definition zero_TemplatesResponse : TemplatesResponse := mkTemplatesResponse None 0.
Definition zero_PostmarkResponse : PostmarkResponse := mkPostmarkResponse 0 0 "".

(** ** [encoding/json] on these structs *)

Module json_pkg.

Import jsontext.

(** *** Marshal *)

(** Fields in declaration order under their tag names; an [omitempty]
    field is left out when it holds its zero value. *)
Definition Template_toJSON (t : Template) : json :=
  JObject
    ((if TemplateID t =? 0 then []
      else [("templateID", JNumber (strconv.Itoa (TemplateID t)))])
     ++ [("name", JString (Name t));
         ("subject", JString (Subject t));
         ("htmlBody", JString (HtmlBody t));
         ("textBody", JString (TextBody t))]
     ++ (if String.eqb (Alias t) "" then [] else [("alias", JString (Alias t))])
     ++ (if Active t then [("active", JBool true)] else [])).

(** [json.Marshal(template)].  No field of [Template] has a type on which
    [Marshal] can fail, so the error is always [nil]. *)
Definition Marshal (t : Template) : string * option error :=
  (render (Template_toJSON t), None).

Definition PostmarkResponse_toJSON (p : PostmarkResponse) : json :=
  JObject [("templateID", JNumber (strconv.Itoa (RespTemplateID p)));
           ("errorCode", JNumber (strconv.Itoa (ErrorCode p)));
           ("message", JString (Message p))].

Definition TemplatesResponse_toJSON (r : TemplatesResponse) : json :=
  JObject [("templates",
            match Templates r with
            | None => JNull
            | Some l => JArray (map Template_toJSON l)
            end);
           ("totalCount", JNumber (strconv.Itoa (TotalCount r)))].

(** *** Unmarshal *)

Definition upper (c : ascii) : ascii :=
  let n := byteval c in
  if (97 <=? n) && (n <=? 122) then mkbyte (n - 32) else c.

(** [foldName]: ASCII letters in upper case.  Of the runes outside
    ASCII only U+017F (long s) and U+212A (Kelvin sign) fold to ASCII
    letters; every other byte is kept, which is enough to compare with
    the ASCII field names below. *)
Fixpoint foldName (s : string) : string :=
  match s with
  | EmptyString => EmptyString
  | String c r =>
    match r with
    | String c1 r1 =>
      if (byteval c =? 197) && (byteval c1 =? 191) then String "S" (foldName r1)
      else
        match r1 with
        | String c2 r2 =>
          if (byteval c =? 226) && (byteval c1 =? 132) && (byteval c2 =? 170)
          then String "K" (foldName r2)
          else String (upper c) (foldName r)
        | EmptyString => String (upper c) (foldName r)
        end
    | EmptyString => String (upper c) EmptyString
    end
  end.

(** The field a key addresses: an exact match of the tag name first,
    a case-folded match otherwise; unknown keys address nothing. *)
Definition field_of (names : list string) (key : string) : option string :=
  match find (String.eqb key) names with
  | Some f => Some f
  | None => find (fun f => String.eqb (foldName f) (foldName key)) names
  end.

Definition value_kind (j : json) : string :=
  match j with
  | JNull => "null"
  | JBool _ => "bool"
  | JNumber lit => "number " ++ lit
  | JString _ => "string"
  | JArray _ => "array"
  | JObject _ => "object"
  end.

Definition mismatch {A} (j : json) (field : string) : result A json_error :=
  Err (UnmarshalTypeError
         (match j with JNumber _ => "number" | _ => value_kind j end) field).

(** Storing a value into a field of each kind; [null] leaves a string,
    an integer or a bool as it is. *)
Definition store_string (field : string) (j : json) (cur : string)
  : result string json_error :=
  match j with
  | JNull => Ok cur
  | JString s => Ok s
  | _ => mismatch j field
  end.

Definition store_bool (field : string) (j : json) (cur : bool)
  : result bool json_error :=
  match j with
  | JNull => Ok cur
  | JBool b => Ok b
  | _ => mismatch j field
  end.

(** [int64], and [int] on a 64-bit platform. *)
Definition store_int (field : string) (j : json) (cur : Z)
  : result Z json_error :=
  match j with
  | JNull => Ok cur
  | JNumber lit =>
    match strconv.ParseInt lit with
    | Some z => Ok z
    | None => Err (UnmarshalTypeError (value_kind j) field)
    end
  | _ => mismatch j field
  end.

Definition Template_fields : list string :=
  ["templateID"; "name"; "subject"; "htmlBody"; "textBody"; "alias"; "active"].

Definition Template_store (path : string) (f : string) (v : json) (t : Template)
  : result Template json_error :=
  if String.eqb f "templateID" then
    x <- store_int (path ++ f) v (TemplateID t) ;;
    Ok (mkTemplate x (Name t) (Subject t) (HtmlBody t) (TextBody t) (Alias t) (Active t))
  else if String.eqb f "name" then
    x <- store_string (path ++ f) v (Name t) ;;
    Ok (mkTemplate (TemplateID t) x (Subject t) (HtmlBody t) (TextBody t) (Alias t) (Active t))
  else if String.eqb f "subject" then
    x <- store_string (path ++ f) v (Subject t) ;;
    Ok (mkTemplate (TemplateID t) (Name t) x (HtmlBody t) (TextBody t) (Alias t) (Active t))
  else if String.eqb f "htmlBody" then
    x <- store_string (path ++ f) v (HtmlBody t) ;;
    Ok (mkTemplate (TemplateID t) (Name t) (Subject t) x (TextBody t) (Alias t) (Active t))
  else if String.eqb f "textBody" then
    x <- store_string (path ++ f) v (TextBody t) ;;
    Ok (mkTemplate (TemplateID t) (Name t) (Subject t) (HtmlBody t) x (Alias t) (Active t))
  else if String.eqb f "alias" then
    x <- store_string (path ++ f) v (Alias t) ;;
    Ok (mkTemplate (TemplateID t) (Name t) (Subject t) (HtmlBody t) (TextBody t) x (Active t))
  else
    x <- store_bool (path ++ f) v (Active t) ;;
    Ok (mkTemplate (TemplateID t) (Name t) (Subject t) (HtmlBody t) (TextBody t) (Alias t) x).

(** The members of an object, in order, into a struct: a later member
    with the same key stores again. *)
Fixpoint Template_members (path : string) (ms : list (string * json)) (t : Template)
  : result Template json_error :=
  match ms with
  | [] => Ok t
  | (k, v) :: ms' =>
    match field_of Template_fields k with
    | Some f => t' <- Template_store path f v t ;; Template_members path ms' t'
    | None => Template_members path ms' t
    end
  end.

(** A value into a [Template]: an object fills fields, [null] changes
    nothing, anything else is a type error. *)
Definition Template_value (path field : string) (j : json) (t : Template)
  : result Template json_error :=
  match j with
  | JNull => Ok t
  | JObject ms => Template_members path ms t
  | _ => mismatch j field
  end.

(** An array into a nil or empty [[]Template]: each element is decoded
    into a zero [Template]. *)
Fixpoint Template_elems (es : list json) : result (list Template) json_error :=
  match es with
  | [] => Ok []
  | e :: es' =>
    t <- Template_value "templates." "templates" e zero_Template ;;
    ts <- Template_elems es' ;;
    Ok (t :: ts)
  end.

(** An array into the [[]Template] the field holds, as [decodeState.array]
    does it: the element at an index below the current length is decoded
    into the [Template] already there, so that fields the element does not
    name keep their values; an element beyond the current length is
    decoded into a zero [Template]; the slice ends with the length of the
    array.  (The elements an earlier, longer array of the same object left
    behind the current length stay in the spare capacity of the slice, and
    a third array is decoded into them as far as the capacity reaches,
    which depends on the Go version; here the elements beyond the current
    length always start from zero.) *)
Fixpoint Template_elems_into (cur : list Template) (es : list json)
  : result (list Template) json_error :=
  match es with
  | [] => Ok []
  | e :: es' =>
    t <- Template_value "templates." "templates" e (List.hd zero_Template cur) ;;
    ts <- Template_elems_into (List.tl cur) es' ;;
    Ok (t :: ts)
  end.

(** A value into the field [Templates]: [null] gives the nil slice, the
    empty array an empty slice that is not nil, an array the slice of its
    elements decoded over the current ones. *)
Definition store_Templates (j : json) (cur : slice Template)
  : result (slice Template) json_error :=
  match j with
  | JNull => Ok None
  | JArray es =>
    ts <- Template_elems_into (match cur with Some l => l | None => [] end) es ;;
    Ok (Some ts)
  | _ => mismatch j "templates"
  end.

Definition TemplatesResponse_fields : list string := ["templates"; "totalCount"].

Fixpoint TemplatesResponse_members (ms : list (string * json)) (r : TemplatesResponse)
  : result TemplatesResponse json_error :=
  match ms with
  | [] => Ok r
  | (k, v) :: ms' =>
    match field_of TemplatesResponse_fields k with
    | Some f =>
      r' <- (if String.eqb f "templates" then
               x <- store_Templates v (Templates r) ;;
               Ok (mkTemplatesResponse x (TotalCount r))
             else
               x <- store_int f v (TotalCount r) ;;
               Ok (mkTemplatesResponse (Templates r) x)) ;;
      TemplatesResponse_members ms' r'
    | None => TemplatesResponse_members ms' r
    end
  end.

Definition PostmarkResponse_fields : list string := ["templateID"; "errorCode"; "message"].

Fixpoint PostmarkResponse_members (ms : list (string * json)) (p : PostmarkResponse)
  : result PostmarkResponse json_error :=
  match ms with
  | [] => Ok p
  | (k, v) :: ms' =>
    match field_of PostmarkResponse_fields k with
    | Some f =>
      p' <- (if String.eqb f "templateID" then
               x <- store_int f v (RespTemplateID p) ;;
               Ok (mkPostmarkResponse x (ErrorCode p) (Message p))
             else if String.eqb f "errorCode" then
               x <- store_int f v (ErrorCode p) ;;
               Ok (mkPostmarkResponse (RespTemplateID p) x (Message p))
             else
               x <- store_string f v (Message p) ;;
               Ok (mkPostmarkResponse (RespTemplateID p) (ErrorCode p) x)) ;;
      PostmarkResponse_members ms' p'
    | None => PostmarkResponse_members ms' p
    end
  end.

(** *** The stream decoder *)

(** [Decoder.readValue]: the first value of the body.  The scanner ends
    the value at the first byte that cannot continue it and leaves that
    byte unread, so what follows the first value, white space or not,
    plays no part: [nullx] is read as [null] and [12x] as [12].  A body of
    white space only is [io.EOF]. *)
Definition readValue (body : string) : result json json_error :=
  match skip_ws body with
  | EmptyString => Err io_EOF
  | _ =>
    match parse_value (2 * String.length body + 1) 0 body with
    | None => Err SyntaxError
    | Some (j, _) => Ok j
    end
  end.

(** [json.NewDecoder(resp.Body).Decode(&v)] for the three targets, each
    starting from the zero value of its [var] declaration. *)
Definition Decode_Template (body : string) : result Template json_error :=
  j <- readValue body ;; Template_value "" "" j zero_Template.

Definition Decode_PostmarkResponse (body : string)
  : result PostmarkResponse json_error :=
  j <- readValue body ;;
  match j with
  | JNull => Ok zero_PostmarkResponse
  | JObject ms => PostmarkResponse_members ms zero_PostmarkResponse
  | _ => mismatch j ""
  end.

Definition Decode_TemplatesResponse (body : string)
  : result TemplatesResponse json_error :=
  j <- readValue body ;;
  match j with
  | JNull => Ok zero_TemplatesResponse
  | JObject ms => TemplatesResponse_members ms zero_TemplatesResponse
  | _ => mismatch j ""
  end.

End json_pkg.

(** ** [net/http] as the client uses it *)

Record Request : Type := mkRequest {
  Method : string;
  URL : string;
  Header : gmap string (list string);
  ReqBody : option string          (* [nil] for requests without payload *)
}.

Record Response : Type := mkResponse {
  StatusCode : Z;
  Body : string
}.

Module http.

Definition StatusOK : Z := 200.

(** [httpguts.IsTokenRune]: the characters of an HTTP token. *)
Definition isToken (c : ascii) : bool :=
  let n := byteval c in
  ((48 <=? n) && (n <=? 57)) || ((65 <=? n) && (n <=? 90))
  || ((97 <=? n) && (n <=? 122))
  || existsb (Z.eqb n) [33; 35; 36; 37; 38; 39; 42; 43; 45; 46; 94; 95; 96; 124; 126].

Definition validMethod (m : string) : bool :=
  negb (String.eqb m "") && forallb isToken (list_ascii_of_string m).

(** [stringContainsCTLByte], the first check of [url.Parse]. *)
Definition containsCTLByte (s : string) : bool :=
  existsb (fun c => (byteval c <? 32) || (byteval c =? 127))
          (list_ascii_of_string s).

(** [http.NewRequest]: rejects a method that is not a token and a URL
    [url.Parse] rejects.  Of the checks of [url.Parse] the one on control
    bytes is modelled; the URLs of this client are a constant followed
    by decimal integers. *)
Definition NewRequest (method url : string) (body : option string)
  : Request * option error :=
  if negb (validMethod method) then
    (mkRequest "" "" ∅ None, Some (httpError "net/http: invalid method"))
  else if containsCTLByte url then
    (mkRequest "" "" ∅ None, Some (httpError "net/url: invalid control character in URL"))
  else (mkRequest method url ∅ body, None).

(** [textproto.CanonicalMIMEHeaderKey] on a key of token characters:
    upper case at the start and after a hyphen, lower case elsewhere. *)
Definition lower (c : ascii) : ascii :=
  let n := byteval c in
  if (65 <=? n) && (n <=? 90) then mkbyte (n + 32) else c.

Fixpoint canonical (up : bool) (s : string) : string :=
  match s with
  | EmptyString => EmptyString
  | String c r =>
    String (if up then json_pkg.upper c else lower c)
           (canonical (Ascii.eqb c "-"%char) r)
  end.

Definition CanonicalMIMEHeaderKey (s : string) : string :=
  if forallb isToken (list_ascii_of_string s) then canonical true s else s.

(** [req.Header.Set(key, value)]. *)
Definition Header_Set (req : Request) (key value : string) : Request :=
  mkRequest (Method req) (URL req)
            (<[CanonicalMIMEHeaderKey key := [value]]> (Header req))
            (ReqBody req).

(** [Header.Get]: the first value under the canonical key, or [""]. *)
Definition Header_Get (h : gmap string (list string)) (key : string) : string :=
  match h !! CanonicalMIMEHeaderKey key with
  | Some (v :: _) => v
  | _ => ""
  end.

End http.

(** [fmt.Errorf] at the formats of [main.go]. *)
Definition Errorf_w (prefix : string) (err : error) : error := wrapError prefix err.

Definition Errorf_status (code : Z) (bodyString : string) : error :=
  errorString ("unexpected status code: " ++ strconv.Itoa code
               ++ ", response: " ++ bodyString).

Definition Errorf_s (prefix msg : string) : error := errorString (prefix ++ msg).

(** ** The six operations *)

Section Client.

(** The network: [client.Do] sends a request and changes the world. *)
Variable World : Type.
Variable client_Do : Request -> World -> result Response error * World.

(** CreateTemplate creates a new template in Postmark *)
Definition CreateTemplate (apiToken : string) (template : Template) (w : World)
  : (Z * option error) * World :=
  let url := "https://api.postmarkapp.com/templates" in
  match json_pkg.Marshal template with
  | (_, Some err) => ((0, Some (Errorf_w "failed to marshal template: " err)), w)
  | (jsonData, None) =>
    match http.NewRequest "POST" url (Some jsonData) with
    | (_, Some err) => ((0, Some (Errorf_w "failed to create request: " err)), w)
    | (req, None) =>
      let req := http.Header_Set req "Accept" "application/json" in
      let req := http.Header_Set req "Content-Type" "application/json" in
      let req := http.Header_Set req "X-Postmark-Server-Token" apiToken in
      match client_Do req w with
      | (Err err, w') => ((0, Some (Errorf_w "failed to send request: " err)), w')
      | (Ok resp, w') =>
        if negb (StatusCode resp =? http.StatusOK) then
          let bodyString := Body resp in
          ((0, Some (Errorf_status (StatusCode resp) bodyString)), w')
        else
          match json_pkg.Decode_PostmarkResponse (Body resp) with
          | Err err =>
            ((0, Some (Errorf_w "failed to decode response: " (jsonError err))), w')
          | Ok postmarkResponse =>
            if negb (ErrorCode postmarkResponse =? 0) then
              ((0, Some (Errorf_s "failed to create template: "
                                  (Message postmarkResponse))), w')
            else ((RespTemplateID postmarkResponse, None), w')
          end
      end
    end
  end.

(** GetTemplate retrieves a template by its ID; the pointer result is
    [None] for [nil]. *)
Definition GetTemplate (apiToken : string) (templateID : Z) (w : World)
  : (option Template * option error) * World :=
  let url := "https://api.postmarkapp.com/templates/" ++ strconv.Itoa templateID in
  match http.NewRequest "GET" url None with
  | (_, Some err) => ((None, Some (Errorf_w "failed to create request: " err)), w)
  | (req, None) =>
    let req := http.Header_Set req "Accept" "application/json" in
    let req := http.Header_Set req "X-Postmark-Server-Token" apiToken in
    match client_Do req w with
    | (Err err, w') => ((None, Some (Errorf_w "failed to send request: " err)), w')
    | (Ok resp, w') =>
      if negb (StatusCode resp =? http.StatusOK) then
        let bodyString := Body resp in
        ((None, Some (Errorf_status (StatusCode resp) bodyString)), w')
      else
        match json_pkg.Decode_Template (Body resp) with
        | Err err =>
          ((None, Some (Errorf_w "failed to decode response: " (jsonError err))), w')
        | Ok template => ((Some template, None), w')
        end
    end
  end.

(** UpdateTemplate updates an existing template in Postmark *)
Definition UpdateTemplate (apiToken : string) (template : Template) (w : World)
  : option error * World :=
  let url := "https://api.postmarkapp.com/templates/"
             ++ strconv.Itoa (TemplateID template) in
  match json_pkg.Marshal template with
  | (_, Some err) => (Some (Errorf_w "failed to marshal template: " err), w)
  | (jsonData, None) =>
    match http.NewRequest "PUT" url (Some jsonData) with
    | (_, Some err) => (Some (Errorf_w "failed to create request: " err), w)
    | (req, None) =>
      let req := http.Header_Set req "Accept" "application/json" in
      let req := http.Header_Set req "Content-Type" "application/json" in
      let req := http.Header_Set req "X-Postmark-Server-Token" apiToken in
      match client_Do req w with
      | (Err err, w') => (Some (Errorf_w "failed to send request: " err), w')
      | (Ok resp, w') =>
        if negb (StatusCode resp =? http.StatusOK) then
          let bodyString := Body resp in
          (Some (Errorf_status (StatusCode resp) bodyString), w')
        else
          match json_pkg.Decode_PostmarkResponse (Body resp) with
          | Err err =>
            (Some (Errorf_w "failed to decode response: " (jsonError err)), w')
          | Ok postmarkResponse =>
            if negb (ErrorCode postmarkResponse =? 0) then
              (Some (Errorf_s "failed to update template: "
                              (Message postmarkResponse)), w')
            else (None, w')
          end
      end
    end
  end.

(** DeleteTemplate deletes a template in Postmark *)
Definition DeleteTemplate (apiToken : string) (templateID : Z) (w : World)
  : option error * World :=
  let url := "https://api.postmarkapp.com/templates/" ++ strconv.Itoa templateID in
  match http.NewRequest "DELETE" url None with
  | (_, Some err) => (Some (Errorf_w "failed to create request: " err), w)
  | (req, None) =>
    let req := http.Header_Set req "Accept" "application/json" in
    let req := http.Header_Set req "X-Postmark-Server-Token" apiToken in
    match client_Do req w with
    | (Err err, w') => (Some (Errorf_w "failed to send request: " err), w')
    | (Ok resp, w') =>
      if negb (StatusCode resp =? http.StatusOK) then
        let bodyString := Body resp in
        (Some (Errorf_status (StatusCode resp) bodyString), w')
      else (None, w')
    end
  end.

(** GetTemplates retrieves a list of all templates in Postmark *)
Definition GetTemplates (apiToken : string) (offset count : Z) (w : World)
  : (slice Template * option error) * World :=
  let url := "https://api.postmarkapp.com/templates?offset=" ++ strconv.Itoa offset
             ++ "&count=" ++ strconv.Itoa count in
  match http.NewRequest "GET" url None with
  | (_, Some err) => ((None, Some (Errorf_w "failed to create request: " err)), w)
  | (req, None) =>
    let req := http.Header_Set req "Accept" "application/json" in
    let req := http.Header_Set req "X-Postmark-Server-Token" apiToken in
    match client_Do req w with
    | (Err err, w') => ((None, Some (Errorf_w "failed to send request: " err)), w')
    | (Ok resp, w') =>
      if negb (StatusCode resp =? http.StatusOK) then
        let bodyString := Body resp in
        ((None, Some (Errorf_status (StatusCode resp) bodyString)), w')
      else
        match json_pkg.Decode_TemplatesResponse (Body resp) with
        | Err err =>
          ((None, Some (Errorf_w "failed to decode response: " (jsonError err))), w')
        | Ok templatesResponse => ((Templates templatesResponse, None), w')
        end
    end
  end.

(** ValidateTemplate validates a template in Postmark *)
Definition ValidateTemplate (apiToken : string) (template : Template) (w : World)
  : option error * World :=
  let url := "https://api.postmarkapp.com/templates/validate" in
  match json_pkg.Marshal template with
  | (_, Some err) => (Some (Errorf_w "failed to marshal template: " err), w)
  | (jsonData, None) =>
    match http.NewRequest "POST" url (Some jsonData) with
    | (_, Some err) => (Some (Errorf_w "failed to create request: " err), w)
    | (req, None) =>
      let req := http.Header_Set req "Accept" "application/json" in
      let req := http.Header_Set req "Content-Type" "application/json" in
      let req := http.Header_Set req "X-Postmark-Server-Token" apiToken in
      match client_Do req w with
      | (Err err, w') => (Some (Errorf_w "failed to send request: " err), w')
      | (Ok resp, w') =>
        if negb (StatusCode resp =? http.StatusOK) then
          let bodyString := Body resp in
          (Some (Errorf_status (StatusCode resp) bodyString), w')
        else (None, w')
      end
    end
  end.

End Client.

Arguments CreateTemplate {World} client_Do apiToken template w.
Arguments GetTemplate {World} client_Do apiToken templateID w.
Arguments UpdateTemplate {World} client_Do apiToken template w.
Arguments DeleteTemplate {World} client_Do apiToken templateID w.
Arguments GetTemplates {World} client_Do apiToken offset count w.
Arguments ValidateTemplate {World} client_Do apiToken template w.

(** ** The operations as one family *)

(** A call of one of the six operations with its arguments, and the value
    that comes with the error in its result. *)
Inductive call : Type :=
| Create (template : Template)
| Get (templateID : Z)
| Update (template : Template)
| Delete (templateID : Z)
| List (offset count : Z)
| Validate (template : Template).

Inductive value : Type :=
| VId (id : Z)                         (* [int64] of CreateTemplate *)
| VTemplate (p : option Template)      (* [*Template] of GetTemplate *)
| VTemplates (l : slice Template)      (* [[]Template] of GetTemplates *)
| VNone.                               (* the operations that return only an error *)

Definition run {World : Type}
           (client_Do : Request -> World -> result Response error * World)
           (apiToken : string) (c : call) (w : World)
  : (value * option error) * World :=
  match c with
  | Create t =>
    let '((id, err), w') := CreateTemplate client_Do apiToken t w in ((VId id, err), w')
  | Get id =>
    let '((p, err), w') := GetTemplate client_Do apiToken id w in ((VTemplate p, err), w')
  | Update t =>
    let '(err, w') := UpdateTemplate client_Do apiToken t w in ((VNone, err), w')
  | Delete id =>
    let '(err, w') := DeleteTemplate client_Do apiToken id w in ((VNone, err), w')
  | List offset count =>
    let '((l, err), w') := GetTemplates client_Do apiToken offset count w in
    ((VTemplates l, err), w')
  | Validate t =>
    let '(err, w') := ValidateTemplate client_Do apiToken t w in ((VNone, err), w')
  end.

Definition returned {World : Type} (r : (value * option error) * World) : value :=
  fst (fst r).
Definition failure {World : Type} (r : (value * option error) * World) : option error :=
  snd (fst r).

(** Method, URL and payload of each call, as the operation's first lines
    compute them. *)
Definition method_of (c : call) : string :=
  match c with
  | Create _ | Validate _ => "POST"
  | Get _ | List _ _ => "GET"
  | Update _ => "PUT"
  | Delete _ => "DELETE"
  end.

Definition url_of (c : call) : string :=
  match c with
  | Create _ => "https://api.postmarkapp.com/templates"
  | Get id | Delete id => "https://api.postmarkapp.com/templates/" ++ strconv.Itoa id
  | Update t => "https://api.postmarkapp.com/templates/" ++ strconv.Itoa (TemplateID t)
  | List offset count =>
    "https://api.postmarkapp.com/templates?offset=" ++ strconv.Itoa offset
    ++ "&count=" ++ strconv.Itoa count
  | Validate _ => "https://api.postmarkapp.com/templates/validate"
  end.

Definition payload_of (c : call) : option string :=
  match c with
  | Create t | Update t | Validate t => Some (fst (json_pkg.Marshal t))
  | Get _ | Delete _ | List _ _ => None
  end.

(** The request a call hands to [client.Do] (lemma [run_sends] below). *)
Definition request_of (apiToken : string) (c : call) : Request :=
  let req := mkRequest (method_of c) (url_of c) ∅ (payload_of c) in
  let req := http.Header_Set req "Accept" "application/json" in
  let req := match payload_of c with
             | Some _ => http.Header_Set req "Content-Type" "application/json"
             | None => req
             end in
  http.Header_Set req "X-Postmark-Server-Token" apiToken.

(** The calls that change what the remote service stores. *)
Definition mutating (c : call) : bool :=
  match c with
  | Create _ | Update _ | Delete _ => true
  | Get _ | List _ _ | Validate _ => false
  end.

(** ** Transports *)

(** A remote end that answers every request with the same response. *)
Definition canned (resp : Response) (req : Request) (w : unit)
  : result Response error * unit := (Ok resp, w).

(** A network on which every request fails to be sent. *)
Definition unreachable (e : error) (req : Request) (w : unit)
  : result Response error * unit := (Err e, w).

(** Any transport, with the requests it was handed kept in order. *)
Definition recording {W : Type} (Do : Request -> W -> result Response error * W)
           (req : Request) (wl : W * list Request)
  : result Response error * (W * list Request) :=
  let (r, w') := Do req (fst wl) in (r, (w', List.app (snd wl) [req])).

(** The three error kinds of the client, by the shape of the error value. *)
Definition TransportError (e : error) (status : Z) (body : string) : Prop :=
  e = errorString ("unexpected status code: " ++ strconv.Itoa status
                   ++ ", response: " ++ body).

Definition DecodeError (e : error) (cause : json_error) : Prop :=
  e = wrapError "failed to decode response: " (jsonError cause).

Definition RemoteError (e : error) (message : string) : Prop :=
  exists verb, e = errorString ("failed to " ++ verb ++ " template: " ++ message).

(** What the remote service requires of a template: a name, a subject and
    at least one body. *)
Definition has_content (t : Template) : bool :=
  negb (String.eqb (Name t) "") && negb (String.eqb (Subject t) "")
  && (negb (String.eqb (HtmlBody t) "") || negb (String.eqb (TextBody t) "")).

(** A valid template: the required content, and an id a Go [int64] holds. *)
Definition valid_Template (t : Template) : bool :=
  has_content t && strconv.in_int64 (TemplateID t).

(** Text that is well-formed UTF-8 throughout. *)
Definition well_formed_text (t : Template) : bool :=
  utf8.ValidString (Name t) && utf8.ValidString (Subject t)
  && utf8.ValidString (HtmlBody t) && utf8.ValidString (TextBody t)
  && utf8.ValidString (Alias t).

(** The four fields Create and Get are compared on. *)
Definition well_formed_fields (t : Template) : bool :=
  utf8.ValidString (Name t) && utf8.ValidString (Subject t)
  && utf8.ValidString (HtmlBody t) && utf8.ValidString (TextBody t).

(** What a string becomes on its way through [Marshal] and [Decode]: every
    ill-formed byte is replaced by U+FFFD, everything else is kept. *)
Fixpoint coerce_upto (n : nat) (s : string) : string :=
  match n, s with
  | O, _ => ""
  | _, EmptyString => ""
  | S n', String b r =>
    let d := utf8.DecodeRune s in
    if utf8.ill_formed d then utf8.EncodeRune utf8.RuneError ++ coerce_upto n' r
    else utf8.string_take (snd d) s ++ coerce_upto n' (utf8.string_drop (snd d) s)
  end.

Definition coerce (s : string) : string := coerce_upto (String.length s) s.

Definition coerce_Template (t : Template) : Template :=
  mkTemplate (TemplateID t) (coerce (Name t)) (coerce (Subject t))
             (coerce (HtmlBody t)) (coerce (TextBody t)) (coerce (Alias t)) (Active t).

(** ** A test double for the remote API *)

Module double.

Import jsontext.

(** Modelled from the spec: the test double that simulates the remote
    template API (section 8 asks for one; the repository has none).  It
    keeps the templates it was given under ids it assigns, checks the
    credential header, answers Create and Update with a
    [PostmarkResponse], Get with the stored [Template], List with a
    [TemplatesResponse], and reports a Delete of an unknown id with
    status 200 and a nonzero embedded error code. *)
Record Server : Type := mkServer {
  token : string;
  next_id : Z;
  store : gmap Z Template
}.

Definition base : string := "https://api.postmarkapp.com/templates".

Definition reply (code : Z) (p : PostmarkResponse) : Response :=
  mkResponse code (render (json_pkg.PostmarkResponse_toJSON p)).

Definition with_id (id : Z) (t : Template) : Template :=
  mkTemplate id (Name t) (Subject t) (HtmlBody t) (TextBody t) (Alias t) (Active t).

Definition accepts (body : option string) : option Template :=
  match body with
  | Some b =>
    match json_pkg.Decode_Template b with
    | Ok t => if has_content t then Some t else None
    | Err _ => None
    end
  | None => None
  end.

Fixpoint until_amp (s : string) : string * string :=
  match s with
  | String c r =>
    if Ascii.eqb c "&"%char then (EmptyString, s)
    else let (a, b) := until_amp r in (String c a, b)
  | EmptyString => (EmptyString, EmptyString)
  end.

(** The [offset] and [count] of a list query. *)
Definition query (q : string) : option (Z * Z) :=
  match strip_prefix "offset=" q with
  | Some r =>
    let (o, r') := until_amp r in
    match strip_prefix "&count=" r' with
    | Some c =>
      match strconv.ParseInt o, strconv.ParseInt c with
      | Some offset, Some count => Some (offset, count)
      | _, _ => None
      end
    | None => None
    end
  | None => None
  end.

Definition page (offset count : Z) (s : Server) : TemplatesResponse :=
  let all := map snd (map_to_list (store s)) in
  mkTemplatesResponse
    (Some (firstn (Z.to_nat count) (skipn (Z.to_nat offset) all)))
    (Z.of_nat (List.length all)).

Definition bad_request (code : Z) (msg : string) : Response :=
  reply 422 (mkPostmarkResponse 0 code msg).

(** Modelled from the spec: the answers of the simulated API.  A request
    without the credential gets 401; Create stores the template it can
    decode and accept and answers with the new id; Get answers with the
    stored template, or 422 for an unknown id; Update and List follow the
    same pattern, List rejecting a negative offset and a count below one
    with 422; the Delete of an unknown id and the Validate of a template it
    does not accept are answered with 200 and a nonzero embedded error
    code. *)
Definition handle (req : Request) (s : Server) : result Response error * Server :=
  if negb (String.eqb (http.Header_Get (Header req) "X-Postmark-Server-Token") (token s))
  then (Ok (reply 401 (mkPostmarkResponse 0 10 "Bad or missing API token.")), s)
  else
    match strip_prefix base (URL req) with
    | None => (Ok (mkResponse 404 "not found"), s)
    | Some EmptyString =>
      if String.eqb (Method req) "POST" then
        match accepts (ReqBody req) with
        | Some t =>
          let id := next_id s in
          (Ok (reply 200 (mkPostmarkResponse id 0 "OK")),
           mkServer (token s) (id + 1) (<[id := with_id id t]> (store s)))
        | None => (Ok (bad_request 1001 "Invalid template"), s)
        end
      else (Ok (mkResponse 405 "method not allowed"), s)
    | Some (String "?"%char q) =>
      if String.eqb (Method req) "GET" then
        match query q with
        | Some (offset, count) =>
          if (offset <? 0) || (count <=? 0)
          then (Ok (bad_request 300 "Invalid paging parameters"), s)
          else (Ok (mkResponse 200
                      (render (json_pkg.TemplatesResponse_toJSON (page offset count s)))), s)
        | None => (Ok (bad_request 300 "Invalid paging parameters"), s)
        end
      else (Ok (mkResponse 405 "method not allowed"), s)
    | Some (String "/"%char p) =>
      if String.eqb p "validate" then
        if String.eqb (Method req) "POST" then
          match accepts (ReqBody req) with
          | Some _ => (Ok (reply 200 (mkPostmarkResponse 0 0 "OK")), s)
          | None => (Ok (reply 200 (mkPostmarkResponse 0 1001 "Invalid template")), s)
          end
        else (Ok (mkResponse 405 "method not allowed"), s)
      else
        match strconv.ParseInt p with
        | None => (Ok (mkResponse 404 "not found"), s)
        | Some id =>
          if String.eqb (Method req) "GET" then
            match store s !! id with
            | Some t => (Ok (mkResponse 200 (render (json_pkg.Template_toJSON t))), s)
            | None => (Ok (bad_request 1101 "The Template's ID is invalid or missing."), s)
            end
          else if String.eqb (Method req) "PUT" then
            match store s !! id, accepts (ReqBody req) with
            | Some _, Some t =>
              (Ok (reply 200 (mkPostmarkResponse id 0 "OK")),
               mkServer (token s) (next_id s) (<[id := with_id id t]> (store s)))
            | None, _ =>
              (Ok (bad_request 1101 "The Template's ID is invalid or missing."), s)
            | Some _, None => (Ok (bad_request 1001 "Invalid template"), s)
            end
          else if String.eqb (Method req) "DELETE" then
            match store s !! id with
            | Some _ =>
              (Ok (reply 200 (mkPostmarkResponse 0 0 "Template removed.")),
               mkServer (token s) (next_id s) (delete id (store s)))
            | None =>
              (Ok (reply 200 (mkPostmarkResponse 0 1101
                                "The Template's ID is invalid or missing.")), s)
            end
          else (Ok (mkResponse 405 "method not allowed"), s)
        end
    | Some _ => (Ok (mkResponse 404 "not found"), s)
    end.

Definition fresh (tok : string) : Server := mkServer tok 1 ∅.

End double.

(** ** Responses used in the examples below *)

Definition invalid_template_response : Response :=
  mkResponse 200 (wire "{'errorCode': 1001, 'message': 'Invalid template'}").

Definition two_of_twelve : Response :=
  mkResponse 200
    (wire "{'totalCount': 12, 'templates': [{'templateID': 3, 'name': 'b'}, {'templateID': 1, 'name': 'a'}]}").

Definition two_of_two : Response :=
  mkResponse 200
    (wire "{'totalCount': 2, 'templates': [{'templateID': 3, 'name': 'b'}, {'templateID': 1, 'name': 'a'}]}").

Definition paging_error_200 : Response :=
  mkResponse 200 (wire "{'errorCode': 300, 'message': 'Invalid paging parameters'}").

(** ** Auxiliary notions for the wire format *)

(** The digits [Itoa] prints for a positive number. *)
Definition pos_digits (p : positive) : string := NilEmpty.string_of_uint (Pos.to_uint p).

(** What may follow a value inside an object. *)
Definition closes (rest : string) : Prop :=
  exists r, rest = String "," r \/ rest = String "}" r.

(** The values [Marshal] writes for the fields of the structs above:
    strings, integers as [Itoa] prints them, and booleans. *)
Inductive plain : json -> Prop :=
| plain_string (s : string) : plain (JString s)
| plain_number (z : Z) : plain (JNumber (strconv.Itoa z))
| plain_bool (b : bool) : plain (JBool b).

Definition plain_members (ms : list (string * json)) : Prop :=
  Forall (fun kv => utf8.ValidString (fst kv) = true /\ plain (snd kv)) ms.

(** A value as it is read back. *)
Definition coerce_json (j : json) : json :=
  match j with
  | JString s => JString (coerce s)
  | _ => j
  end.

Definition coerce_member (kv : string * json) : string * json :=
  (fst kv, coerce_json (snd kv)).

(** One member of an object as [render] writes it. *)
Definition member (kv : string * json) : string :=
  jsontext.quote (fst kv) ++ ":" ++ jsontext.render (snd kv).

(** A template whose name is one byte that is not UTF-8. *)
Definition ill_named : Template :=
  mkTemplate 0 (String (mkbyte 255) "") "Reset your password" "" "Click" "" false.

(** The template of the example entry point. *)
Definition password_reset : Template :=
  mkTemplate 0 "Password Reset" "Reset your password"
    "<html><body><p>Click <a href='{{reset_link}}'>here</a> to reset your password.</p></body></html>"
    "Click the following link to reset your password: {{reset_link}}"
    "" false.

(** The keys [Marshal] writes for a template, in order. *)
Definition wire_keys (t : Template) : list string :=
  ((if TemplateID t =? 0 then [] else ["templateID"])
   ++ ["name"; "subject"; "htmlBody"; "textBody"]
   ++ (if String.eqb (Alias t) "" then [] else ["alias"])
   ++ (if Active t then ["active"] else []))%list.

Definition keys_of (j : json) : list string :=
  match j with
  | JObject ms => map fst ms
  | _ => []
  end.

(** The members of an object that do not address the field [Active]. *)
Definition addresses_active (k : string) : bool :=
  match json_pkg.field_of json_pkg.Template_fields k with
  | Some f => String.eqb f "active"
  | None => false
  end.

Definition no_active (ms : list (string * json)) : bool :=
  forallb (fun kv => negb (addresses_active (fst kv))) ms.

(** The bytes a JSON value can begin with: the quote of a string, the
    bracket of an object or an array, the first letter of [true], [false]
    and [null], the minus sign and the digits of a number. *)
Definition begins_value (c : ascii) : bool :=
  Ascii.eqb c dquote || Ascii.eqb c "{" || Ascii.eqb c "[" || Ascii.eqb c "t"
  || Ascii.eqb c "f" || Ascii.eqb c "n" || Ascii.eqb c "-" || strconv.is_digit c.

(** The keys that address the field [Templates] of a list response, and
    the members of an object none of which does. *)
Definition addresses_templates (k : string) : bool :=
  match json_pkg.field_of json_pkg.TemplatesResponse_fields k with
  | Some f => String.eqb f "templates"
  | None => false
  end.

Definition no_templates (ms : list (string * json)) : bool :=
  forallb (fun kv => negb (addresses_templates (fst kv))) ms.

(** ** Further notions: results, the entry point, list responses *)

(** The value an operation returns beside a non-nil error. *)
Definition zero_value (c : call) : value :=
  match c with
  | Create _ => VId 0
  | Get _ => VTemplate None
  | List _ _ => VTemplates None
  | Update _ | Delete _ | Validate _ => VNone
  end.

(** The error of a request that could not be sent. *)
Definition SendError (e : error) (cause : error) : Prop :=
  e = wrapError "failed to send request: " cause.

(** Which of the client's error kinds an operation can return at all. *)
Definition decodes (c : call) : bool :=
  match c with
  | Create _ | Get _ | Update _ | List _ _ => true
  | Delete _ | Validate _ => false
  end.

Definition checks_error_code (c : call) : bool :=
  match c with
  | Create _ | Update _ => true
  | _ => false
  end.

(** ASCII letters in upper case, byte by byte. *)
Fixpoint ascii_upper (s : string) : string :=
  match s with
  | EmptyString => EmptyString
  | String c r => String (json_pkg.upper c) (ascii_upper r)
  end.

Definition is_ascii (s : string) : bool :=
  forallb (fun c => byteval c <? 128) (list_ascii_of_string s).

(** The members of an object whose key addresses one of the given fields. *)
Definition addressed (names : list string) (kv : string * json) : bool :=
  match json_pkg.field_of names (fst kv) with
  | Some _ => true
  | None => false
  end.

(** A body that holds nothing for the struct with the given fields: the
    literal [null], or an object none of whose keys addresses a field. *)
Definition holds_nothing_for (names : list string) (j : json) : Prop :=
  j = JNull \/ exists ms, j = JObject ms /\ forallb (fun kv => negb (addressed names kv)) ms = true.

(** A list response as it is read back: each template with its text
    coerced, the order and the count kept. *)
Definition coerce_TemplatesResponse (r : TemplatesResponse) : TemplatesResponse :=
  mkTemplatesResponse
    (match Templates r with
     | Some l => Some (map coerce_Template l)
     | None => None
     end)
    (TotalCount r).

(** The numbers of a list response fit their Go types. *)
Definition numbers_fit (r : TemplatesResponse) : bool :=
  strconv.in_int64 (TotalCount r)
  && match Templates r with
     | Some l => forallb (fun t => strconv.in_int64 (TemplateID t)) l
     | None => true
     end.

(** The members [Marshal] writes for a template. *)
Definition members_of (t : Template) : list (string * json) :=
  match json_pkg.Template_toJSON t with
  | JObject ms => ms
  | _ => []
  end.

(** A page of two templates out of five. *)
Definition two_of_five : TemplatesResponse :=
  mkTemplatesResponse
    (Some [mkTemplate 3 "Welcome" "Hello" "<p>Hi</p>" "Hi" "welcome" true;
           mkTemplate 1 "Password Reset" "Reset <now>" "" "Click" "" false])
    5.

(** ** The entry point *)

(** What [main] writes, in order: text on standard output from
    [fmt.Println] and [fmt.Printf], and at most one [log.Fatalf], which
    logs its message (the text before [%v], then the error) and ends the
    process with status 1. *)
Inductive output : Type :=
| Stdout (text : string)
| Fatalf (before : string) (err : error).

Definition newline : string := String (mkbyte 10) "".

Definition Println (s : string) : output := Stdout (s ++ newline).

(** [fmt.Printf("Total Templates: %d\n", len(templates))] and the loop
    over the slice; ranging over the nil slice runs no iteration. *)
Definition print_templates (templates : slice Template) : list output :=
  Stdout ("Total Templates: " ++ strconv.Itoa (Z.of_nat (len templates)) ++ newline)
  :: map (fun t =>
            Stdout ("ID: " ++ strconv.Itoa (TemplateID t)
                    ++ ", Name: " ++ Name t
                    ++ ", Active: " ++ (if Active t then "true" else "false")
                    ++ ", Subject: " ++ Subject t ++ newline))
         (match templates with Some l => l | None => [] end).

Section Main.

Variable World : Type.
Variable client_Do : Request -> World -> result Response error * World.

(** [main], with the statements that are commented out in the source left
    out.  The source initialises [apiToken] with a quoted text that is not
    a Go string; the credential is an argument here. *)
Definition main (apiToken : string) (w : World) : list output * World :=
  let out := [Println "before deleting template id 36087615"] in
  let offset := 0 in
  let count := 10 in
  match GetTemplates client_Do apiToken offset count w with
  | ((_, Some err), w) => (List.app out [Fatalf "Error listing templates: " err], w)
  | ((templates, None), w) =>
    let out := List.app out (print_templates templates) in
    match DeleteTemplate client_Do apiToken 36087634 w with
    | (Some err, w) => (List.app out [Fatalf "Error deleting template: " err], w)
    | (None, w) =>
      let out := List.app out [Println "Template deleted successfully";
                               Println "After deleting template id 36087615"] in
      match GetTemplates client_Do apiToken offset count w with
      | ((_, Some err), w) => (List.app out [Fatalf "Error listing templates: " err], w)
      | ((list, None), w) => (List.app out (print_templates list), w)
      end
    end
  end.

End Main.

Arguments main {World} client_Do apiToken w.

(** The process ends with status 1 exactly when the last thing written is
    a [log.Fatalf]. *)
Definition exit_status (out : list output) : Z :=
  match List.last out (Stdout "") with
  | Fatalf _ _ => 1
  | Stdout _ => 0
  end.

Definition is_fatal (o : output) : bool :=
  match o with
  | Fatalf _ _ => true
  | Stdout _ => false
  end.

(** The three calls of [main], in the order of the source. *)
Definition main_calls : list call := [List 0 10; Delete 36087634; List 0 10].

(** ** What a request addresses *)

(** The resource a call addresses at the remote service. *)
Inductive address : Type :=
| Collection
| Item (id : Z)
| Page (offset count : Z)
| Validation.

Definition address_of (c : call) : address :=
  match c with
  | Create _ => Collection
  | Get id | Delete id => Item id
  | Update t => Item (TemplateID t)
  | List offset count => Page offset count
  | Validate _ => Validation
  end.

Definition no_amp (s : string) : bool :=
  forallb (fun c => negb (Ascii.eqb c "&"%char)) (list_ascii_of_string s).

(** ** Bytes of a payload *)

(** A byte from 0x20 upwards other than [<], [>] and [&].  The bytes
    below 0x20 are the control characters [Marshal] escapes; DEL (0x7F) is
    not among them and counts as safe here, as it does for [Marshal]. *)
Definition wire_safe (b : ascii) : bool :=
  let n := byteval b in
  (32 <=? n) && negb ((n =? 60) || (n =? 62) || (n =? 38)).

Definition all_safe (s : string) : bool :=
  forallb wire_safe (list_ascii_of_string s).

(** A template with markup, a line break and a control byte in its text,
    and one whose name is the byte DEL. *)
Definition with_markup : Template :=
  mkTemplate 5 "R&D <news>" "Hello" (String (mkbyte 10) "<b>Hi</b>")
    (String (mkbyte 1) "Hi") "" true.

Definition named_del : Template :=
  mkTemplate 0 (String (mkbyte 127) "") "s" "" "t" "" false.

(** ** Values a field of [Template] does not take *)

(** A value of another JSON type than the field's, or a number that is
    not an integer of 64 bits; [null] is never rejected. *)
Definition rejects (f : string) (v : json) : bool :=
  match v with
  | JNull => false
  | JString _ => String.eqb f "templateID" || String.eqb f "active"
  | JBool _ => negb (String.eqb f "active")
  | JNumber lit =>
    negb (String.eqb f "templateID")
    || match strconv.ParseInt lit with Some _ => false | None => true end
  | JArray _ | JObject _ => true
  end.

(** ** The order of the members of an object *)

(** Two decodings end alike: with the same value, or both with an error. *)
Definition same_outcome {A E : Type} (r1 r2 : result A E) : Prop :=
  match r1, r2 with
  | Ok a, Ok b => a = b
  | Err _, Err _ => True
  | _, _ => False
  end.

(** The fields of [Template] the members of an object address, in the
    order of the members. *)
Fixpoint targets (ms : list (string * json)) : list string :=
  match ms with
  | [] => []
  | (k, _) :: ms' =>
    match json_pkg.field_of json_pkg.Template_fields k with
    | Some f => f :: targets ms'
    | None => targets ms'
    end
  end.

(** ** The stages of the number scanner *)

(** [scan_number] in its four stages: the sign, the integer part, the
    fraction and the exponent (lemma [scan_number_stages]). *)
Definition sign_part (s : string) : string * string :=
  match s with
  | String "-"%char r => ("-", r)
  | _ => ("", s)
  end.

Definition int_part (s1 : string) : option (string * string) :=
  match s1 with
  | String "0"%char r => Some ("0", r)
  | _ => jsontext.digits1 s1
  end.

Definition frac_part (s2 : string) : option (string * string) :=
  match s2 with
  | String "."%char r =>
    match jsontext.digits1 r with
    | Some (ds, r') => Some ("." ++ ds, r')
    | None => None
    end
  | _ => Some ("", s2)
  end.

Definition exp_part (s3 : string) : option (string * string) :=
  match s3 with
  | String e r =>
    if (byteval e =? 101) || (byteval e =? 69) then
      let (sg, r1) := match r with
                      | String "+"%char r1 => ("+", r1)
                      | String "-"%char r1 => ("-", r1)
                      | _ => ("", r)
                      end in
      match jsontext.digits1 r1 with
      | Some (ds, r') => Some (String e sg ++ ds, r')
      | None => None
      end
    else Some ("", s3)
  | EmptyString => Some ("", s3)
  end.

(** A value that is read alike whatever follows it: a number is ended by
    the byte after it, every other value by its own last byte. *)
Definition self_delimited (j : json) (rest : string) : Prop :=
  match j with
  | JNumber _ => rest <> ""
  | _ => True
  end.


(** * Properties *)

(** ** Sanity checks of the model on concrete inputs *)

Example Itoa_0 : strconv.Itoa 0 = "0". Proof. reflexivity. Qed.

Example Itoa_neg : strconv.Itoa (-1205) = "-1205". Proof. reflexivity. Qed.

Example ParseInt_ok : strconv.ParseInt "36087634" = Some 36087634. Proof. reflexivity. Qed.

Example ParseInt_neg0 : strconv.ParseInt "-0" = Some 0. Proof. reflexivity. Qed.

Example ParseInt_frac : strconv.ParseInt "1.0" = None. Proof. reflexivity. Qed.

Example ParseInt_big : strconv.ParseInt "9223372036854775808" = None. Proof. reflexivity. Qed.

Example Decode_list :
  json_pkg.Decode_TemplatesResponse
    (wire "{'templates':[{'templateID':7,'name':'a','active':true}],'totalCount':12}")
  = Ok (mkTemplatesResponse (Some [mkTemplate 7 "a" "" "" "" "" true]) 12).
Proof. vm_compute. reflexivity. Qed.

Example Decode_api_casing :
  json_pkg.Decode_PostmarkResponse
    (wire "{'TemplateId': 1234, 'Name': 'x', 'ErrorCode': 0, 'Message': 'OK'} trailing")
  = Ok (mkPostmarkResponse 1234 0 "OK").
Proof. vm_compute. reflexivity. Qed.

Example Decode_type_error :
  json_pkg.Decode_PostmarkResponse (wire "{'templateID':'12'}")
  = Err (UnmarshalTypeError "string" "templateID").
Proof. vm_compute. reflexivity. Qed.

Example Decode_html : json_pkg.Decode_Template "<html>502</html>" = Err SyntaxError.
Proof. vm_compute. reflexivity. Qed.

Example Decode_empty : json_pkg.Decode_Template "" = Err io_EOF.
Proof. vm_compute. reflexivity. Qed.

Example Decode_null : json_pkg.Decode_Template "null" = Ok zero_Template.
Proof. vm_compute. reflexivity. Qed.

Example Marshal_reset :
  fst (json_pkg.Marshal (mkTemplate 0 "Password Reset" "Reset <b>" "" "a\b" "" false))
  = wire "{'name':'Password Reset','subject':'Reset \u003cb\u003e','htmlBody':'','textBody':'a\\b'}".
Proof. vm_compute. reflexivity. Qed.

(** ** Decimal text *)

Lemma all_digits_uint (d : Decimal.uint) :
  strconv.all_digits (NilEmpty.string_of_uint d) = true.
Proof.
  unfold strconv.all_digits.
  induction d; simpl; auto.
Qed.

Lemma string_of_uint_nonempty (d : Decimal.uint) :
  d <> Decimal.Nil -> NilEmpty.string_of_uint d <> EmptyString.
Proof. destruct d; simpl; congruence. Qed.

Lemma Pos_to_uint_nonnil (p : positive) : Pos.to_uint p <> Decimal.Nil.
Proof.
  intro H.
  assert (E : Pos.of_uint (Pos.to_uint p) = Npos p) by apply DecimalPos.Unsigned.of_to.
  rewrite H in E. discriminate.
Qed.

(** The text of a number is an optional minus sign and digits. *)
Lemma Itoa_shape (z : Z) :
  exists sign digits,
    strconv.Itoa z = sign ++ digits /\
    (sign = "" \/ sign = "-") /\
    digits <> "" /\ strconv.all_digits digits = true.
Proof.
  unfold strconv.Itoa.
  destruct z as [|p|p]; simpl.
  - exists "", "0". split; [reflexivity|]. split; [auto|]. split; [discriminate|reflexivity].
  - exists "", (NilEmpty.string_of_uint (Pos.to_uint p)).
    pose proof (Pos_to_uint_nonnil p) as Hn.
    split; [|split; [auto|split; [apply string_of_uint_nonempty, Hn|apply all_digits_uint]]].
    unfold NilZero.string_of_uint. destruct (Pos.to_uint p); [congruence | reflexivity ..].
  - exists "-", (NilEmpty.string_of_uint (Pos.to_uint p)).
    pose proof (Pos_to_uint_nonnil p) as Hn.
    split; [|split; [auto|split; [apply string_of_uint_nonempty, Hn|apply all_digits_uint]]].
    unfold NilZero.string_of_uint. destruct (Pos.to_uint p); [congruence | reflexivity ..].
Qed.

Lemma list_ascii_app (a b : string) :
  list_ascii_of_string (a ++ b) = (list_ascii_of_string a ++ list_ascii_of_string b)%list.
Proof. induction a as [|c a IH]; simpl; [reflexivity | now rewrite IH]. Qed.

Lemma is_digit_not_ctl (c : ascii) :
  strconv.is_digit c = true -> (byteval c <? 32) || (byteval c =? 127) = false.
Proof.
  unfold strconv.is_digit, byteval. intros H.
  apply andb_true_iff in H as [H1 H2].
  apply N.leb_le in H1. apply N.leb_le in H2.
  apply orb_false_iff. split; [apply Z.ltb_ge | apply Z.eqb_neq]; lia.
Qed.

Lemma containsCTLByte_app (a b : string) :
  http.containsCTLByte (a ++ b) = http.containsCTLByte a || http.containsCTLByte b.
Proof.
  unfold http.containsCTLByte. rewrite list_ascii_app. apply existsb_app.
Qed.

Lemma digits_no_ctl (s : string) :
  strconv.all_digits s = true -> http.containsCTLByte s = false.
Proof.
  unfold strconv.all_digits, http.containsCTLByte.
  induction s as [|c s IH]; simpl; auto.
  intros H. apply andb_true_iff in H as [Hc Hs].
  rewrite (is_digit_not_ctl c Hc). auto.
Qed.

Lemma Itoa_no_ctl (z : Z) : http.containsCTLByte (strconv.Itoa z) = false.
Proof.
  destruct (Itoa_shape z) as (sign & digits & -> & Hs & _ & Hd).
  rewrite containsCTLByte_app, (digits_no_ctl _ Hd).
  destruct Hs as [-> | ->]; reflexivity.
Qed.

(** ** The requests the client builds *)

Lemma NewRequest_ok (m url : string) (b : option string) :
  http.validMethod m = true -> http.containsCTLByte url = false ->
  http.NewRequest m url b = (mkRequest m url ∅ b, None).
Proof. intros Hm Hu. unfold http.NewRequest. rewrite Hm, Hu. reflexivity. Qed.

Lemma url_of_no_ctl (c : call) : http.containsCTLByte (url_of c) = false.
Proof.
  destruct c; simpl url_of;
    repeat (rewrite containsCTLByte_app || rewrite Itoa_no_ctl); reflexivity.
Qed.

Lemma validMethod_of (c : call) : http.validMethod (method_of c) = true.
Proof. destruct c; reflexivity. Qed.

Lemma NewRequest_of (c : call) :
  http.NewRequest (method_of c) (url_of c) (payload_of c)
  = (mkRequest (method_of c) (url_of c) ∅ (payload_of c), None).
Proof. apply NewRequest_ok; [apply validMethod_of | apply url_of_no_ctl]. Qed.

Ltac fold_request op c :=
  unfold op, json_pkg.Marshal;
  let E := fresh "E" in
  pose proof (NewRequest_of c) as E;
  unfold method_of, url_of, payload_of, json_pkg.Marshal in E;
  cbn [fst] in E; cbv beta iota zeta; rewrite E; reflexivity.

Section Unfold.

Context {World : Type}.
Variable Do : Request -> World -> result Response error * World.
Variable tok : string.

(** Each operation, with the request it sends folded into [request_of]. *)
Lemma CreateTemplate_unfold (t : Template) (w : World) :
  CreateTemplate Do tok t w =
  match Do (request_of tok (Create t)) w with
  | (Err err, w') => ((0, Some (Errorf_w "failed to send request: " err)), w')
  | (Ok resp, w') =>
    if negb (StatusCode resp =? http.StatusOK) then
      ((0, Some (Errorf_status (StatusCode resp) (Body resp))), w')
    else
      match json_pkg.Decode_PostmarkResponse (Body resp) with
      | Err err => ((0, Some (Errorf_w "failed to decode response: " (jsonError err))), w')
      | Ok p =>
        if negb (ErrorCode p =? 0)
        then ((0, Some (Errorf_s "failed to create template: " (Message p))), w')
        else ((RespTemplateID p, None), w')
      end
  end.
Proof.
  fold_request (@CreateTemplate) (Create t).
Qed.

Lemma GetTemplate_unfold (id : Z) (w : World) :
  GetTemplate Do tok id w =
  match Do (request_of tok (Get id)) w with
  | (Err err, w') => ((None, Some (Errorf_w "failed to send request: " err)), w')
  | (Ok resp, w') =>
    if negb (StatusCode resp =? http.StatusOK) then
      ((None, Some (Errorf_status (StatusCode resp) (Body resp))), w')
    else
      match json_pkg.Decode_Template (Body resp) with
      | Err err => ((None, Some (Errorf_w "failed to decode response: " (jsonError err))), w')
      | Ok template => ((Some template, None), w')
      end
  end.
Proof.
  fold_request (@GetTemplate) (Get id).
Qed.

Lemma UpdateTemplate_unfold (t : Template) (w : World) :
  UpdateTemplate Do tok t w =
  match Do (request_of tok (Update t)) w with
  | (Err err, w') => (Some (Errorf_w "failed to send request: " err), w')
  | (Ok resp, w') =>
    if negb (StatusCode resp =? http.StatusOK) then
      (Some (Errorf_status (StatusCode resp) (Body resp)), w')
    else
      match json_pkg.Decode_PostmarkResponse (Body resp) with
      | Err err => (Some (Errorf_w "failed to decode response: " (jsonError err)), w')
      | Ok p =>
        if negb (ErrorCode p =? 0)
        then (Some (Errorf_s "failed to update template: " (Message p)), w')
        else (None, w')
      end
  end.
Proof.
  fold_request (@UpdateTemplate) (Update t).
Qed.

Lemma DeleteTemplate_unfold (id : Z) (w : World) :
  DeleteTemplate Do tok id w =
  match Do (request_of tok (Delete id)) w with
  | (Err err, w') => (Some (Errorf_w "failed to send request: " err), w')
  | (Ok resp, w') =>
    if negb (StatusCode resp =? http.StatusOK)
    then (Some (Errorf_status (StatusCode resp) (Body resp)), w')
    else (None, w')
  end.
Proof.
  fold_request (@DeleteTemplate) (Delete id).
Qed.

Lemma GetTemplates_unfold (offset count : Z) (w : World) :
  GetTemplates Do tok offset count w =
  match Do (request_of tok (List offset count)) w with
  | (Err err, w') => ((None, Some (Errorf_w "failed to send request: " err)), w')
  | (Ok resp, w') =>
    if negb (StatusCode resp =? http.StatusOK) then
      ((None, Some (Errorf_status (StatusCode resp) (Body resp))), w')
    else
      match json_pkg.Decode_TemplatesResponse (Body resp) with
      | Err err => ((None, Some (Errorf_w "failed to decode response: " (jsonError err))), w')
      | Ok r => ((Templates r, None), w')
      end
  end.
Proof.
  fold_request (@GetTemplates) (List offset count).
Qed.

Lemma ValidateTemplate_unfold (t : Template) (w : World) :
  ValidateTemplate Do tok t w =
  match Do (request_of tok (Validate t)) w with
  | (Err err, w') => (Some (Errorf_w "failed to send request: " err), w')
  | (Ok resp, w') =>
    if negb (StatusCode resp =? http.StatusOK)
    then (Some (Errorf_status (StatusCode resp) (Body resp)), w')
    else (None, w')
  end.
Proof.
  fold_request (@ValidateTemplate) (Validate t).
Qed.

End Unfold.

(** ** Status, decoding and embedded error codes *)

Ltac by_cases :=
  repeat match goal with
         | |- context [match ?x with Ok _ => _ | Err _ => _ end] => destruct x eqn:?
         | |- context [if negb ?b then _ else _] => destruct b eqn:?; cbn [negb]
         | H : context [if negb ?b then _ else _] |- _ => destruct b eqn:?; cbn [negb] in H
         | H : context [match ?x with Ok _ => _ | Err _ => _ end] |- _ => destruct x eqn:?
         end.

Lemma status_not_ok (resp : Response) :
  StatusCode resp <> http.StatusOK -> negb (StatusCode resp =? http.StatusOK) = true.
Proof. intros H. apply negb_true_iff, Z.eqb_neq, H. Qed.

Lemma status_ok (resp : Response) :
  StatusCode resp = http.StatusOK -> negb (StatusCode resp =? http.StatusOK) = false.
Proof. intros H. apply negb_false_iff, Z.eqb_eq, H. Qed.

(** C3. For each of the six operations, a response whose status is not 200
    makes the operation fail with the transport error whose text is
    ["unexpected status code: "], the status in decimal, [", response: "]
    and the body of the response as received, whatever the body holds. *)
Theorem non_200_is_transport_error
        {World : Type} (Do : Request -> World -> result Response error * World)
        (tok : string) (c : call) (w w' : World) (resp : Response) :
  Do (request_of tok c) w = (Ok resp, w') ->
  StatusCode resp <> http.StatusOK ->
  exists e,
    failure (run Do tok c w) = Some e /\
    TransportError e (StatusCode resp) (Body resp) /\
    e = errorString ("unexpected status code: " ++ strconv.Itoa (StatusCode resp)
                     ++ ", response: " ++ Body resp).
Proof.
  intros HDo Hst. apply status_not_ok in Hst.
  exists (Errorf_status (StatusCode resp) (Body resp)).
  split; [|split; reflexivity].
  destruct c; unfold run, failure.
  - rewrite CreateTemplate_unfold, HDo, Hst. reflexivity.
  - rewrite GetTemplate_unfold, HDo, Hst. reflexivity.
  - rewrite UpdateTemplate_unfold, HDo, Hst. reflexivity.
  - rewrite DeleteTemplate_unfold, HDo, Hst. reflexivity.
  - rewrite GetTemplates_unfold, HDo, Hst. reflexivity.
  - rewrite ValidateTemplate_unfold, HDo, Hst. reflexivity.
Qed.

Lemma non_200_is_transport_error_witness :
  exists e,
    failure (run (canned (mkResponse 502 "<html>Bad Gateway</html>")) "tok"
                 (Get 36087634) tt) = Some e /\
    TransportError e 502 "<html>Bad Gateway</html>" /\
    e = errorString "unexpected status code: 502, response: <html>Bad Gateway</html>".
Proof.
  apply (non_200_is_transport_error
           (canned (mkResponse 502 "<html>Bad Gateway</html>")) "tok"
           (Get 36087634) tt tt (mkResponse 502 "<html>Bad Gateway</html>")).
  - reflexivity.
  - discriminate.
Defined.

(** C2. Delete and Validate look at the status only: answered with status
    200 they succeed, whatever the body holds, an embedded nonzero error
    code included. *)
Theorem delete_validate_status_only
        {World : Type} (Do : Request -> World -> result Response error * World)
        (tok : string) (w w' : World) (resp : Response) :
  StatusCode resp = http.StatusOK ->
  (forall id, Do (request_of tok (Delete id)) w = (Ok resp, w') ->
              DeleteTemplate Do tok id w = (None, w')) /\
  (forall t, Do (request_of tok (Validate t)) w = (Ok resp, w') ->
             ValidateTemplate Do tok t w = (None, w')).
Proof.
  intros Hst. apply status_ok in Hst. split.
  - intros id HDo. rewrite DeleteTemplate_unfold, HDo, Hst. reflexivity.
  - intros t HDo. rewrite ValidateTemplate_unfold, HDo, Hst. reflexivity.
Qed.

(** The double reports the Delete of an unknown id with status 200 and
    error code 1101; the client reports success. *)
Lemma delete_validate_status_only_witness :
  json_pkg.Decode_PostmarkResponse
    (Body (double.reply 200 (mkPostmarkResponse 0 1101
                               "The Template's ID is invalid or missing.")))
  = Ok (mkPostmarkResponse 0 1101 "The Template's ID is invalid or missing.") /\
  DeleteTemplate double.handle "tok" 5 (double.fresh "tok") = (None, double.fresh "tok").
Proof.
  split.
  - vm_compute. reflexivity.
  - apply (delete_validate_status_only double.handle "tok"
             (double.fresh "tok") (double.fresh "tok")
             (double.reply 200 (mkPostmarkResponse 0 1101
                                  "The Template's ID is invalid or missing."))).
    + reflexivity.
    + vm_compute. reflexivity.
Defined.

Lemma parse_value_step (n : nat) (depth : N) (s : string) :
  jsontext.parse_value (S n) depth s =
  match jsontext.skip_ws s with
  | EmptyString => None
  | String c r =>
    if Ascii.eqb c dquote then
      match jsontext.unquote (String.length r) r with
      | Some (str, rest) => Some (JString str, rest)
      | None => None
      end
    else
      match c with
      | "{"%char =>
        if (depth <? jsontext.maxNestingDepth)%N then
          match jsontext.skip_ws r with
          | String "}"%char r' => Some (JObject [], r')
          | r1 =>
            match jsontext.parse_members n (depth + 1)%N r1 with
            | Some (ms, rest) => Some (JObject ms, rest)
            | None => None
            end
          end
        else None
      | "["%char =>
        if (depth <? jsontext.maxNestingDepth)%N then
          match jsontext.skip_ws r with
          | String "]"%char r' => Some (JArray [], r')
          | r1 =>
            match jsontext.parse_elements n (depth + 1)%N r1 with
            | Some (es, rest) => Some (JArray es, rest)
            | None => None
            end
          end
        else None
      | "t"%char =>
        match jsontext.strip_prefix "rue" r with
        | Some rest => Some (JBool true, rest) | None => None end
      | "f"%char =>
        match jsontext.strip_prefix "alse" r with
        | Some rest => Some (JBool false, rest) | None => None end
      | "n"%char =>
        match jsontext.strip_prefix "ull" r with
        | Some rest => Some (JNull, rest) | None => None end
      | _ =>
        match jsontext.scan_number (String c r) with
        | Some (lit, rest) => Some (JNumber lit, rest)
        | None => None
        end
      end
  end.
Proof. reflexivity. Qed.

(** A body of white space only has no value to read. *)
Lemma readValue_blank (body : string) :
  jsontext.skip_ws body = "" -> json_pkg.readValue body = Err io_EOF.
Proof. intros H. unfold json_pkg.readValue. now rewrite H. Qed.

(** A body whose first byte after white space cannot begin a value is a
    syntax error. *)
Lemma readValue_no_value (body : string) (c : ascii) (r : string) :
  jsontext.skip_ws body = String c r -> begins_value c = false ->
  json_pkg.readValue body = Err SyntaxError.
Proof.
  intros H Hc. unfold json_pkg.readValue. rewrite H.
  replace (2 * String.length body + 1)%nat with (S (2 * String.length body)) by lia.
  rewrite parse_value_step, H.
  destruct c as [[] [] [] [] [] [] [] []]; try discriminate Hc; reflexivity.
Qed.

(** C5. Create, Get, Update and List answered with status 200 and a body
    the decoder rejects for the struct the operation expects fail with
    ["failed to decode response: "] wrapping the decoder's error.  Among
    the bodies the decoder rejects for every struct are those of white
    space only, with [io.EOF], and those whose first byte after white
    space cannot begin a JSON value, with a syntax error. *)
Theorem undecodable_body_is_decode_error
        {World : Type} (Do : Request -> World -> result Response error * World)
        (tok : string) (w w' : World) (resp : Response) (cause : json_error) :
  StatusCode resp = http.StatusOK ->
  (forall t, Do (request_of tok (Create t)) w = (Ok resp, w') ->
     json_pkg.Decode_PostmarkResponse (Body resp) = Err cause ->
     exists e, CreateTemplate Do tok t w = ((0, Some e), w') /\
               DecodeError e cause /\ Unwrap e = Some (jsonError cause)) /\
  (forall id, Do (request_of tok (Get id)) w = (Ok resp, w') ->
     json_pkg.Decode_Template (Body resp) = Err cause ->
     exists e, GetTemplate Do tok id w = ((None, Some e), w') /\
               DecodeError e cause /\ Unwrap e = Some (jsonError cause)) /\
  (forall t, Do (request_of tok (Update t)) w = (Ok resp, w') ->
     json_pkg.Decode_PostmarkResponse (Body resp) = Err cause ->
     exists e, UpdateTemplate Do tok t w = (Some e, w') /\
               DecodeError e cause /\ Unwrap e = Some (jsonError cause)) /\
  (forall offset count, Do (request_of tok (List offset count)) w = (Ok resp, w') ->
     json_pkg.Decode_TemplatesResponse (Body resp) = Err cause ->
     exists e, GetTemplates Do tok offset count w = ((None, Some e), w') /\
               DecodeError e cause /\ Unwrap e = Some (jsonError cause)) /\
  (jsontext.skip_ws (Body resp) = "" ->
   json_pkg.Decode_PostmarkResponse (Body resp) = Err io_EOF /\
   json_pkg.Decode_Template (Body resp) = Err io_EOF /\
   json_pkg.Decode_TemplatesResponse (Body resp) = Err io_EOF) /\
  (forall c r, jsontext.skip_ws (Body resp) = String c r -> begins_value c = false ->
   json_pkg.Decode_PostmarkResponse (Body resp) = Err SyntaxError /\
   json_pkg.Decode_Template (Body resp) = Err SyntaxError /\
   json_pkg.Decode_TemplatesResponse (Body resp) = Err SyntaxError).
Proof.
  intros Hst. apply status_ok in Hst.
  split; [|split; [|split; [|split; [|split]]]].
  - intros t H H0. eexists. split; [|split; reflexivity].
    rewrite CreateTemplate_unfold, H, Hst, H0. reflexivity.
  - intros id H H0. eexists. split; [|split; reflexivity].
    rewrite GetTemplate_unfold, H, Hst, H0. reflexivity.
  - intros t H H0. eexists. split; [|split; reflexivity].
    rewrite UpdateTemplate_unfold, H, Hst, H0. reflexivity.
  - intros offset count H H0. eexists. split; [|split; reflexivity].
    rewrite GetTemplates_unfold, H, Hst, H0. reflexivity.
  - intros H. unfold json_pkg.Decode_PostmarkResponse, json_pkg.Decode_Template,
                json_pkg.Decode_TemplatesResponse.
    rewrite (readValue_blank _ H). repeat split.
  - intros c r H Hc. unfold json_pkg.Decode_PostmarkResponse, json_pkg.Decode_Template,
                       json_pkg.Decode_TemplatesResponse.
    rewrite (readValue_no_value _ c r H Hc). repeat split.
Qed.

Lemma undecodable_body_is_decode_error_witness :
  exists e, GetTemplate (canned (mkResponse 200 "<html>maintenance</html>")) "tok" 7 tt
            = ((None, Some e), tt) /\
            DecodeError e SyntaxError /\ Unwrap e = Some (jsonError SyntaxError).
Proof.
  destruct (undecodable_body_is_decode_error
              (canned (mkResponse 200 "<html>maintenance</html>")) "tok" tt tt
              (mkResponse 200 "<html>maintenance</html>") SyntaxError eq_refl)
    as (_ & HG & _ & _ & _ & HS).
  apply (HG 7); [reflexivity|].
  apply (HS "<"%char "html>maintenance</html>"); reflexivity.
Defined.

(** What follows the first value is not read: [null] followed by a byte
    is a template of zero fields, and a number followed by a byte is a
    value of the wrong type, not a syntax error. *)
Example null_then_a_byte :
  GetTemplate (canned (mkResponse 200 "nullx")) "tok" 7 tt
  = ((Some zero_Template, None), tt).
Proof. vm_compute. reflexivity. Qed.

Example number_then_a_byte :
  json_pkg.Decode_Template "12x" = Err (UnmarshalTypeError "number" "").
Proof. vm_compute. reflexivity. Qed.

(** C10. An error comes with the zero value: id 0 from CreateTemplate,
    a nil pointer from GetTemplate, a nil slice from GetTemplates; and a
    GetTemplate without error returns a pointer that is not nil. *)
Theorem error_comes_with_zero_value
        {World : Type} (Do : Request -> World -> result Response error * World)
        (tok : string) (w : World) :
  (forall t id e w', CreateTemplate Do tok t w = ((id, Some e), w') -> id = 0) /\
  (forall id p e w', GetTemplate Do tok id w = ((p, Some e), w') -> p = None) /\
  (forall offset count l e w',
      GetTemplates Do tok offset count w = ((l, Some e), w') -> l = None) /\
  (forall id p w', GetTemplate Do tok id w = ((p, None), w') -> p <> None).
Proof.
  repeat split.
  - intros t id e w'. rewrite CreateTemplate_unfold.
    destruct (Do _ w) as [[resp|err] w1]; intros H; by_cases; congruence.
  - intros id p e w'. rewrite GetTemplate_unfold.
    destruct (Do _ w) as [[resp|err] w1]; intros H; by_cases; congruence.
  - intros offset count l e w'. rewrite GetTemplates_unfold.
    destruct (Do _ w) as [[resp|err] w1]; intros H; by_cases; congruence.
  - intros id p w'. rewrite GetTemplate_unfold.
    destruct (Do _ w) as [[resp|err] w1]; intros H; by_cases; congruence.
Qed.

Lemma error_comes_with_zero_value_witness :
  fst (fst (CreateTemplate (unreachable (httpError "dial tcp: no route to host"))
                           "tok" zero_Template tt)) = 0 /\
  fst (fst (GetTemplate double.handle "tok" 9 (double.fresh "tok"))) = None /\
  fst (fst (GetTemplates double.handle "tok" 0 0 (double.fresh "tok"))) = None /\
  fst (fst (GetTemplate (canned (mkResponse 200 "{}")) "tok" 9 tt)) <> None.
Proof.
  pose proof (error_comes_with_zero_value
                (unreachable (httpError "dial tcp: no route to host")) "tok" tt) as H1.
  pose proof (error_comes_with_zero_value double.handle "tok" (double.fresh "tok")) as H2.
  pose proof (error_comes_with_zero_value (canned (mkResponse 200 "{}")) "tok" tt) as H3.
  destruct H1 as (C & _). destruct H2 as (_ & G & L & _). destruct H3 as (_ & _ & _ & S).
  split; [|split; [|split]].
  - eapply (C zero_Template). vm_compute. reflexivity.
  - eapply (G 9). vm_compute. reflexivity.
  - eapply (L 0 0). vm_compute. reflexivity.
  - eapply (S 9). vm_compute. reflexivity.
Defined.

(** C4, as the code has it.  Create and Update answered with status 200
    and a body that decodes: a nonzero embedded error code makes the
    operation fail with the remote error that carries the embedded message;
    with error code zero Create returns the decoded templateID and Update
    succeeds.  (Validate does not read the body.) *)
Theorem create_update_embedded_error_code
        {World : Type} (Do : Request -> World -> result Response error * World)
        (tok : string) (w w' : World) (resp : Response) (p : PostmarkResponse) :
  StatusCode resp = http.StatusOK ->
  json_pkg.Decode_PostmarkResponse (Body resp) = Ok p ->
  (forall t, Do (request_of tok (Create t)) w = (Ok resp, w') ->
     (ErrorCode p <> 0 ->
      exists e, CreateTemplate Do tok t w = ((0, Some e), w') /\
                RemoteError e (Message p) /\
                e = errorString ("failed to create template: " ++ Message p)) /\
     (ErrorCode p = 0 ->
      CreateTemplate Do tok t w = ((RespTemplateID p, None), w'))) /\
  (forall t, Do (request_of tok (Update t)) w = (Ok resp, w') ->
     (ErrorCode p <> 0 ->
      exists e, UpdateTemplate Do tok t w = (Some e, w') /\
                RemoteError e (Message p) /\
                e = errorString ("failed to update template: " ++ Message p)) /\
     (ErrorCode p = 0 -> UpdateTemplate Do tok t w = (None, w'))).
Proof.
  intros Hst Hdec. apply status_ok in Hst.
  split; intros t HDo; split; intros Hcode.
  - exists (Errorf_s "failed to create template: " (Message p)).
    split; [|split; [exists "create"; reflexivity | reflexivity]].
    rewrite CreateTemplate_unfold, HDo, Hst, Hdec.
    apply Z.eqb_neq in Hcode. rewrite Hcode. reflexivity.
  - rewrite CreateTemplate_unfold, HDo, Hst, Hdec, Hcode. reflexivity.
  - exists (Errorf_s "failed to update template: " (Message p)).
    split; [|split; [exists "update"; reflexivity | reflexivity]].
    rewrite UpdateTemplate_unfold, HDo, Hst, Hdec.
    apply Z.eqb_neq in Hcode. rewrite Hcode. reflexivity.
  - rewrite UpdateTemplate_unfold, HDo, Hst, Hdec, Hcode. reflexivity.
Qed.

Lemma create_update_embedded_error_code_witness :
  (exists e, CreateTemplate (canned invalid_template_response) "tok" zero_Template tt
             = ((0, Some e), tt) /\
             RemoteError e "Invalid template" /\
             e = errorString "failed to create template: Invalid template") /\
  CreateTemplate double.handle "tok"
                 (mkTemplate 0 "Password Reset" "Reset your password" "" "Click" "" false)
                 (double.fresh "tok")
  = ((1, None),
     snd (double.handle
            (request_of "tok"
               (Create (mkTemplate 0 "Password Reset" "Reset your password" "" "Click" "" false)))
            (double.fresh "tok"))).
Proof.
  split.
  - pose proof (create_update_embedded_error_code
                  (canned invalid_template_response) "tok" tt tt
                  invalid_template_response
                  (mkPostmarkResponse 0 1001 "Invalid template")) as H.
    destruct H as [HC _]; [reflexivity | vm_compute; reflexivity |].
    destruct (HC zero_Template) as [Hbad _]; [reflexivity|].
    apply Hbad. discriminate.
  - pose (t := mkTemplate 0 "Password Reset" "Reset your password" "" "Click" "" false).
    pose proof (create_update_embedded_error_code
                  double.handle "tok" (double.fresh "tok")
                  (snd (double.handle (request_of "tok" (Create t)) (double.fresh "tok")))
                  (double.reply 200 (mkPostmarkResponse 1 0 "OK"))
                  (mkPostmarkResponse 1 0 "OK")) as H.
    destruct H as [HC _]; [reflexivity | vm_compute; reflexivity |].
    destruct (HC t) as [_ Hgood]; [vm_compute; reflexivity|].
    apply Hgood. reflexivity.
Defined.

(** C4 as stated fails for Validate: status 200, a body that decodes with
    error code 1001, and ValidateTemplate returns no error. *)
Lemma validate_ignores_embedded_error_code :
  StatusCode invalid_template_response = http.StatusOK /\
  json_pkg.Decode_PostmarkResponse (Body invalid_template_response)
  = Ok (mkPostmarkResponse 0 1001 "Invalid template") /\
  ValidateTemplate (canned invalid_template_response) "tok" zero_Template tt = (None, tt) /\
  ~ (exists e, failure (run (canned invalid_template_response) "tok"
                            (Validate zero_Template) tt) = Some e
               /\ RemoteError e "Invalid template").
Proof.
  split; [reflexivity|]. split; [vm_compute; reflexivity|].
  split; [vm_compute; reflexivity|].
  intros (e & H & _). vm_compute in H. discriminate.
Qed.

(** ** Listing *)

(** Into a nil or empty slice every element starts from zero. *)
Lemma Template_elems_into_nil (es : list json) :
  json_pkg.Template_elems_into [] es = json_pkg.Template_elems es.
Proof.
  induction es as [|e es IH]; [reflexivity|].
  cbn [json_pkg.Template_elems_into json_pkg.Template_elems List.hd List.tl].
  now rewrite IH.
Qed.

Lemma TemplatesResponse_members_app (a b : list (string * json)) :
  forall r, json_pkg.TemplatesResponse_members (a ++ b) r
            = bind (json_pkg.TemplatesResponse_members a r)
                   (json_pkg.TemplatesResponse_members b).
Proof.
  induction a as [|[k v] a IH]; intros r; [reflexivity|].
  cbn [List.app json_pkg.TemplatesResponse_members].
  destruct (json_pkg.field_of json_pkg.TemplatesResponse_fields k) as [f|]; [|apply IH].
  match goal with |- bind ?x _ = bind (bind ?x _) _ => destruct x end;
    cbn [bind]; [apply IH | reflexivity].
Qed.

(** Members that do not address [Templates] leave the slice as it is. *)
Lemma TemplatesResponse_members_keep (ms : list (string * json)) :
  forall r r', no_templates ms = true ->
               json_pkg.TemplatesResponse_members ms r = Ok r' ->
               Templates r' = Templates r.
Proof.
  induction ms as [|[k v] ms IH]; intros r r' Hno H.
  - injection H as <-. reflexivity.
  - cbn [no_templates forallb fst] in Hno. apply andb_true_iff in Hno as [Hk Hno].
    apply negb_true_iff in Hk. unfold addresses_templates in Hk.
    cbn [json_pkg.TemplatesResponse_members] in H.
    destruct (json_pkg.field_of json_pkg.TemplatesResponse_fields k) as [f|].
    + rewrite Hk in H.
      destruct (json_pkg.store_int f v (TotalCount r)) as [x|]; [|discriminate].
      cbn [bind] in H. rewrite (IH _ _ Hno H). reflexivity.
    + exact (IH _ _ Hno H).
Qed.

(** The elements of an array are decoded one by one, in order. *)
Lemma Template_elems_each (es : list json) :
  forall l, json_pkg.Template_elems es = Ok l ->
            List.Forall2
              (fun e t => json_pkg.Template_value "templates." "templates" e zero_Template
                          = Ok t) es l.
Proof.
  induction es as [|e es IH]; intros l; cbn [json_pkg.Template_elems].
  - intros [= <-]. constructor.
  - destruct (json_pkg.Template_value "templates." "templates" e zero_Template)
      as [t|] eqn:Et; cbn [bind]; [|discriminate].
    destruct (json_pkg.Template_elems es) as [ts|]; cbn [bind]; [|discriminate].
    intros [= <-]. constructor; [exact Et | now apply IH].
Qed.

(** C1, as the code has it.  A List call that is answered with status 200
    and returns no error returns what the body holds under the one key
    that addresses [templates]: for an array, the templates its elements
    decode to, one for each element and in the order of the array; for
    [null], the nil slice.  The other members of the body, the total count
    among them, have no part in the result, and nothing relates the count
    to the length of the sequence. *)
Theorem list_returns_the_templates
        {World : Type} (Do : Request -> World -> result Response error * World)
        (tok : string) (offset count : Z) (w w' : World) (resp : Response)
        (ms1 ms2 : list (string * json)) (k : string) (v : json) :
  Do (request_of tok (List offset count)) w = (Ok resp, w') ->
  StatusCode resp = http.StatusOK ->
  json_pkg.readValue (Body resp) = Ok (JObject (ms1 ++ (k, v) :: ms2)) ->
  addresses_templates k = true ->
  no_templates ms1 = true -> no_templates ms2 = true ->
  snd (fst (GetTemplates Do tok offset count w)) = None ->
  match v with
  | JNull => GetTemplates Do tok offset count w = ((None, None), w')
  | JArray es =>
    exists l, GetTemplates Do tok offset count w = ((Some l, None), w') /\
              List.Forall2
                (fun e t => json_pkg.Template_value "templates." "templates" e zero_Template
                            = Ok t) es l
  | _ => False
  end.
Proof.
  intros HDo Hst Hj Hk Hno1 Hno2. apply status_ok in Hst.
  rewrite GetTemplates_unfold, HDo, Hst.
  unfold json_pkg.Decode_TemplatesResponse. rewrite Hj. cbn [bind].
  rewrite TemplatesResponse_members_app.
  destruct (json_pkg.TemplatesResponse_members ms1 zero_TemplatesResponse) as [r1|]
    eqn:E1; cbn [bind fst snd]; [|discriminate].
  pose proof (TemplatesResponse_members_keep _ _ _ Hno1 E1) as H1.
  cbn [Templates zero_TemplatesResponse] in H1.
  cbn [json_pkg.TemplatesResponse_members].
  unfold addresses_templates in Hk.
  destruct (json_pkg.field_of json_pkg.TemplatesResponse_fields k) as [f|];
    [|discriminate].
  rewrite Hk, H1.
  destruct v; cbn [json_pkg.store_Templates json_pkg.mismatch bind fst snd];
    try discriminate.
  - match goal with
    | |- context [json_pkg.TemplatesResponse_members ms2 ?r] =>
      destruct (json_pkg.TemplatesResponse_members ms2 r) as [r2|] eqn:E2
    end; cbn [fst snd]; [|discriminate].
    intros _. rewrite (TemplatesResponse_members_keep _ _ _ Hno2 E2). reflexivity.
  - rewrite Template_elems_into_nil.
    destruct (json_pkg.Template_elems elems) as [l|] eqn:El; cbn [bind fst snd];
      [|discriminate].
    match goal with
    | |- context [json_pkg.TemplatesResponse_members ms2 ?r] =>
      destruct (json_pkg.TemplatesResponse_members ms2 r) as [r2|] eqn:E2
    end; cbn [fst snd]; [|discriminate].
    intros _. exists l.
    rewrite (TemplatesResponse_members_keep _ _ _ Hno2 E2).
    split; [reflexivity | now apply Template_elems_each].
Qed.

Lemma list_returns_the_templates_witness :
  exists l,
    GetTemplates (canned two_of_twelve) "tok" 0 2 tt = ((Some l, None), tt) /\
    List.Forall2
      (fun e t => json_pkg.Template_value "templates." "templates" e zero_Template = Ok t)
      [JObject [("templateID", JNumber "3"); ("name", JString "b")];
       JObject [("templateID", JNumber "1"); ("name", JString "a")]]
      l.
Proof.
  apply (list_returns_the_templates (canned two_of_twelve) "tok" 0 2 tt tt two_of_twelve
           [("totalCount", JNumber "12")] [] "templates"
           (JArray [JObject [("templateID", JNumber "3"); ("name", JString "b")];
                    JObject [("templateID", JNumber "1"); ("name", JString "a")]])).
  - reflexivity.
  - reflexivity.
  - vm_compute. reflexivity.
  - reflexivity.
  - reflexivity.
  - reflexivity.
  - vm_compute. reflexivity.
Defined.

(** The witness's call, evaluated. *)
Example list_of_two :
  GetTemplates (canned two_of_twelve) "tok" 0 2 tt
  = ((Some [mkTemplate 3 "b" "" "" "" "" false; mkTemplate 1 "a" "" "" "" "" false], None), tt).
Proof. vm_compute. reflexivity. Qed.

(** A body with two arrays under [templates]: the elements of the second
    are decoded over those of the first, field by field. *)
Example repeated_templates_key :
  GetTemplates
    (canned (mkResponse 200
               (wire "{'templates':[{'name':'a','active':true}],'templates':[{'subject':'c'}]}")))
    "tok" 0 10 tt
  = ((Some [mkTemplate 0 "a" "c" "" "" "" true], None), tt).
Proof. vm_compute. reflexivity. Qed.

(** C1 as stated fails: two successful responses that report different
    total counts give the caller the same result, so the result does not
    carry the total count. *)
Lemma list_result_drops_totalCount :
  StatusCode two_of_twelve = http.StatusOK /\
  StatusCode two_of_two = http.StatusOK /\
  (exists r, json_pkg.Decode_TemplatesResponse (Body two_of_twelve) = Ok r
             /\ TotalCount r = 12) /\
  (exists r, json_pkg.Decode_TemplatesResponse (Body two_of_two) = Ok r
             /\ TotalCount r = 2) /\
  failure (run (canned two_of_twelve) "tok" (List 0 2) tt) = None /\
  run (canned two_of_twelve) "tok" (List 0 2) tt
  = run (canned two_of_two) "tok" (List 0 2) tt.
Proof.
  split; [reflexivity|]. split; [reflexivity|].
  split; [eexists; split; [vm_compute; reflexivity | reflexivity]|].
  split; [eexists; split; [vm_compute; reflexivity | reflexivity]|].
  split; vm_compute; reflexivity.
Qed.

(** C6, as the code has it.  A List call, with [count = 0] or a negative
    [offset] as with any other arguments, that is answered with a status
    other than 200 fails with the transport error and returns the nil
    slice.  (An error reported inside a 200 body is not looked at.) *)
Theorem list_non_200_never_succeeds
        {World : Type} (Do : Request -> World -> result Response error * World)
        (tok : string) (offset count : Z) (w w' : World) (resp : Response) :
  count = 0 \/ offset < 0 ->
  Do (request_of tok (List offset count)) w = (Ok resp, w') ->
  StatusCode resp <> http.StatusOK ->
  exists e, GetTemplates Do tok offset count w = ((None, Some e), w') /\
            TransportError e (StatusCode resp) (Body resp).
Proof.
  intros _ HDo Hst. apply status_not_ok in Hst.
  eexists. split; [|reflexivity].
  rewrite GetTemplates_unfold, HDo, Hst. reflexivity.
Qed.

Lemma list_non_200_never_succeeds_witness :
  exists e, GetTemplates double.handle "tok" (-1) 0 (double.fresh "tok")
            = ((None, Some e), double.fresh "tok") /\
            TransportError e 422
              (wire "{'templateID':0,'errorCode':300,'message':'Invalid paging parameters'}").
Proof.
  apply (list_non_200_never_succeeds double.handle "tok" (-1) 0
           (double.fresh "tok") (double.fresh "tok")
           (double.bad_request 300 "Invalid paging parameters")).
  - left. reflexivity.
  - vm_compute. reflexivity.
  - discriminate.
Defined.

(** C6 as stated fails: [count = 0] and a negative [offset], an
    error-bearing body under status 200, and GetTemplates returns an empty
    result without error. *)
Lemma list_error_body_under_200_succeeds :
  StatusCode paging_error_200 = http.StatusOK /\
  json_pkg.Decode_PostmarkResponse (Body paging_error_200)
  = Ok (mkPostmarkResponse 0 300 "Invalid paging parameters") /\
  GetTemplates (canned paging_error_200) "tok" (-1) 0 tt = ((None, None), tt) /\
  len (fst (fst (GetTemplates (canned paging_error_200) "tok" (-1) 0 tt))) = 0%nat.
Proof.
  split; [reflexivity|]. split; [vm_compute; reflexivity|].
  split; vm_compute; reflexivity.
Qed.

(** ** Headers *)

(** Every operation hands exactly one request to [client.Do]: the one
    [request_of] describes. *)
Lemma run_sends {World : Type} (Do : Request -> World -> result Response error * World)
      (tok : string) (c : call) (w : World) :
  snd (snd (run (recording Do) tok c (w, []))) = [request_of tok c].
Proof.
  destruct c; unfold run.
  - rewrite CreateTemplate_unfold. unfold recording; cbn [fst snd].
    destruct (Do _ w) as [[resp|err] w1]; by_cases; reflexivity.
  - rewrite GetTemplate_unfold. unfold recording; cbn [fst snd].
    destruct (Do _ w) as [[resp|err] w1]; by_cases; reflexivity.
  - rewrite UpdateTemplate_unfold. unfold recording; cbn [fst snd].
    destruct (Do _ w) as [[resp|err] w1]; by_cases; reflexivity.
  - rewrite DeleteTemplate_unfold. unfold recording; cbn [fst snd].
    destruct (Do _ w) as [[resp|err] w1]; by_cases; reflexivity.
  - rewrite GetTemplates_unfold. unfold recording; cbn [fst snd].
    destruct (Do _ w) as [[resp|err] w1]; by_cases; reflexivity.
  - rewrite ValidateTemplate_unfold. unfold recording; cbn [fst snd].
    destruct (Do _ w) as [[resp|err] w1]; by_cases; reflexivity.
Qed.

Lemma canonical_keys :
  http.CanonicalMIMEHeaderKey "Accept" = "Accept" /\
  http.CanonicalMIMEHeaderKey "Content-Type" = "Content-Type" /\
  http.CanonicalMIMEHeaderKey "X-Postmark-Server-Token" = "X-Postmark-Server-Token".
Proof. repeat split; reflexivity. Qed.

Lemma Header_Set_lookup (req : Request) (key value k : string) :
  Header (http.Header_Set req key value) !! k =
  if decide (http.CanonicalMIMEHeaderKey key = k) then Some [value] else Header req !! k.
Proof. unfold http.Header_Set; cbn [Header]. apply lookup_insert. Qed.

Lemma request_headers (tok : string) (c : call) :
  Header (request_of tok c) !! "X-Postmark-Server-Token" = Some [tok] /\
  Header (request_of tok c) !! "Accept" = Some ["application/json"] /\
  Header (request_of tok c) !! "Content-Type"
  = match payload_of c with
    | Some _ => Some ["application/json"]
    | None => None
    end.
Proof.
  destruct canonical_keys as (Ka & Kc & Kt).
  unfold request_of.
  destruct (payload_of c); repeat split;
    repeat (rewrite Header_Set_lookup; rewrite ?Ka, ?Kc, ?Kt;
            match goal with
            | |- context [decide (?a = ?b)] =>
              destruct (decide (a = b)); [try discriminate; try reflexivity | try congruence]
            end);
    try reflexivity.
Qed.

(** C9, as the code has it.  Each operation sends exactly one request.  It
    carries the credential under [X-Postmark-Server-Token] and
    [Accept: application/json]; Create, Update and Validate, the calls with
    a payload, also carry [Content-Type: application/json], while Get, List
    and Delete carry no content type.  Method, URL and body are computed
    from the call alone, so the credential is in neither of them. *)
Theorem requests_carry_credential_in_header
        {World : Type} (Do : Request -> World -> result Response error * World)
        (tok : string) (c : call) (w : World) :
  exists req,
    snd (snd (run (recording Do) tok c (w, []))) = [req] /\
    Header req !! "X-Postmark-Server-Token" = Some [tok] /\
    Header req !! "Accept" = Some ["application/json"] /\
    Header req !! "Content-Type"
    = match c with
      | Create _ | Update _ | Validate _ => Some ["application/json"]
      | Get _ | List _ _ | Delete _ => None
      end /\
    Method req = method_of c /\ URL req = url_of c /\ ReqBody req = payload_of c /\
    forall tok', Method (request_of tok' c) = Method req
                 /\ URL (request_of tok' c) = URL req
                 /\ ReqBody (request_of tok' c) = ReqBody req.
Proof.
  exists (request_of tok c).
  destruct (request_headers tok c) as (Ht & Ha & Hc).
  split; [apply run_sends|].
  split; [exact Ht|]. split; [exact Ha|].
  split; [rewrite Hc; destruct c; reflexivity|].
  split; [destruct c; reflexivity|].
  split; [destruct c; reflexivity|].
  split; [destruct c; reflexivity|].
  intros tok'. destruct c; split; [|split| |split| |split| |split| |split| |split];
    reflexivity.
Qed.

(** C9 as stated fails for Delete: it changes what the service stores, and
    the one request it sends has no content-type header. *)
Lemma delete_request_has_no_content_type :
  mutating (Delete 36087634) = true /\
  snd (snd (run (recording double.handle) "tok" (Delete 36087634)
                (double.fresh "tok", [])))
  = [request_of "tok" (Delete 36087634)] /\
  Header (request_of "tok" (Delete 36087634)) !! "Content-Type" = None /\
  Method (request_of "tok" (Delete 36087634)) = "DELETE".
Proof.
  split; [reflexivity|]. split; [apply run_sends|].
  split; [|reflexivity].
  destruct (request_headers "tok" (Delete 36087634)) as (_ & _ & H). exact H.
Qed.

(** ** Numbers on the wire *)

Local Arguments String.append : simpl nomatch.

Lemma uint_of_string_digits (d : Decimal.uint) :
  NilEmpty.uint_of_string (NilEmpty.string_of_uint d) = Some d.
Proof. apply NilEmpty.usu. Qed.

Lemma Pos_to_uint_no_leading_zero (p : positive) (d' : Decimal.uint) :
  Pos.to_uint p <> Decimal.D0 d'.
Proof.
  assert (E : Pos.to_uint p = Decimal.unorm (Pos.to_uint p)).
  { pose proof (DecimalPos.Unsigned.to_of (Pos.to_uint p)) as H.
    rewrite DecimalPos.Unsigned.of_to in H. exact H. }
  assert (Hnz : Decimal.nzhead (Pos.to_uint p) <> Decimal.Nil).
  { intro Hn. apply DecimalFacts.unorm_0 in Hn. rewrite <- E in Hn.
    exact (DecimalPos.Unsigned.to_uint_nonzero p Hn). }
  rewrite E, (DecimalFacts.unorm_nzhead _ Hnz).
  apply DecimalFacts.nzhead_nonzero.
Qed.

Lemma Itoa_cases (z : Z) :
  match z with
  | Z0 => strconv.Itoa z = "0"
  | Zpos p => strconv.Itoa z = pos_digits p
  | Zneg p => strconv.Itoa z = String "-" (pos_digits p)
  end.
Proof.
  unfold strconv.Itoa, pos_digits. destruct z as [|p|p]; simpl; [reflexivity| |].
  - pose proof (Pos_to_uint_nonnil p).
    unfold NilZero.string_of_uint. destruct (Pos.to_uint p); [congruence | reflexivity ..].
  - pose proof (Pos_to_uint_nonnil p).
    unfold NilZero.string_of_uint. destruct (Pos.to_uint p); [congruence | reflexivity ..].
Qed.

(** A positive number prints as a digit from 1 to 9 followed by digits. *)
Lemma pos_digits_shape (p : positive) :
  exists c r, pos_digits p = String c r /\ strconv.is_digit c = true /\
              c <> "0"%char /\ strconv.all_digits r = true /\
              NilEmpty.uint_of_string (String c r) = Some (Pos.to_uint p).
Proof.
  unfold pos_digits.
  pose proof (Pos_to_uint_nonnil p) as Hn.
  pose proof (Pos_to_uint_no_leading_zero p) as Hz.
  pose proof (uint_of_string_digits (Pos.to_uint p)) as Hu.
  destruct (Pos.to_uint p) as [|d|d|d|d|d|d|d|d|d|d]; [congruence | exfalso; eapply Hz; reflexivity | ..];
    simpl NilEmpty.string_of_uint in *;
    (eexists; eexists; split; [reflexivity|];
     split; [reflexivity|]; split; [discriminate|];
     split; [apply all_digits_uint | exact Hu]).
Qed.

Lemma ParseInt_Itoa (z : Z) :
  strconv.in_int64 z = true -> strconv.ParseInt (strconv.Itoa z) = Some z.
Proof.
  intros Hr. pose proof (Itoa_cases z) as Hc.
  destruct z as [|p|p]; rewrite Hc; [reflexivity| |].
  - destruct (pos_digits_shape p) as (c & r & E & Hc1 & Hc0 & Hr' & Hu).
    rewrite E. unfold strconv.ParseInt.
    assert (Hs : match String c r with
                 | String "-"%char r0 => r0
                 | String "+"%char r0 => r0
                 | _ => String c r
                 end = String c r).
    { destruct c as [[] [] [] [] [] [] [] []]; try reflexivity; discriminate. }
    rewrite Hs.
    assert (Ha : strconv.all_digits (String c r) = true).
    { unfold strconv.all_digits in *. simpl. rewrite Hc1. exact Hr'. }
    rewrite Ha, Hu.
    assert (Hz : match String c r with
                 | String "-"%char _ => Z.of_int (Decimal.Neg (Pos.to_uint p))
                 | _ => Z.of_int (Decimal.Pos (Pos.to_uint p))
                 end = Z.pos p).
    { pose proof (DecimalZ.of_to (Z.pos p)) as Hof.
      change (Z.to_int (Z.pos p)) with (Decimal.Pos (Pos.to_uint p)) in Hof.
      destruct c as [[] [] [] [] [] [] [] []]; try exact Hof; discriminate. }
    rewrite Hz, Hr. reflexivity.
  - destruct (pos_digits_shape p) as (c & r & E & Hc1 & Hc0 & Hr' & Hu).
    rewrite E. unfold strconv.ParseInt.
    assert (Ha : strconv.all_digits (String c r) = true).
    { unfold strconv.all_digits in *. simpl. rewrite Hc1. exact Hr'. }
    cbv beta iota. rewrite Ha, Hu.
    pose proof (DecimalZ.of_to (Z.neg p)) as Hof.
    change (Z.to_int (Z.neg p)) with (Decimal.Neg (Pos.to_uint p)) in Hof.
    rewrite Hof, Hr. reflexivity.
Qed.

Lemma span_digits_all (ds rest : string) :
  strconv.all_digits ds = true -> closes rest ->
  jsontext.span_digits (ds ++ rest) = (ds, rest).
Proof.
  intros Hd (r & Hr). unfold strconv.all_digits in Hd.
  induction ds as [|c ds IH]; simpl in *.
  - destruct Hr as [-> | ->]; reflexivity.
  - apply andb_true_iff in Hd as [Hc Hd]. rewrite Hc, (IH Hd). reflexivity.
Qed.

Lemma append_nil_r (s : string) : s ++ "" = s.
Proof. induction s as [|c s IH]; simpl; [reflexivity | now rewrite IH]. Qed.

Lemma append_assoc (a b c : string) : (a ++ b) ++ c = a ++ (b ++ c).
Proof. induction a as [|x a IH]; simpl; [reflexivity | now rewrite IH]. Qed.

Lemma scan_number_Itoa (z : Z) (rest : string) :
  closes rest ->
  jsontext.scan_number (strconv.Itoa z ++ rest) = Some (strconv.Itoa z, rest).
Proof.
  intros Hcl. pose proof (Itoa_cases z) as Hc.
  assert (Htail : forall ds, strconv.all_digits ds = true ->
            forall c, strconv.is_digit c = true ->
            jsontext.digits1 (String c ds ++ rest) = Some (String c ds, rest)).
  { intros ds Hds c Hcd. unfold jsontext.digits1. simpl.
    rewrite Hcd, (span_digits_all ds rest Hds Hcl). reflexivity. }
  destruct z as [|p|p]; rewrite Hc.
  - destruct Hcl as (r & [-> | ->]); reflexivity.
  - destruct (pos_digits_shape p) as (c & r & E & Hc1 & Hc0 & Hr' & _).
    rewrite E. unfold jsontext.scan_number.
    assert (Hs : match String c r ++ rest with
                 | String "-"%char r0 => ("-", r0)
                 | _ => ("", String c r ++ rest)
                 end = ("", String c r ++ rest)).
    { simpl. destruct c as [[] [] [] [] [] [] [] []]; try reflexivity; discriminate. }
    rewrite Hs.
    assert (Hi : match String c r ++ rest with
                 | String "0"%char r0 => Some ("0", r0)
                 | _ => jsontext.digits1 (String c r ++ rest)
                 end = Some (String c r, rest)).
    { rewrite (Htail r Hr' c Hc1). simpl.
      destruct c as [[] [] [] [] [] [] [] []]; try reflexivity; congruence. }
    rewrite Hi.
    destruct Hcl as (r0 & [-> | ->]); simpl; rewrite append_nil_r; reflexivity.
  - destruct (pos_digits_shape p) as (c & r & E & Hc1 & Hc0 & Hr' & _).
    rewrite E. unfold jsontext.scan_number.
    change (String "-" (String c r) ++ rest) with (String "-" (String c r ++ rest)).
    cbv beta iota.
    assert (Hi : match String c r ++ rest with
                 | String "0"%char r0 => Some ("0", r0)
                 | _ => jsontext.digits1 (String c r ++ rest)
                 end = Some (String c r, rest)).
    { rewrite (Htail r Hr' c Hc1). simpl.
      destruct c as [[] [] [] [] [] [] [] []]; try reflexivity; congruence. }
    rewrite Hi.
    destruct Hcl as (r0 & [-> | ->]); simpl; rewrite append_nil_r; reflexivity.
Qed.

(** ** Bytes and runes *)

Lemma mkbyte_byteval (c : ascii) : mkbyte (byteval c) = c.
Proof. unfold mkbyte, byteval. rewrite N2Z.id. apply ascii_N_embedding. Qed.

Lemma byteval_range (c : ascii) : 0 <= byteval c < 256.
Proof.
  unfold byteval. pose proof (N_ascii_bounded c). lia.
Qed.

Lemma byteval_mkbyte (z : Z) : 0 <= z < 256 -> byteval (mkbyte z) = z.
Proof.
  intros H. unfold mkbyte, byteval. rewrite N_ascii_embedding by lia. lia.
Qed.

Lemma mkbyte_eq (z : Z) (c : ascii) : z = byteval c -> mkbyte z = c.
Proof. intros ->. apply mkbyte_byteval. Qed.

Lemma take_drop (n : nat) (s : string) :
  utf8.string_take n s ++ utf8.string_drop n s = s.
Proof.
  revert s. induction n as [|n IH]; intros [|c s]; simpl; try reflexivity.
  now rewrite IH.
Qed.

Lemma take_app (seq x : string) :
  utf8.string_take (String.length seq) (seq ++ x) = seq.
Proof. induction seq as [|c seq IH]; simpl; [destruct x; reflexivity | now rewrite IH]. Qed.

Lemma drop_app (seq x : string) :
  utf8.string_drop (String.length seq) (seq ++ x) = x.
Proof. induction seq as [|c seq IH]; simpl; [destruct x; reflexivity | exact IH]. Qed.

Lemma length_append (a b : string) :
  String.length (a ++ b) = (String.length a + String.length b)%nat.
Proof. induction a as [|c a IH]; simpl; [reflexivity | now rewrite IH]. Qed.

Ltac split_ifs :=
  repeat match goal with
         | |- context [if ?c then _ else _] => destruct c eqn:?
         end.

(** A well-formed rune at the front of a string: the bytes it occupies
    encode back to themselves and decode alike before any other text. *)
Lemma DecodeRune_spec (s : string) (r : Z) (n : nat) :
  s <> "" -> utf8.DecodeRune s = (r, n) -> utf8.ill_formed (r, n) = false ->
  exists seq rest0,
    s = seq ++ rest0 /\ String.length seq = n /\ (1 <= n)%nat /\
    utf8.EncodeRune r = seq /\
    (128 <= byteval match s with String b _ => b | _ => "000"%char end ->
     128 <= r /\ forall c q, seq = String c q -> 128 <= byteval c) /\
    forall x, utf8.DecodeRune (seq ++ x) = (r, n).
Proof.
  intros Hne Hd Hv.
  destruct s as [|b0 r0]; [congruence|].
  unfold utf8.DecodeRune in Hd.
  unfold utf8.ill_formed, utf8.RuneError in Hv. cbn [fst snd] in Hv.
  pose proof (byteval_range b0) as R0.
  destruct (byteval b0 <? 128) eqn:A0.
  { injection Hd as <- <-.
    exists (String b0 ""), r0.
    split; [reflexivity|]. split; [reflexivity|]. split; [lia|].
    split; [|split].
    - unfold utf8.EncodeRune. split_ifs; try lia. now rewrite mkbyte_byteval.
    - intros H. lia.
    - intros x. simpl. unfold utf8.DecodeRune. now rewrite A0. }
  destruct ((194 <=? byteval b0) && (byteval b0 <=? 223)) eqn:A1.
  { destruct r0 as [|b1 r1]; [injection Hd as <- <-; discriminate|].
    unfold utf8.between in Hd.
    pose proof (byteval_range b1) as R1.
    destruct ((128 <=? byteval b1) && (byteval b1 <=? 191)) eqn:B1;
      [|injection Hd as <- <-; discriminate].
    injection Hd as <- <-.
    exists (String b0 (String b1 "")), r1.
    split; [reflexivity|]. split; [reflexivity|]. split; [lia|].
    split; [|split].
    - unfold utf8.EncodeRune. split_ifs; try lia.
      f_equal; [|f_equal]; apply mkbyte_eq; Z.div_mod_to_equations; lia.
    - intros H. split; [lia|]. intros c q [= <- <-]. lia.
    - intros x. simpl. unfold utf8.DecodeRune, utf8.between. now rewrite A0, A1, B1. }
  destruct ((224 <=? byteval b0) && (byteval b0 <=? 239)) eqn:A2.
  { destruct r0 as [|b1 [|b2 r2]]; try (injection Hd as <- <-; discriminate).
    unfold utf8.between in Hd.
    pose proof (byteval_range b1) as R1. pose proof (byteval_range b2) as R2.
    match type of Hd with (if ?c then _ else _) = _ => destruct c eqn:B1 end;
      [|injection Hd as <- <-; discriminate].
    injection Hd as <- <-.
    exists (String b0 (String b1 (String b2 ""))), r2.
    split; [reflexivity|]. split; [reflexivity|]. split; [lia|].
    split; [|split].
    - unfold utf8.EncodeRune.
      destruct (byteval b0 =? 224) eqn:?; destruct (byteval b0 =? 237) eqn:?;
        split_ifs; try lia;
        (f_equal; [|f_equal; [|f_equal]]; apply mkbyte_eq; Z.div_mod_to_equations; lia).
    - intros H. split; [|intros c q [= <- <-]; lia].
      destruct (byteval b0 =? 224) eqn:?; destruct (byteval b0 =? 237) eqn:?; lia.
    - intros x. simpl. unfold utf8.DecodeRune, utf8.between. now rewrite A0, A1, A2, B1. }
  destruct ((240 <=? byteval b0) && (byteval b0 <=? 244)) eqn:A3;
    [|injection Hd as <- <-; discriminate].
  destruct r0 as [|b1 [|b2 [|b3 r3]]]; try (injection Hd as <- <-; discriminate).
  unfold utf8.between in Hd.
  pose proof (byteval_range b1) as R1. pose proof (byteval_range b2) as R2.
  pose proof (byteval_range b3) as R3.
  match type of Hd with (if ?c then _ else _) = _ => destruct c eqn:B1 end;
    [|injection Hd as <- <-; discriminate].
  injection Hd as <- <-.
  exists (String b0 (String b1 (String b2 (String b3 "")))), r3.
  split; [reflexivity|]. split; [reflexivity|]. split; [lia|].
  split; [|split].
  - unfold utf8.EncodeRune.
    destruct (byteval b0 =? 240) eqn:?; destruct (byteval b0 =? 244) eqn:?;
      split_ifs; try lia;
      (f_equal; [|f_equal; [|f_equal; [|f_equal]]]; apply mkbyte_eq;
       Z.div_mod_to_equations; lia).
  - intros H. split; [|intros c q [= <- <-]; lia].
    destruct (byteval b0 =? 240) eqn:?; destruct (byteval b0 =? 244) eqn:?; lia.
  - intros x. simpl. unfold utf8.DecodeRune, utf8.between.
    now rewrite A0, A1, A2, A3, B1.
Qed.

(** ** Strings on the wire: [unquote] undoes [appendString] *)

Lemma unquote_step (n : nat) (c : ascii) (r : string) :
  jsontext.unquote (S n) (String c r) =
  if Ascii.eqb c dquote then Some ("", r)
  else if Ascii.eqb c bslash then
    match r with
    | EmptyString => None
    | String e r' =>
      match jsontext.simple_escape e with
      | Some ch => jsontext.prepend (String ch "") (jsontext.unquote n r')
      | None =>
        match jsontext.getu4 (String c r) with
        | None => None
        | Some (rr, r2) =>
          if jsontext.IsSurrogate rr then
            match jsontext.getu4 r2 with
            | Some (rr1, r3) =>
              let dec := jsontext.utf16_DecodeRune rr rr1 in
              if dec =? utf8.RuneError
              then jsontext.prepend (utf8.EncodeRune utf8.RuneError) (jsontext.unquote n r2)
              else jsontext.prepend (utf8.EncodeRune dec) (jsontext.unquote n r3)
            | None =>
              jsontext.prepend (utf8.EncodeRune utf8.RuneError) (jsontext.unquote n r2)
            end
          else jsontext.prepend (utf8.EncodeRune rr) (jsontext.unquote n r2)
        end
      end
    end
  else if byteval c <? 32 then None
  else if byteval c <? utf8.RuneSelf then
    jsontext.prepend (String c "") (jsontext.unquote n r)
  else
    let d := utf8.DecodeRune (String c r) in
    jsontext.prepend (utf8.EncodeRune (fst d))
                     (jsontext.unquote n (utf8.string_drop (snd d) (String c r))).
Proof. reflexivity. Qed.

(** One ASCII byte, written plainly or escaped, reads back as itself. *)
Lemma unquote_ascii (b : ascii) (m : nat) (rest : string) :
  byteval b < 128 ->
  jsontext.unquote (S m)
    ((if jsontext.htmlSafe b then String b "" else jsontext.escape b) ++ rest)
  = jsontext.prepend (String b "") (jsontext.unquote m rest).
Proof.
  intros H.
  destruct b as [[] [] [] [] [] [] [] []];
    try (exfalso; vm_compute in H; discriminate); reflexivity.
Qed.

Lemma high_byte_plain (c : ascii) :
  128 <= byteval c ->
  Ascii.eqb c dquote = false /\ Ascii.eqb c bslash = false /\
  (byteval c <? 32) = false /\ (byteval c <? utf8.RuneSelf) = false.
Proof.
  intros H. unfold utf8.RuneSelf. repeat split; try lia.
  - destruct (Ascii.eqb_spec c dquote) as [->|]; [vm_compute in H; now destruct H | reflexivity].
  - destruct (Ascii.eqb_spec c bslash) as [->|]; [vm_compute in H; now destruct H | reflexivity].
Qed.

Lemma unquote_rune (seq X : string) (r : Z) (n m : nat) (c : ascii) (q : string) :
  seq = String c q -> 128 <= byteval c -> String.length seq = n ->
  utf8.DecodeRune (seq ++ X) = (r, n) -> utf8.EncodeRune r = seq ->
  jsontext.unquote (S m) (seq ++ X) = jsontext.prepend seq (jsontext.unquote m X).
Proof.
  intros -> Hc Hn Hd He.
  change (String c q ++ X) with (String c (q ++ X)) in *.
  rewrite unquote_step.
  destruct (high_byte_plain c Hc) as (-> & -> & -> & ->).
  cbv zeta. rewrite Hd. cbn [fst snd]. rewrite He.
  change (String c (q ++ X)) with (String c q ++ X).
  rewrite <- Hn, drop_app. reflexivity.
Qed.

Lemma unquote_replacement (m : nat) (X : string) :
  jsontext.unquote (S m) (String bslash "ufffd" ++ X)
  = jsontext.prepend (utf8.EncodeRune utf8.RuneError) (jsontext.unquote m X).
Proof. reflexivity. Qed.

(** What [appendString] writes between the quotes reads back as the
    string with its ill-formed bytes replaced. *)
Lemma unquote_quote_body (k : nat) :
  forall (s : string), (String.length s <= k)%nat ->
  forall (m : nat) (rest : string), (k < m)%nat ->
    jsontext.unquote m (jsontext.quote_body k s ++ String dquote rest)
    = Some (coerce_upto k s, rest).
Proof.
  induction k as [|k IH]; intros s Hk m rest Hm.
  - destruct s; [|simpl in Hk; lia]. destruct m; [lia|]. reflexivity.
  - destruct m as [|m]; [lia|].
    destruct s as [|b s']; [reflexivity|].
    cbn [String.length] in Hk.
    cbn [jsontext.quote_body coerce_upto].
    destruct (utf8.DecodeRune (String b s')) as [r n] eqn:Hd.
    cbn [fst snd].
    destruct (byteval b <? utf8.RuneSelf) eqn:Hb.
    { (* one ASCII byte *)
      unfold utf8.DecodeRune in Hd. unfold utf8.RuneSelf in Hb.
      rewrite Hb in Hd. injection Hd as <- <-.
      assert (Hill : utf8.ill_formed (byteval b, 1%nat) = false).
      { unfold utf8.ill_formed, utf8.RuneError. cbn [fst snd]. lia. }
      rewrite Hill. cbn [utf8.string_take utf8.string_drop].
      rewrite append_assoc, unquote_ascii by lia.
      rewrite (IH s' ltac:(lia) m rest) by lia. reflexivity. }
    destruct (utf8.ill_formed (r, n)) eqn:Hill.
    + (* an ill-formed byte is written as the escape of U+FFFD *)
      rewrite append_assoc, unquote_replacement.
      rewrite (IH s' ltac:(lia) m rest) by lia. reflexivity.
    + destruct (DecodeRune_spec (String b s') r n ltac:(discriminate) Hd Hill)
        as (seq & rest0 & Hs & Hlen & Hn & Henc & Hhigh & Hloc).
      assert (Hdrop : utf8.string_drop n (String b s') = rest0)
        by (rewrite Hs, <- Hlen; apply drop_app).
      assert (Htake : utf8.string_take n (String b s') = seq)
        by (rewrite Hs, <- Hlen; apply take_app).
      assert (Hk0 : (String.length rest0 <= k)%nat).
      { assert (E : String.length (String b s') = String.length (seq ++ rest0))
          by now rewrite Hs.
        rewrite length_append in E. cbn [String.length] in E. lia. }
      rewrite Hdrop, Htake.
      unfold utf8.RuneSelf in Hb.
      destruct Hhigh as [Hr Hseq]; [cbn; lia|].
      destruct seq as [|c q]; [simpl in Hlen; lia|].
      specialize (Hseq c q eq_refl).
      destruct ((r =? 8232) || (r =? 8233)) eqn:Hsep.
      * (* U+2028 and U+2029 are written as escapes *)
        rewrite !append_assoc.
        assert (Hgo : forall X, jsontext.unquote (S m)
                   (String bslash "u202" ++ String (jsontext.hex (r mod 16)) "" ++ X)
                 = jsontext.prepend (utf8.EncodeRune r) (jsontext.unquote m X)).
        { intros X. destruct (r =? 8232) eqn:E1.
          - assert (r = 8232) by lia. subst r. reflexivity.
          - assert (r = 8233) by lia. subst r. reflexivity. }
        rewrite Hgo, Henc, (IH rest0 Hk0 m rest) by lia. reflexivity.
      * rewrite append_assoc.
        rewrite (unquote_rune (String c q) _ r n m c q eq_refl Hseq Hlen (Hloc _) Henc).
        rewrite (IH rest0 Hk0 m rest) by lia. reflexivity.
Qed.

Lemma length_take_drop (n : nat) (s : string) :
  (String.length (utf8.string_take n s) + String.length (utf8.string_drop n s)
   = String.length s)%nat.
Proof. rewrite <- length_append, take_drop. reflexivity. Qed.

Lemma length_take_le (n : nat) (s : string) :
  (String.length (utf8.string_take n s) <= n)%nat.
Proof.
  revert s. induction n as [|n IH]; intros [|c s]; simpl; try lia.
  specialize (IH s). lia.
Qed.

Lemma length_escape (b : ascii) :
  (1 <= String.length (if jsontext.htmlSafe b then String b "" else jsontext.escape b))%nat.
Proof.
  unfold jsontext.escape, jsontext.u00. split_ifs; simpl; lia.
Qed.

Lemma DecodeRune_width (b : ascii) (s : string) :
  (1 <= snd (utf8.DecodeRune (String b s)) <= 4)%nat.
Proof.
  unfold utf8.DecodeRune.
  repeat match goal with
         | |- context [if ?c then _ else _] => destruct c
         | |- context [match ?x with EmptyString => _ | String _ _ => _ end] => destruct x
         end; cbn [snd]; lia.
Qed.

(** Quoting never shortens: the decoder's fuel, the length of the text
    after the opening quote, covers every rune of the string. *)
Lemma length_quote_body (k : nat) :
  forall s, (String.length s <= k)%nat ->
            (String.length s <= String.length (jsontext.quote_body k s))%nat.
Proof.
  induction k as [|k IH]; intros s Hk.
  - destruct s; simpl in *; lia.
  - destruct s as [|b s']; [simpl; lia|].
    cbn [String.length] in Hk.
    cbn [jsontext.quote_body].
    pose proof (DecodeRune_width b s') as Hw.
    destruct (utf8.DecodeRune (String b s')) as [r n]. cbn [fst snd] in *.
    destruct n as [|n]; [lia|].
    cbn [utf8.string_take utf8.string_drop String.length].
    pose proof (length_take_drop n s') as Htd.
    pose proof (length_take_le n s') as Htk.
    pose proof (IH s' ltac:(lia)) as IH1.
    pose proof (IH (utf8.string_drop n s') ltac:(lia)) as IH2.
    destruct (byteval b <? utf8.RuneSelf).
    + rewrite length_append. pose proof (length_escape b). lia.
    + destruct (utf8.ill_formed (r, S n)).
      * rewrite length_append. cbn [String.length]. lia.
      * destruct ((r =? 8232) || (r =? 8233)).
        -- rewrite !length_append. cbn [String.length]. lia.
        -- cbn [String.append String.length]. rewrite length_append. lia.
Qed.

(** A string between quotes reads back with its ill-formed bytes replaced. *)
Lemma unquote_quote (s rest : string) :
  exists r, jsontext.quote s ++ rest = String dquote r /\
            jsontext.unquote (String.length r) r = Some (coerce s, rest).
Proof.
  exists (jsontext.quote_body (String.length s) s ++ String dquote rest).
  split.
  - unfold jsontext.quote. simpl. now rewrite append_assoc.
  - apply unquote_quote_body; [lia|].
    rewrite length_append. pose proof (length_quote_body _ s (le_n _)). simpl. lia.
Qed.

(** Well-formed text is kept as it is. *)
Lemma coerce_upto_valid (k : nat) :
  forall s, utf8.valid_upto k s = true -> coerce_upto k s = s.
Proof.
  induction k as [|k IH]; intros s Hv.
  - destruct s; [reflexivity | discriminate].
  - destruct s as [|b s']; [reflexivity|].
    cbn [utf8.valid_upto] in Hv. apply andb_true_iff in Hv as [Hill Hv].
    apply negb_true_iff in Hill.
    cbn [coerce_upto]. rewrite Hill, (IH _ Hv). apply take_drop.
Qed.

Lemma coerce_valid (s : string) : utf8.ValidString s = true -> coerce s = s.
Proof. apply coerce_upto_valid. Qed.

Lemma coerce_nonempty (s : string) : String.eqb (coerce s) "" = String.eqb s "".
Proof.
  destruct s as [|b s']; [reflexivity|].
  unfold coerce. cbn [String.length coerce_upto].
  destruct (utf8.DecodeRune (String b s')) as [r n] eqn:Hd. cbn [snd].
  destruct (utf8.ill_formed (r, n)) eqn:Hill; [reflexivity|].
  destruct (DecodeRune_spec (String b s') r n ltac:(discriminate) Hd Hill)
    as (seq & rest0 & Hs & Hlen & Hn & _).
  destruct n as [|n]; [lia|]. reflexivity.
Qed.

Lemma valid_upto_more (k : nat) :
  forall s j, utf8.valid_upto k s = true -> utf8.valid_upto (k + j) s = true.
Proof.
  induction k as [|k IH]; intros s j Hv.
  - destruct s; [|discriminate]. destruct j; reflexivity.
  - destruct s as [|b s']; [reflexivity|].
    cbn [Nat.add utf8.valid_upto] in *.
    apply andb_true_iff in Hv as [-> Hv]. now rewrite (IH _ j Hv).
Qed.

Lemma valid_upto_rune (seq X : string) (r : Z) (n : nat) :
  seq <> "" -> String.length seq = n ->
  utf8.DecodeRune (seq ++ X) = (r, n) -> utf8.ill_formed (r, n) = false ->
  utf8.valid_upto (String.length X) X = true ->
  utf8.valid_upto (String.length (seq ++ X)) (seq ++ X) = true.
Proof.
  intros Hne Hn Hd Hill HX.
  destruct seq as [|c q]; [congruence|].
  rewrite length_append. cbn [String.length Nat.add].
  change (String c q ++ X) with (String c (q ++ X)) in *.
  cbn [utf8.valid_upto]. rewrite Hd. cbn [snd]. rewrite Hill. cbn [negb andb].
  change (String c (q ++ X)) with (String c q ++ X).
  rewrite <- Hn, drop_app.
  rewrite Nat.add_comm. apply valid_upto_more, HX.
Qed.

(** The coerced text is well-formed, so coercing again changes nothing. *)
Lemma coerce_upto_well_formed (k : nat) :
  forall s, (String.length s <= k)%nat ->
            utf8.ValidString (coerce_upto k s) = true.
Proof.
  unfold utf8.ValidString.
  induction k as [|k IH]; intros s Hk.
  - destruct s; reflexivity.
  - destruct s as [|b s']; [reflexivity|].
    cbn [String.length] in Hk. cbn [coerce_upto].
    destruct (utf8.DecodeRune (String b s')) as [r n] eqn:Hd. cbn [snd].
    destruct (utf8.ill_formed (r, n)) eqn:Hill.
    + apply (valid_upto_rune (utf8.EncodeRune utf8.RuneError) _ utf8.RuneError 3);
        [discriminate | reflexivity | reflexivity | reflexivity | apply IH; lia].
    + destruct (DecodeRune_spec (String b s') r n ltac:(discriminate) Hd Hill)
        as (seq & rest0 & Hs & Hlen & Hn & Henc & Hhigh & Hloc).
      assert (Hdrop : utf8.string_drop n (String b s') = rest0)
        by (rewrite Hs, <- Hlen; apply drop_app).
      assert (Htake : utf8.string_take n (String b s') = seq)
        by (rewrite Hs, <- Hlen; apply take_app).
      assert (Hk0 : (String.length rest0 <= k)%nat).
      { assert (E : String.length (String b s') = String.length (seq ++ rest0))
          by now rewrite Hs.
        rewrite length_append in E. cbn [String.length] in E. lia. }
      rewrite Hdrop, Htake.
      apply (valid_upto_rune seq _ r n);
        [destruct seq; [simpl in Hlen; lia | discriminate]
        | exact Hlen | apply Hloc | exact Hill | apply IH, Hk0].
Qed.

Lemma coerce_well_formed (s : string) : utf8.ValidString (coerce s) = true.
Proof. apply coerce_upto_well_formed. lia. Qed.

Lemma coerce_idempotent (s : string) : coerce (coerce s) = coerce s.
Proof. apply coerce_valid, coerce_well_formed. Qed.

(** ** Objects on the wire: the parser undoes [render] *)

Lemma skip_ws_plain (c : ascii) (r : string) :
  jsontext.is_space c = false -> jsontext.skip_ws (String c r) = String c r.
Proof. intros H. simpl. now rewrite H. Qed.

Lemma closes_skip_ws (rest : string) : closes rest -> jsontext.skip_ws rest = rest.
Proof. intros (r & [-> | ->]); reflexivity. Qed.

Lemma parse_value_string (n : nat) (depth : N) (r : string) :
  jsontext.parse_value (S n) depth (String dquote r) =
  match jsontext.unquote (String.length r) r with
  | Some (str, rest) => Some (JString str, rest)
  | None => None
  end.
Proof. reflexivity. Qed.

Lemma parse_value_number (n : nat) (depth : N) (c : ascii) (r : string) :
  strconv.is_digit c = true \/ c = "-"%char ->
  jsontext.parse_value (S n) depth (String c r) =
  match jsontext.scan_number (String c r) with
  | Some (lit, rest) => Some (JNumber lit, rest)
  | None => None
  end.
Proof.
  intros H.
  destruct c as [[] [] [] [] [] [] [] []];
    try (exfalso; destruct H as [H|H]; discriminate); reflexivity.
Qed.

Lemma Itoa_head (z : Z) :
  exists c r, strconv.Itoa z = String c r /\ (strconv.is_digit c = true \/ c = "-"%char).
Proof.
  pose proof (Itoa_cases z) as Hc. destruct z as [|p|p]; rewrite Hc.
  - exists "0"%char, "". split; [reflexivity | left; reflexivity].
  - destruct (pos_digits_shape p) as (c & r & E & Hd & _). rewrite E.
    exists c, r. split; [reflexivity | left; exact Hd].
  - eexists; eexists. split; [reflexivity | right; reflexivity].
Qed.

Lemma parse_plain (v : json) (n : nat) (depth : N) (rest : string) :
  plain v -> closes rest ->
  jsontext.parse_value (S n) depth (jsontext.render v ++ rest)
  = Some (coerce_json v, rest).
Proof.
  intros Hv Hcl. destruct Hv as [s | z | b].
  - cbn [jsontext.render coerce_json].
    destruct (unquote_quote s rest) as (r & -> & Hu).
    rewrite parse_value_string, Hu. reflexivity.
  - cbn [jsontext.render coerce_json].
    destruct (Itoa_head z) as (c & r & E & Hc).
    pose proof (scan_number_Itoa z rest Hcl) as Hsc.
    rewrite E in *. change (String c r ++ rest) with (String c (r ++ rest)) in *.
    rewrite (parse_value_number n depth c _ Hc), Hsc. reflexivity.
  - destruct b; reflexivity.
Qed.

Lemma parse_members_step (n : nat) (depth : N) (r : string) :
  jsontext.parse_members (S n) depth (String dquote r) =
  match jsontext.unquote (String.length r) r with
  | Some (key, r1) =>
    match jsontext.skip_ws r1 with
    | String ":"%char r2 =>
      match jsontext.parse_value n depth r2 with
      | Some (v, r3) =>
        match jsontext.skip_ws r3 with
        | String ","%char r4 =>
          match jsontext.parse_members n depth r4 with
          | Some (ms, r5) => Some ((key, v) :: ms, r5)
          | None => None
          end
        | String "}"%char r4 => Some ([(key, v)], r4)
        | _ => None
        end
      | None => None
      end
    | _ => None
    end
  | None => None
  end.
Proof. reflexivity. Qed.

Lemma join_comma_cons (x : string) (l : list string) :
  l <> [] -> jsontext.join_comma (x :: l) = x ++ "," ++ jsontext.join_comma l.
Proof. destruct l; [congruence | reflexivity]. Qed.

Lemma parse_members_plain (ms : list (string * json)) :
  forall (n : nat) (depth : N) (rest : string),
    ms <> [] -> plain_members ms -> (List.length ms < n)%nat ->
    jsontext.parse_members n depth
      (jsontext.join_comma (map member ms) ++ String "}" rest)
    = Some (map coerce_member ms, rest).
Proof.
  induction ms as [|[k v] ms IH]; intros n depth rest Hne Hpl Hn; [congruence|].
  destruct n as [|n]; [simpl in Hn; lia|].
  apply Forall_cons_iff in Hpl as [[Hk Hv] Hpl]. cbn [fst snd] in Hk, Hv.
  apply coerce_valid in Hk.
  destruct n as [|n]; [simpl in Hn; destruct ms; simpl in Hn; lia|].
  destruct ms as [|kv ms].
  - cbn [map jsontext.join_comma]. unfold member at 1. cbn [fst snd].
    rewrite !append_assoc.
    destruct (unquote_quote k (":" ++ jsontext.render v ++ String "}" rest))
      as (r & -> & Hu).
    rewrite parse_members_step, Hu, Hk.
    change (":" ++ jsontext.render v ++ String "}" rest)
      with (String ":" (jsontext.render v ++ String "}" rest)).
    rewrite skip_ws_plain by reflexivity.
    rewrite (parse_plain v n depth (String "}" rest) Hv)
      by (exists rest; right; reflexivity).
    rewrite skip_ws_plain by reflexivity.
    reflexivity.
  - change (map member ((k, v) :: kv :: ms))
      with (member (k, v) :: map member (kv :: ms)).
    rewrite join_comma_cons by discriminate. unfold member at 1. cbn [fst snd].
    rewrite !append_assoc.
    set (tail := jsontext.join_comma (map member (kv :: ms)) ++ String "}" rest).
    destruct (unquote_quote k (":" ++ jsontext.render v ++ "," ++ tail))
      as (r & -> & Hu).
    rewrite parse_members_step, Hu, Hk.
    change (":" ++ jsontext.render v ++ "," ++ tail)
      with (String ":" (jsontext.render v ++ String "," tail)).
    rewrite skip_ws_plain by reflexivity.
    rewrite (parse_plain v n depth (String "," tail) Hv)
      by (exists tail; left; reflexivity).
    rewrite skip_ws_plain by reflexivity.
    unfold tail.
    rewrite (IH (S n) depth rest) by (try congruence; try assumption; simpl in *; lia).
    reflexivity.
Qed.

Lemma join_head (ms : list (string * json)) (Y : string) :
  ms <> [] -> exists r, jsontext.join_comma (map member ms) ++ Y = String dquote r.
Proof.
  destruct ms as [|[k v] [|kv ms]]; [congruence | |]; intros _;
    cbn [map jsontext.join_comma]; unfold member at 1, jsontext.quote; cbn [fst snd];
    simpl; eexists; reflexivity.
Qed.

Lemma length_member (kv : string * json) : (1 <= String.length (member kv))%nat.
Proof. unfold member, jsontext.quote. simpl. lia. Qed.

Lemma length_join (ms : list (string * json)) :
  (List.length ms <= String.length (jsontext.join_comma (map member ms)))%nat.
Proof.
  induction ms as [|kv ms IH]; [simpl; lia|].
  destruct ms as [|kv' ms].
  - cbn [map jsontext.join_comma List.length]. pose proof (length_member kv). lia.
  - change (map member (kv :: kv' :: ms)) with (member kv :: map member (kv' :: ms)).
    rewrite join_comma_cons by discriminate.
    rewrite !length_append. pose proof (length_member kv).
    cbn [List.length] in *. lia.
Qed.

Lemma parse_value_object (n : nat) (r : string) :
  jsontext.parse_value (S n) 0 (String "{" (String dquote r)) =
  match jsontext.parse_members n 1 (String dquote r) with
  | Some (ms, rest) => Some (JObject ms, rest)
  | None => None
  end.
Proof. reflexivity. Qed.

Lemma render_object (ms : list (string * json)) :
  jsontext.render (JObject ms)
  = String "{" (jsontext.join_comma (map member ms) ++ String "}" "").
Proof. reflexivity. Qed.

(** The stream decoder reads back an object of plain members. *)
Lemma readValue_render_object (ms : list (string * json)) :
  ms <> [] -> plain_members ms ->
  json_pkg.readValue (jsontext.render (JObject ms)) = Ok (JObject (map coerce_member ms)).
Proof.
  intros Hne Hpl. rewrite render_object.
  unfold json_pkg.readValue.
  rewrite skip_ws_plain by reflexivity.
  set (body := jsontext.join_comma (map member ms) ++ String "}" "").
  assert (Hlen : (List.length ms < 2 * String.length (String "{" body))%nat).
  { unfold body. cbn [String.length]. rewrite length_append.
    pose proof (length_join ms). lia. }
  replace (2 * String.length (String "{" body) + 1)%nat
    with (S (2 * String.length (String "{" body))) by lia.
  destruct (join_head ms (String "}" "") Hne) as (r & Hr).
  fold body in Hr. rewrite Hr, parse_value_object, <- Hr.
  pose proof (parse_members_plain ms _ 1 "" Hne Hpl Hlen) as Hpm.
  fold body in Hpm. rewrite Hpm.
  reflexivity.
Qed.

(** ** The structs through [Marshal] and [Decode] *)

Lemma Template_toJSON_plain (t : Template) :
  exists ms, json_pkg.Template_toJSON t = JObject ms /\ ms <> [] /\ plain_members ms.
Proof.
  eexists. split; [reflexivity|]. split.
  - destruct (TemplateID t =? 0); discriminate.
  - unfold plain_members.
    repeat (apply Forall_app; split);
      repeat match goal with
             | |- Forall _ (if ?c then _ else _) => destruct c
             | |- Forall _ [] => constructor
             | |- Forall _ (_ :: _) => constructor
             | |- _ /\ _ => split
             | |- utf8.ValidString _ = true => reflexivity
             | |- plain _ => constructor
             end.
Qed.

(** The members [Marshal] writes for a template, read back, fill a
    template with the same fields, the text coerced. *)
Lemma Template_members_toJSON (t : Template) (ms : list (string * json)) :
  strconv.in_int64 (TemplateID t) = true ->
  json_pkg.Template_toJSON t = JObject ms ->
  json_pkg.Template_members "" (map coerce_member ms) zero_Template
  = Ok (coerce_Template t).
Proof.
  intros Hid E. pose proof (ParseInt_Itoa _ Hid) as Hp.
  destruct t as [id name subj html text alias active]. cbn [TemplateID] in *.
  unfold json_pkg.Template_toJSON in E.
  cbn [TemplateID Name Subject HtmlBody TextBody Alias Active] in E.
  injection E as <-.
  unfold coerce_Template.
  cbn [TemplateID Name Subject HtmlBody TextBody Alias Active].
  destruct (id =? 0) eqn:Hz; destruct (String.eqb alias "") eqn:Ha; destruct active;
    cbn [List.app map coerce_member coerce_json fst snd json_pkg.Template_members];
    repeat (match goal with
            | |- context [json_pkg.field_of json_pkg.Template_fields ?k] =>
              let f := eval vm_compute in (json_pkg.field_of json_pkg.Template_fields k) in
              change (json_pkg.field_of json_pkg.Template_fields k) with f
            end; cbv beta iota;
            unfold json_pkg.Template_store; cbn [String.eqb Ascii.eqb Bool.eqb];
            cbn [json_pkg.store_int json_pkg.store_string json_pkg.store_bool bind
                 TemplateID Name Subject HtmlBody TextBody Alias Active
                 String.append json_pkg.Template_members];
            rewrite ?Hp; cbn [bind json_pkg.Template_members]);
    try (apply Z.eqb_eq in Hz; subst id);
    try (apply String.eqb_eq in Ha; subst alias);
    reflexivity.
Qed.

(** What [Marshal] writes for a template, [Decode] reads back as the
    template with its text coerced to well-formed UTF-8. *)
Lemma Decode_Marshal_coerced (t : Template) :
  strconv.in_int64 (TemplateID t) = true ->
  json_pkg.Decode_Template (fst (json_pkg.Marshal t)) = Ok (coerce_Template t).
Proof.
  intros Hid.
  destruct (Template_toJSON_plain t) as (ms & E & Hne & Hpl).
  unfold json_pkg.Decode_Template, json_pkg.Marshal. cbn [fst].
  rewrite E, (readValue_render_object ms Hne Hpl). cbn [bind json_pkg.Template_value].
  apply Template_members_toJSON; assumption.
Qed.

Lemma coerce_Template_well_formed (t : Template) :
  well_formed_text t = true -> coerce_Template t = t.
Proof.
  unfold well_formed_text. intros H.
  repeat (apply andb_true_iff in H as [H ?]).
  destruct t as [id name subj html text alias active].
  unfold coerce_Template. cbn [TemplateID Name Subject HtmlBody TextBody Alias Active] in *.
  now rewrite !coerce_valid by assumption.
Qed.

(** Well-formed text comes back as it was written. *)
Lemma Decode_Marshal (t : Template) :
  well_formed_text t = true -> strconv.in_int64 (TemplateID t) = true ->
  json_pkg.Decode_Template (fst (json_pkg.Marshal t)) = Ok t.
Proof.
  intros Hwf Hid.
  rewrite (Decode_Marshal_coerced t Hid), (coerce_Template_well_formed t Hwf).
  reflexivity.
Qed.

Lemma Decode_PostmarkResponse_render (p : PostmarkResponse) :
  strconv.in_int64 (RespTemplateID p) = true -> strconv.in_int64 (ErrorCode p) = true ->
  utf8.ValidString (Message p) = true ->
  json_pkg.Decode_PostmarkResponse
    (jsontext.render (json_pkg.PostmarkResponse_toJSON p)) = Ok p.
Proof.
  intros Hid Hcode Hmsg.
  pose proof (ParseInt_Itoa _ Hid) as Hp1. pose proof (ParseInt_Itoa _ Hcode) as Hp2.
  apply coerce_valid in Hmsg.
  destruct p as [id code msg]. cbn [RespTemplateID ErrorCode Message] in *.
  unfold json_pkg.Decode_PostmarkResponse, json_pkg.PostmarkResponse_toJSON.
  cbn [RespTemplateID ErrorCode Message].
  rewrite readValue_render_object; [|discriminate|].
  - cbn [bind map coerce_member coerce_json fst snd json_pkg.PostmarkResponse_members].
    repeat (match goal with
            | |- context [json_pkg.field_of json_pkg.PostmarkResponse_fields ?k] =>
              let f := eval vm_compute in (json_pkg.field_of json_pkg.PostmarkResponse_fields k) in
              change (json_pkg.field_of json_pkg.PostmarkResponse_fields k) with f
            end; cbv beta iota;
            cbn [String.eqb Ascii.eqb Bool.eqb json_pkg.store_int json_pkg.store_string
                 bind RespTemplateID ErrorCode Message json_pkg.PostmarkResponse_members];
            rewrite ?Hp1, ?Hp2; cbn [bind json_pkg.PostmarkResponse_members]).
    rewrite Hmsg. reflexivity.
  - repeat constructor.
Qed.

(** ** The test double answers the client's requests *)

Lemma request_of_parts (tok : string) (c : call) :
  Method (request_of tok c) = method_of c /\
  URL (request_of tok c) = url_of c /\
  ReqBody (request_of tok c) = payload_of c.
Proof. destruct c; repeat split. Qed.

Lemma request_of_token (tok : string) (c : call) :
  http.Header_Get (Header (request_of tok c)) "X-Postmark-Server-Token" = tok.
Proof.
  unfold http.Header_Get.
  destruct canonical_keys as (_ & _ & ->).
  destruct (request_headers tok c) as (-> & _). reflexivity.
Qed.

Lemma strip_prefix_app (p x : string) : jsontext.strip_prefix p (p ++ x) = Some x.
Proof.
  induction p as [|c p IH]; simpl; [destruct x; reflexivity|].
  now rewrite Ascii.eqb_refl.
Qed.

Lemma Itoa_not_validate (z : Z) : String.eqb (strconv.Itoa z) "validate" = false.
Proof.
  destruct (Itoa_head z) as (c & r & -> & Hc).
  cbn [String.eqb].
  destruct (Ascii.eqb_spec c "v") as [->|]; [|reflexivity].
  destruct Hc as [Hc|Hc]; discriminate.
Qed.

Lemma has_content_coerce (t : Template) :
  has_content (coerce_Template t) = has_content t.
Proof.
  unfold has_content, coerce_Template.
  cbn [Name Subject HtmlBody TextBody]. now rewrite !coerce_nonempty.
Qed.

Lemma coerce_Template_idempotent (t : Template) :
  coerce_Template (coerce_Template t) = coerce_Template t.
Proof.
  unfold coerce_Template. cbn [TemplateID Name Subject HtmlBody TextBody Alias Active].
  now rewrite !coerce_idempotent.
Qed.

(** Create: the double stores what it reads, the text coerced. *)
Lemma double_create (tok : string) (t : Template) (s : double.Server) :
  double.token s = tok -> valid_Template t = true ->
  double.handle (request_of tok (Create t)) s
  = (Ok (double.reply 200 (mkPostmarkResponse (double.next_id s) 0 "OK")),
     double.mkServer (double.token s) (double.next_id s + 1)
       (<[double.next_id s := double.with_id (double.next_id s) (coerce_Template t)]>
          (double.store s))).
Proof.
  intros Htok Hv. unfold valid_Template in Hv.
  apply andb_true_iff in Hv as [Hc Hid].
  unfold double.handle.
  destruct (request_of_parts tok (Create t)) as (-> & -> & ->).
  rewrite request_of_token, Htok, String.eqb_refl.
  cbn [negb method_of url_of payload_of].
  change (jsontext.strip_prefix double.base "https://api.postmarkapp.com/templates")
    with (Some "").
  cbv beta iota. change (String.eqb "POST" "POST") with true. cbv beta iota.
  unfold double.accepts.
  rewrite (Decode_Marshal_coerced t Hid), has_content_coerce, Hc. reflexivity.
Qed.

Lemma double_get (tok : string) (id : Z) (t : Template) (s : double.Server) :
  double.token s = tok -> strconv.in_int64 id = true -> double.store s !! id = Some t ->
  double.handle (request_of tok (Get id)) s
  = (Ok (mkResponse 200 (jsontext.render (json_pkg.Template_toJSON t))), s).
Proof.
  intros Htok Hid Hst.
  unfold double.handle.
  destruct (request_of_parts tok (Get id)) as (-> & -> & ->).
  rewrite request_of_token, Htok, String.eqb_refl.
  cbn [negb method_of url_of payload_of].
  change ("https://api.postmarkapp.com/templates/" ++ strconv.Itoa id)
    with (double.base ++ String "/" (strconv.Itoa id)).
  rewrite strip_prefix_app, Itoa_not_validate, (ParseInt_Itoa id Hid).
  change (String.eqb "GET" "GET") with true. cbv beta iota.
  rewrite Hst. reflexivity.
Qed.

(** Create followed by Get, for every template with the required content:
    both succeed, and Get returns the template under its new id with the
    text coerced to well-formed UTF-8. *)
Lemma create_then_get (tok : string) (t : Template) (s : double.Server) :
  valid_Template t = true ->
  double.token s = tok ->
  strconv.in_int64 (double.next_id s) = true ->
  exists (s' : double.Server),
    CreateTemplate double.handle tok t s = ((double.next_id s, None), s') /\
    GetTemplate double.handle tok (double.next_id s) s'
    = ((Some (double.with_id (double.next_id s) (coerce_Template t)), None), s').
Proof.
  intros Hv Htok Hnext.
  set (id := double.next_id s).
  exists (double.mkServer (double.token s) (id + 1)
            (<[id := double.with_id id (coerce_Template t)]> (double.store s))).
  split.
  - rewrite CreateTemplate_unfold, (double_create tok t s Htok Hv).
    fold id. unfold double.reply. cbn [StatusCode Body].
    change (negb (200 =? http.StatusOK)) with false. cbv beta iota.
    rewrite Decode_PostmarkResponse_render by (try exact Hnext; reflexivity).
    reflexivity.
  - rewrite GetTemplate_unfold.
    rewrite (double_get tok id (double.with_id id (coerce_Template t)));
      cbn [double.token double.store];
      [| exact Htok | exact Hnext | apply lookup_insert_eq].
    cbn [StatusCode Body].
    change (negb (200 =? http.StatusOK)) with false. cbv beta iota.
    change (jsontext.render
              (json_pkg.Template_toJSON (double.with_id id (coerce_Template t))))
      with (fst (json_pkg.Marshal (double.with_id id (coerce_Template t)))).
    rewrite Decode_Marshal_coerced by exact Hnext.
    change (coerce_Template (double.with_id id (coerce_Template t)))
      with (double.with_id id (coerce_Template (coerce_Template t))).
    rewrite coerce_Template_idempotent. reflexivity.
Qed.

(** C7, as the code has it.  Against the test double, for every valid
    template whose name, subject, htmlBody and textBody are well-formed
    UTF-8: Create returns an id without error, and Get with that id
    returns, without error, a template whose name, subject, htmlBody and
    textBody are those given to Create. *)
Theorem create_then_get_round_trip (tok : string) (t : Template) (s : double.Server) :
  valid_Template t = true ->
  well_formed_fields t = true ->
  double.token s = tok ->
  strconv.in_int64 (double.next_id s) = true ->
  exists (id : Z) (s' : double.Server) (t' : Template),
    CreateTemplate double.handle tok t s = ((id, None), s') /\
    GetTemplate double.handle tok id s' = ((Some t', None), s') /\
    Name t' = Name t /\ Subject t' = Subject t /\
    HtmlBody t' = HtmlBody t /\ TextBody t' = TextBody t.
Proof.
  intros Hv Hwf Htok Hnext.
  destruct (create_then_get tok t s Hv Htok Hnext) as (s' & HC & HG).
  exists (double.next_id s), s', (double.with_id (double.next_id s) (coerce_Template t)).
  split; [exact HC|]. split; [exact HG|].
  unfold well_formed_fields in Hwf.
  repeat (apply andb_true_iff in Hwf as [Hwf ?]).
  cbn [double.with_id coerce_Template Name Subject HtmlBody TextBody].
  repeat split; apply coerce_valid; assumption.
Qed.

Lemma create_then_get_round_trip_witness :
  exists (id : Z) (s' : double.Server) (t' : Template),
    CreateTemplate double.handle "tok" password_reset (double.fresh "tok")
    = ((id, None), s') /\
    GetTemplate double.handle "tok" id s' = ((Some t', None), s') /\
    Name t' = Name password_reset /\ Subject t' = Subject password_reset /\
    HtmlBody t' = HtmlBody password_reset /\ TextBody t' = TextBody password_reset.
Proof.
  apply (create_then_get_round_trip "tok" password_reset (double.fresh "tok")).
  - vm_compute. reflexivity.
  - vm_compute. reflexivity.
  - reflexivity.
  - reflexivity.
Defined.

(** C7 as stated fails: a template with a name, a subject and a body is
    created without error, and Get with the returned id returns another
    name, because [Marshal] writes the byte 0xFF of the name as U+FFFD. *)
Lemma round_trip_loses_ill_formed_name :
  valid_Template ill_named = true /\
  fst (json_pkg.Marshal ill_named)
  = wire "{'name':'\ufffd','subject':'Reset your password','htmlBody':'','textBody':'Click'}" /\
  exists (s' : double.Server) (t' : Template),
    CreateTemplate double.handle "tok" ill_named (double.fresh "tok") = ((1, None), s') /\
    GetTemplate double.handle "tok" 1 s' = ((Some t', None), s') /\
    Name t' = utf8.EncodeRune utf8.RuneError /\
    Name t' <> Name ill_named.
Proof.
  split; [reflexivity|]. split; [vm_compute; reflexivity|].
  eexists. eexists.
  split; [vm_compute; reflexivity|].
  split; [vm_compute; reflexivity|].
  split; [reflexivity | discriminate].
Qed.

(** No double could do better: two templates that differ in an ill-formed
    byte of the name are sent as the same request. *)
Example ill_formed_names_share_a_request :
  Name ill_named <> String (mkbyte 254) "" /\
  request_of "tok" (Create ill_named)
  = request_of "tok"
      (Create (mkTemplate 0 (String (mkbyte 254) "") "Reset your password" "" "Click" "" false)).
Proof. split; [discriminate | vm_compute; reflexivity]. Qed.

(** ** Field names and omitted fields *)

Lemma field_of_in (names : list string) (k f : string) :
  json_pkg.field_of names k = Some f -> In f names.
Proof.
  unfold json_pkg.field_of. intros H.
  destruct (find (String.eqb k) names) eqn:E1.
  - injection H as <-. apply find_some in E1. tauto.
  - apply find_some in H. tauto.
Qed.

Lemma Template_store_keeps_active (path f : string) (v : json) (t t' : Template) :
  In f json_pkg.Template_fields -> String.eqb f "active" = false ->
  json_pkg.Template_store path f v t = Ok t' -> Active t' = Active t.
Proof.
  intros Hin Hf.
  unfold json_pkg.Template_fields in Hin. cbn [In] in Hin.
  repeat (destruct Hin as [<- | Hin]); try contradiction; try discriminate;
    unfold json_pkg.Template_store; cbn [String.eqb Ascii.eqb Bool.eqb];
    match goal with
    | |- bind ?r _ = _ -> _ => destruct r; cbn [bind]; intros [= <-]; reflexivity
    end.
Qed.

Lemma Template_members_keep_active (path : string) (ms : list (string * json)) :
  forall t t', no_active ms = true ->
               json_pkg.Template_members path ms t = Ok t' -> Active t' = Active t.
Proof.
  induction ms as [|[k v] ms IH]; intros t t' Hno H.
  - injection H as <-. reflexivity.
  - cbn [no_active forallb fst] in Hno. apply andb_true_iff in Hno as [Hk Hno].
    apply negb_true_iff in Hk. unfold addresses_active in Hk.
    cbn [json_pkg.Template_members] in H.
    destruct (json_pkg.field_of json_pkg.Template_fields k) as [f|] eqn:Ef.
    + destruct (json_pkg.Template_store path f v t) as [t1|e] eqn:Es; [|discriminate].
      cbn [bind] in H.
      rewrite (IH t1 t' Hno H).
      eapply Template_store_keeps_active; eauto using field_of_in.
    + exact (IH t t' Hno H).
Qed.

Lemma Template_members_app (path : string) (a b : list (string * json)) :
  forall t, json_pkg.Template_members path (a ++ b) t
            = bind (json_pkg.Template_members path a t)
                   (json_pkg.Template_members path b).
Proof.
  induction a as [|[k v] a IH]; intros t; [reflexivity|].
  cbn [List.app json_pkg.Template_members].
  destruct (json_pkg.field_of json_pkg.Template_fields k) as [f|]; [|apply IH].
  destruct (json_pkg.Template_store path f v t); cbn [bind]; [apply IH | reflexivity].
Qed.

Lemma explicit_false_is_absent (ms1 ms2 : list (string * json)) :
  no_active ms1 = true ->
  json_pkg.Template_value "" "" (JObject (ms1 ++ ("active", JBool false) :: ms2)) zero_Template
  = json_pkg.Template_value "" "" (JObject (ms1 ++ ms2)) zero_Template.
Proof.
  intros Hno. cbn [json_pkg.Template_value].
  rewrite !Template_members_app.
  destruct (json_pkg.Template_members "" ms1 zero_Template) as [t1|e] eqn:E1; [|reflexivity].
  cbn [bind].
  pose proof (Template_members_keep_active "" ms1 _ _ Hno E1) as Ha.
  cbn [Active zero_Template] in Ha.
  cbn [json_pkg.Template_members].
  change (json_pkg.field_of json_pkg.Template_fields "active") with (Some "active").
  cbv beta iota.
  replace (json_pkg.Template_store "" "active" (JBool false) t1) with (Ok t1 : result Template json_error).
  - reflexivity.
  - destruct t1; cbn [Active] in Ha; subst. reflexivity.
Qed.

Lemma keys_of_toJSON (t : Template) : keys_of (json_pkg.Template_toJSON t) = wire_keys t.
Proof.
  unfold json_pkg.Template_toJSON, wire_keys, keys_of.
  rewrite !map_app.
  destruct (TemplateID t =? 0), (String.eqb (Alias t) ""), (Active t); reflexivity.
Qed.

(** C8. [Marshal] writes a template under the names templateID, name,
    subject, htmlBody, textBody, alias, active in this order; alias is left
    out when empty and active when false (templateID, also tagged
    omitempty, when zero).  An object with ["active": false] decodes to the
    same template as the object without the member, so both are written
    back as the same bytes, and both decode to [Active = false]; what
    [Marshal] writes for a template decodes with [Active] as it was, and
    to the template itself when its text is well-formed.  A list response
    is read under the names templates and totalCount. *)
Theorem template_wire_format :
  (forall t, keys_of (json_pkg.Template_toJSON t) = wire_keys t
             /\ (In "alias" (wire_keys t) <-> Alias t <> "")
             /\ (In "active" (wire_keys t) <-> Active t = true)
             /\ incl (wire_keys t) json_pkg.Template_fields) /\
  json_pkg.Template_fields
  = ["templateID"; "name"; "subject"; "htmlBody"; "textBody"; "alias"; "active"] /\
  (forall ms1 ms2,
      no_active (ms1 ++ ms2) = true ->
      json_pkg.Template_value "" "" (JObject (ms1 ++ ("active", JBool false) :: ms2))
                              zero_Template
      = json_pkg.Template_value "" "" (JObject (ms1 ++ ms2)) zero_Template
      /\ (forall t1 t2,
             json_pkg.Template_value "" "" (JObject (ms1 ++ ("active", JBool false) :: ms2))
                                     zero_Template = Ok t1 ->
             json_pkg.Template_value "" "" (JObject (ms1 ++ ms2)) zero_Template = Ok t2 ->
             fst (json_pkg.Marshal t1) = fst (json_pkg.Marshal t2))
      /\ forall t', json_pkg.Template_value "" "" (JObject (ms1 ++ ms2)) zero_Template = Ok t'
                    -> Active t' = false
                       /\ ~ In "active" (keys_of (json_pkg.Template_toJSON t'))) /\
  (forall t, strconv.in_int64 (TemplateID t) = true ->
             exists t', json_pkg.Decode_Template (fst (json_pkg.Marshal t)) = Ok t'
                        /\ Active t' = Active t
                        /\ (well_formed_text t = true -> t' = t)) /\
  json_pkg.TemplatesResponse_fields = ["templates"; "totalCount"] /\
  (forall js n, strconv.in_int64 n = true ->
      json_pkg.TemplatesResponse_members
        [("templates", JArray js); ("totalCount", JNumber (strconv.Itoa n))]
        zero_TemplatesResponse
      = (ts <- json_pkg.Template_elems js ;; Ok (mkTemplatesResponse (Some ts) n))).
Proof.
  split; [|split; [reflexivity|split; [|split; [|split; [reflexivity|]]]]].
  - intros t. split; [apply keys_of_toJSON|].
    unfold wire_keys.
    destruct (TemplateID t =? 0), (String.eqb_spec (Alias t) ""), (Active t);
      cbn [List.app In]; (split; [|split]);
      try (intros x Hx; cbn [In] in Hx; unfold json_pkg.Template_fields; cbn [In];
           intuition congruence);
      intuition congruence.
  - intros ms1 ms2 Hno.
    assert (Hno1 : no_active ms1 = true).
    { unfold no_active in *. rewrite forallb_app in Hno.
      apply andb_true_iff in Hno. tauto. }
    split; [apply explicit_false_is_absent, Hno1|].
    split.
    { intros t1 t2 H1 H2. rewrite (explicit_false_is_absent ms1 ms2 Hno1), H2 in H1.
      injection H1 as <-. reflexivity. }
    intros t' Ht'. cbn [json_pkg.Template_value] in Ht'.
    pose proof (Template_members_keep_active "" _ _ _ Hno Ht') as Ha.
    cbn [Active zero_Template] in Ha. split; [exact Ha|].
    rewrite keys_of_toJSON. unfold wire_keys. rewrite Ha.
    destruct (TemplateID t' =? 0), (String.eqb (Alias t') ""); cbn [List.app In];
      intuition discriminate.
  - intros t Hid. exists (coerce_Template t).
    split; [apply Decode_Marshal_coerced, Hid|].
    split; [reflexivity | apply coerce_Template_well_formed].
  - intros js n Hn. pose proof (ParseInt_Itoa n Hn) as Hp.
    cbn [json_pkg.TemplatesResponse_members].
    change (json_pkg.field_of json_pkg.TemplatesResponse_fields "templates")
      with (Some "templates").
    change (json_pkg.field_of json_pkg.TemplatesResponse_fields "totalCount")
      with (Some "totalCount").
    cbv beta iota. cbn [String.eqb Ascii.eqb Bool.eqb json_pkg.store_Templates].
    cbn [Templates zero_TemplatesResponse]. rewrite Template_elems_into_nil.
    destruct (json_pkg.Template_elems js) as [ts|e]; cbn [bind]; [|reflexivity].
    cbn [TotalCount Templates json_pkg.store_int]. rewrite Hp. reflexivity.
Qed.

Lemma template_wire_format_witness :
  json_pkg.Template_value "" ""
    (JObject ([("name", JString "n")] ++ ("active", JBool false) :: [("subject", JString "s")]))
    zero_Template
  = json_pkg.Template_value "" ""
      (JObject ([("name", JString "n")] ++ [("subject", JString "s")])) zero_Template /\
  (exists t', json_pkg.Decode_Template
                (fst (json_pkg.Marshal (mkTemplate 7 "n" "s" "h" "" "a" false))) = Ok t'
              /\ Active t' = false
              /\ (well_formed_text (mkTemplate 7 "n" "s" "h" "" "a" false) = true
                  -> t' = mkTemplate 7 "n" "s" "h" "" "a" false)) /\
  json_pkg.TemplatesResponse_members
    [("templates", JArray []); ("totalCount", JNumber (strconv.Itoa 4))]
    zero_TemplatesResponse
  = (ts <- json_pkg.Template_elems [] ;; Ok (mkTemplatesResponse (Some ts) 4)).
Proof.
  destruct template_wire_format as (_ & _ & Hfalse & Hround & _ & Hlist).
  split; [|split].
  - destruct (Hfalse [("name", JString "n")] [("subject", JString "s")] eq_refl) as [H _].
    exact H.
  - apply (Hround (mkTemplate 7 "n" "s" "h" "" "a" false)). reflexivity.
  - apply Hlist. reflexivity.
Defined.

(** The same on the text of the wire. *)
Example active_false_and_absent_on_the_wire :
  json_pkg.Decode_Template (wire "{'name':'n', 'active':false, 'subject':'s'}")
  = Ok (mkTemplate 0 "n" "s" "" "" "" false) /\
  json_pkg.Decode_Template (wire "{'name':'n', 'subject':'s'}")
  = Ok (mkTemplate 0 "n" "s" "" "" "" false) /\
  fst (json_pkg.Marshal (mkTemplate 0 "n" "s" "" "" "" false))
  = wire "{'name':'n','subject':'s','htmlBody':'','textBody':''}" /\
  fst (json_pkg.Marshal (mkTemplate 7 "n" "s" "h" "" "a" true))
  = wire "{'templateID':7,'name':'n','subject':'s','htmlBody':'h','textBody':'','alias':'a','active':true}".
Proof. repeat split; vm_compute; reflexivity. Qed.

(** * Further properties of the client *)

(** ** Errors the operations can and cannot return *)

(** X1. When the request cannot be sent, each of the six operations returns
    ["failed to send request: "] wrapping the transport's error, with the
    zero value, and leaves the world as the transport left it. *)
Theorem send_failure_is_wrapped
        {World : Type} (Do : Request -> World -> result Response error * World)
        (tok : string) (c : call) (w w' : World) (cause : error) :
  Do (request_of tok c) w = (Err cause, w') ->
  exists e, run Do tok c w = ((zero_value c, Some e), w') /\
            SendError e cause /\ Unwrap e = Some cause.
Proof.
  intros HDo. exists (Errorf_w "failed to send request: " cause).
  split; [|split; reflexivity].
  destruct c; unfold run.
  - rewrite CreateTemplate_unfold, HDo. reflexivity.
  - rewrite GetTemplate_unfold, HDo. reflexivity.
  - rewrite UpdateTemplate_unfold, HDo. reflexivity.
  - rewrite DeleteTemplate_unfold, HDo. reflexivity.
  - rewrite GetTemplates_unfold, HDo. reflexivity.
  - rewrite ValidateTemplate_unfold, HDo. reflexivity.
Qed.

Lemma send_failure_is_wrapped_witness :
  exists e, run (unreachable (httpError "dial tcp: connection refused")) "tok"
                (Update password_reset) tt = ((VNone, Some e), tt) /\
            SendError e (httpError "dial tcp: connection refused") /\
            Unwrap e = Some (httpError "dial tcp: connection refused").
Proof.
  apply (send_failure_is_wrapped
           (unreachable (httpError "dial tcp: connection refused")) "tok"
           (Update password_reset) tt tt (httpError "dial tcp: connection refused")).
  reflexivity.
Defined.

(** X2. Every error an operation returns is of one of four kinds: the
    request could not be sent; the status was not 200; the body of a 200
    response did not decode (only Create, Get, Update, List); the decoded
    error code was not zero (only Create, Update).  The errors of the
    marshal and new-request steps are never returned, and every error
    comes with the zero value. *)
Theorem errors_are_of_four_kinds
        {World : Type} (Do : Request -> World -> result Response error * World)
        (tok : string) (c : call) (w : World) (e : error) :
  failure (run Do tok c w) = Some e ->
  returned (run Do tok c w) = zero_value c /\
  ((exists cause, Do (request_of tok c) w = (Err cause, snd (run Do tok c w))
                  /\ SendError e cause) \/
   (exists resp, Do (request_of tok c) w = (Ok resp, snd (run Do tok c w)) /\
      ((StatusCode resp <> http.StatusOK
        /\ TransportError e (StatusCode resp) (Body resp)) \/
       (StatusCode resp = http.StatusOK /\ decodes c = true
        /\ exists cause, DecodeError e cause) \/
       (StatusCode resp = http.StatusOK /\ checks_error_code c = true
        /\ exists p, json_pkg.Decode_PostmarkResponse (Body resp) = Ok p
                     /\ ErrorCode p <> 0 /\ RemoteError e (Message p))))) /\
  (forall x, e <> wrapError "failed to marshal template: " x) /\
  (forall x, e <> wrapError "failed to create request: " x).
Proof.
  intros H.
  destruct c; unfold run, failure, returned in *;
    [ rewrite CreateTemplate_unfold in *
    | rewrite GetTemplate_unfold in *
    | rewrite UpdateTemplate_unfold in *
    | rewrite DeleteTemplate_unfold in *
    | rewrite GetTemplates_unfold in *
    | rewrite ValidateTemplate_unfold in * ];
    destruct (Do _ w) as [[resp|cause] w1] eqn:HDo; cbn [fst snd] in *.
  all: repeat match goal with
              | H : context [if negb (StatusCode ?r =? http.StatusOK) then _ else _] |- _ =>
                destruct (StatusCode r =? http.StatusOK) eqn:Hst; cbn [negb fst snd] in *
              | H : context [match ?d with Ok _ => _ | Err _ => _ end] |- _ =>
                destruct d as [p|je] eqn:Hdec; cbn [fst snd] in *
              | H : context [if negb (ErrorCode ?q =? 0) then _ else _] |- _ =>
                destruct (ErrorCode q =? 0) eqn:Hcode; cbn [negb fst snd] in *
              end.
  all: try discriminate.
  all: assert (He : e = match (Some e) with Some x => x | None => e end) by reflexivity;
    rewrite <- H in He; subst e; clear H.
  all: (split; [reflexivity|]).
  all: (split; [|split; intros x; discriminate]).
  all: try (left; exists cause; split; reflexivity).
  all: right; exists resp; (split; [reflexivity|]).
  all: try (left; split; [lia | reflexivity]).
  all: try (right; left; split; [lia|]; split; [reflexivity|]; eexists; reflexivity).
  all: right; right; split; [lia|]; split; [reflexivity|]; exists p;
    (split; [exact Hdec|]); (split; [lia|]).
  - exists "create". reflexivity.
  - exists "update". reflexivity.
Qed.

Lemma errors_are_of_four_kinds_witness :
  returned (run (canned (mkResponse 422 "no such template")) "tok" (Get 9) tt)
  = zero_value (Get 9).
Proof.
  pose proof (errors_are_of_four_kinds (canned (mkResponse 422 "no such template"))
                "tok" (Get 9) tt (Errorf_status 422 "no such template")) as H.
  destruct H as [Hz _]; [vm_compute; reflexivity | exact Hz].
Defined.

(** ** Keys of a response: case and unknown members *)

Lemma fold_injective_on (names : list string) :
  List.NoDup (map json_pkg.foldName names) ->
  forall a b, In a names -> In b names ->
              json_pkg.foldName a = json_pkg.foldName b -> a = b.
Proof.
  induction names as [|x names IH]; intros Hnd a b Ha Hb E; [contradiction|].
  cbn [map] in Hnd. apply NoDup_cons_iff in Hnd as [Hx Hnd].
  destruct Ha as [<- | Ha], Hb as [<- | Hb]; auto.
  - exfalso. apply Hx. rewrite E. now apply in_map.
  - exfalso. apply Hx. rewrite <- E. now apply in_map.
Qed.

Lemma field_of_fold (names : list string) :
  List.NoDup (map json_pkg.foldName names) ->
  forall k f, In f names ->
              (json_pkg.field_of names k = Some f
               <-> json_pkg.foldName k = json_pkg.foldName f).
Proof.
  intros Hnd k f Hf. unfold json_pkg.field_of. split.
  - destruct (find (String.eqb k) names) as [f'|] eqn:E1.
    + intros [= <-]. apply find_some in E1 as [_ E1].
      apply String.eqb_eq in E1. now subst.
    + intros E2. apply find_some in E2 as [_ E2].
      apply String.eqb_eq in E2. now symmetry.
  - intros E.
    destruct (find (String.eqb k) names) as [f'|] eqn:E1.
    + apply find_some in E1 as [Hf' E1]. apply String.eqb_eq in E1. subst f'.
      f_equal. now apply (fold_injective_on names Hnd).
    + destruct (find (fun f0 => String.eqb (json_pkg.foldName f0) (json_pkg.foldName k)) names)
        as [f'|] eqn:E2.
      * apply find_some in E2 as [Hf' E2]. apply String.eqb_eq in E2.
        f_equal. apply (fold_injective_on names Hnd); congruence.
      * exfalso. pose proof (find_none _ _ E2 f Hf) as Hn. cbn beta in Hn.
        rewrite E, String.eqb_refl in Hn. discriminate.
Qed.

Lemma foldName_ascii (s : string) :
  is_ascii s = true -> json_pkg.foldName s = ascii_upper s.
Proof.
  unfold is_ascii.
  assert (Hgen : forall n s, (String.length s <= n)%nat ->
            forallb (fun c => byteval c <? 128) (list_ascii_of_string s) = true ->
            json_pkg.foldName s = ascii_upper s).
  { clear s. induction n as [|n IH]; intros s Hn Hs.
    - destruct s; [reflexivity | simpl in Hn; lia].
    - destruct s as [|c r]; [reflexivity|].
      cbn [list_ascii_of_string forallb String.length] in *.
      apply andb_true_iff in Hs as [Hc Hr].
      assert (IHr : json_pkg.foldName r = ascii_upper r) by (apply IH; [lia | exact Hr]).
      cbn [json_pkg.foldName ascii_upper].
      destruct r as [|c1 r1]; [reflexivity|].
      assert (H197 : (byteval c =? 197) = false) by lia.
      assert (H226 : (byteval c =? 226) = false) by lia.
      rewrite H197, H226. cbn [andb].
      destruct r1; rewrite IHr; reflexivity. }
  apply (Hgen (String.length s) s). lia.
Qed.

(** X3. A key of a response addresses a field of the struct being decoded
    exactly when it equals the field's tag name up to case folding, and
    for a key of ASCII bytes folding is putting the letters in upper case.
    So the key may be spelled [templateID], [TemplateId] or [TEMPLATEID]
    alike. *)
Theorem keys_match_up_to_case (names : list string) (k f : string) :
  In names [json_pkg.Template_fields; json_pkg.TemplatesResponse_fields;
            json_pkg.PostmarkResponse_fields] ->
  In f names ->
  (json_pkg.field_of names k = Some f <-> json_pkg.foldName k = json_pkg.foldName f) /\
  (is_ascii k = true ->
   (json_pkg.field_of names k = Some f <-> ascii_upper k = ascii_upper f)).
Proof.
  intros Hnames Hf.
  assert (Hnd : List.NoDup (map json_pkg.foldName names)).
  { cbn [In] in Hnames.
    destruct Hnames as [<- | [<- | [<- | []]]]; vm_compute;
      repeat (constructor; [cbn [In]; intuition discriminate|]); constructor. }
  assert (Hfa : is_ascii f = true).
  { cbn [In] in Hnames.
    destruct Hnames as [<- | [<- | [<- | []]]]; cbn [In] in Hf;
      repeat (destruct Hf as [<- | Hf]; [reflexivity|]); contradiction. }
  split; [apply field_of_fold; assumption|].
  intros Hk. rewrite <- (foldName_ascii k Hk), <- (foldName_ascii f Hfa).
  apply field_of_fold; assumption.
Qed.

Lemma keys_match_up_to_case_witness :
  json_pkg.field_of json_pkg.PostmarkResponse_fields "TemplateId" = Some "templateID".
Proof.
  destruct (keys_match_up_to_case json_pkg.PostmarkResponse_fields "TemplateId" "templateID")
    as [H _].
  - cbn [In]. auto.
  - unfold json_pkg.PostmarkResponse_fields. cbn [In]. auto.
  - apply H. reflexivity.
Defined.

Lemma Template_members_ignore (path : string) (ms : list (string * json)) :
  forall t, json_pkg.Template_members path (List.filter (addressed json_pkg.Template_fields) ms) t
            = json_pkg.Template_members path ms t.
Proof.
  induction ms as [|[k v] ms IH]; intros t; [reflexivity|].
  cbn [List.filter json_pkg.Template_members]. unfold addressed at 1. cbn [fst].
  destruct (json_pkg.field_of json_pkg.Template_fields k) as [f|] eqn:E; [|apply IH].
  cbn [json_pkg.Template_members]. rewrite E.
  destruct (json_pkg.Template_store path f v t); cbn [bind]; [apply IH | reflexivity].
Qed.

Lemma PostmarkResponse_members_ignore (ms : list (string * json)) :
  forall p, json_pkg.PostmarkResponse_members
              (List.filter (addressed json_pkg.PostmarkResponse_fields) ms) p
            = json_pkg.PostmarkResponse_members ms p.
Proof.
  induction ms as [|[k v] ms IH]; intros p; [reflexivity|].
  cbn [List.filter json_pkg.PostmarkResponse_members]. unfold addressed at 1. cbn [fst].
  destruct (json_pkg.field_of json_pkg.PostmarkResponse_fields k) as [f|] eqn:E; [|apply IH].
  cbn [json_pkg.PostmarkResponse_members]. rewrite E.
  match goal with |- bind ?r _ = bind ?r _ => destruct r end;
    cbn [bind]; [apply IH | reflexivity].
Qed.

Lemma TemplatesResponse_members_ignore (ms : list (string * json)) :
  forall r, json_pkg.TemplatesResponse_members
              (List.filter (addressed json_pkg.TemplatesResponse_fields) ms) r
            = json_pkg.TemplatesResponse_members ms r.
Proof.
  induction ms as [|[k v] ms IH]; intros r; [reflexivity|].
  cbn [List.filter json_pkg.TemplatesResponse_members]. unfold addressed at 1. cbn [fst].
  destruct (json_pkg.field_of json_pkg.TemplatesResponse_fields k) as [f|] eqn:E; [|apply IH].
  cbn [json_pkg.TemplatesResponse_members]. rewrite E.
  match goal with |- bind ?r _ = bind ?r _ => destruct r end;
    cbn [bind]; [apply IH | reflexivity].
Qed.

Lemma filter_all_out {A : Type} (f : A -> bool) (l : list A) :
  forallb (fun x => negb (f x)) l = true -> List.filter f l = [].
Proof.
  induction l as [|x l IH]; [reflexivity|].
  cbn [forallb List.filter]. intros H. apply andb_true_iff in H as [Hx Hl].
  apply negb_true_iff in Hx. rewrite Hx. auto.
Qed.

(** X4. Members of a response object whose key matches no field of the
    struct being decoded are ignored: the three structs decode from an
    object as from the object without those members. *)
Theorem unknown_members_are_ignored (ms : list (string * json)) :
  json_pkg.Template_value "" "" (JObject ms) zero_Template
  = json_pkg.Template_value "" ""
      (JObject (List.filter (addressed json_pkg.Template_fields) ms)) zero_Template /\
  json_pkg.PostmarkResponse_members ms zero_PostmarkResponse
  = json_pkg.PostmarkResponse_members
      (List.filter (addressed json_pkg.PostmarkResponse_fields) ms) zero_PostmarkResponse /\
  json_pkg.TemplatesResponse_members ms zero_TemplatesResponse
  = json_pkg.TemplatesResponse_members
      (List.filter (addressed json_pkg.TemplatesResponse_fields) ms) zero_TemplatesResponse.
Proof.
  split; [|split].
  - cbn [json_pkg.Template_value]. symmetry. apply Template_members_ignore.
  - symmetry. apply PostmarkResponse_members_ignore.
  - symmetry. apply TemplatesResponse_members_ignore.
Qed.

(** X5. A 200 response whose body is [null], or an object without any
    member for the struct the operation decodes, is taken as success with
    zero values: Create returns id 0, Get a template of zero fields,
    Update no error, List the nil slice. *)
Theorem empty_answer_is_success
        {World : Type} (Do : Request -> World -> result Response error * World)
        (tok : string) (w w' : World) (resp : Response) (j : json) :
  StatusCode resp = http.StatusOK ->
  json_pkg.readValue (Body resp) = Ok j ->
  (forall t, Do (request_of tok (Create t)) w = (Ok resp, w') ->
     holds_nothing_for json_pkg.PostmarkResponse_fields j ->
     CreateTemplate Do tok t w = ((0, None), w')) /\
  (forall id, Do (request_of tok (Get id)) w = (Ok resp, w') ->
     holds_nothing_for json_pkg.Template_fields j ->
     GetTemplate Do tok id w = ((Some zero_Template, None), w')) /\
  (forall t, Do (request_of tok (Update t)) w = (Ok resp, w') ->
     holds_nothing_for json_pkg.PostmarkResponse_fields j ->
     UpdateTemplate Do tok t w = (None, w')) /\
  (forall offset count, Do (request_of tok (List offset count)) w = (Ok resp, w') ->
     holds_nothing_for json_pkg.TemplatesResponse_fields j ->
     GetTemplates Do tok offset count w = ((None, None), w')).
Proof.
  intros Hst Hj. apply status_ok in Hst.
  assert (HP : holds_nothing_for json_pkg.PostmarkResponse_fields j ->
               json_pkg.Decode_PostmarkResponse (Body resp) = Ok zero_PostmarkResponse).
  { intros [-> | (ms & -> & Hno)]; unfold json_pkg.Decode_PostmarkResponse;
      rewrite Hj; cbn [bind]; [reflexivity|].
    rewrite <- PostmarkResponse_members_ignore, (filter_all_out _ _ Hno). reflexivity. }
  assert (HT : holds_nothing_for json_pkg.Template_fields j ->
               json_pkg.Decode_Template (Body resp) = Ok zero_Template).
  { intros [-> | (ms & -> & Hno)]; unfold json_pkg.Decode_Template;
      rewrite Hj; cbn [bind json_pkg.Template_value]; [reflexivity|].
    rewrite <- Template_members_ignore, (filter_all_out _ _ Hno). reflexivity. }
  assert (HL : holds_nothing_for json_pkg.TemplatesResponse_fields j ->
               json_pkg.Decode_TemplatesResponse (Body resp) = Ok zero_TemplatesResponse).
  { intros [-> | (ms & -> & Hno)]; unfold json_pkg.Decode_TemplatesResponse;
      rewrite Hj; cbn [bind]; [reflexivity|].
    rewrite <- TemplatesResponse_members_ignore, (filter_all_out _ _ Hno). reflexivity. }
  repeat split.
  - intros t HDo Hn. rewrite CreateTemplate_unfold, HDo, Hst, (HP Hn). reflexivity.
  - intros id HDo Hn. rewrite GetTemplate_unfold, HDo, Hst, (HT Hn). reflexivity.
  - intros t HDo Hn. rewrite UpdateTemplate_unfold, HDo, Hst, (HP Hn). reflexivity.
  - intros o c HDo Hn. rewrite GetTemplates_unfold, HDo, Hst, (HL Hn). reflexivity.
Qed.

Lemma empty_answer_is_success_witness :
  CreateTemplate (canned (mkResponse 200 (wire "{'status': 'ok', 'id': 17}"))) "tok"
                 password_reset tt = ((0, None), tt).
Proof.
  destruct (empty_answer_is_success
              (canned (mkResponse 200 (wire "{'status': 'ok', 'id': 17}"))) "tok" tt tt
              (mkResponse 200 (wire "{'status': 'ok', 'id': 17}"))
              (JObject [("status", JString "ok"); ("id", JNumber "17")]))
    as (HC & _).
  - reflexivity.
  - vm_compute. reflexivity.
  - apply HC; [reflexivity|].
    right. eexists. split; [reflexivity | vm_compute; reflexivity].
Defined.

(** ** List responses: nested objects through the decoder *)

Lemma parse_value_open (n : nat) (depth : N) (r : string) :
  (depth <? jsontext.maxNestingDepth)%N = true ->
  jsontext.parse_value (S n) depth (String "{" (String dquote r)) =
  match jsontext.parse_members n (depth + 1)%N (String dquote r) with
  | Some (ms, rest) => Some (JObject ms, rest)
  | None => None
  end.
Proof.
  intros H.
  change (jsontext.parse_value (S n) depth (String "{" (String dquote r)))
    with (if (depth <? jsontext.maxNestingDepth)%N
          then match jsontext.parse_members n (depth + 1)%N (String dquote r) with
               | Some (ms, rest) => Some (JObject ms, rest)
               | None => None
               end
          else None).
  now rewrite H.
Qed.

Lemma parse_flat_object (ms : list (string * json)) (n : nat) (depth : N) (rest : string) :
  ms <> [] -> plain_members ms -> (depth <? jsontext.maxNestingDepth)%N = true ->
  (List.length ms + 1 < n)%nat ->
  jsontext.parse_value n depth (jsontext.render (JObject ms) ++ rest)
  = Some (JObject (map coerce_member ms), rest).
Proof.
  intros Hne Hpl Hd Hn. destruct n as [|n]; [lia|].
  rewrite render_object.
  change (String "{" (jsontext.join_comma (map member ms) ++ String "}" "") ++ rest)
    with (String "{" ((jsontext.join_comma (map member ms) ++ String "}" "") ++ rest)).
  rewrite append_assoc. change (String "}" "" ++ rest) with (String "}" rest).
  destruct (join_head ms (String "}" rest) Hne) as (r & Hr).
  rewrite Hr, (parse_value_open n depth r Hd), <- Hr.
  rewrite (parse_members_plain ms n (depth + 1)%N rest Hne Hpl) by lia.
  reflexivity.
Qed.

Lemma parse_elements_step (n : nat) (depth : N) (s : string) :
  jsontext.parse_elements (S n) depth s =
  match jsontext.parse_value n depth s with
  | Some (v, r1) =>
    match jsontext.skip_ws r1 with
    | String ","%char r2 =>
      match jsontext.parse_elements n depth r2 with
      | Some (es, r3) => Some (v :: es, r3)
      | None => None
      end
    | String "]"%char r2 => Some ([v], r2)
    | _ => None
    end
  | None => None
  end.
Proof. reflexivity. Qed.

(** An array of flat objects is read back element by element. *)
Lemma parse_elements_flat (M : nat) (objs : list (list (string * json))) :
  forall (n : nat) (depth : N) (rest : string),
    objs <> [] ->
    Forall (fun ms => ms <> [] /\ plain_members ms /\ (List.length ms <= M)%nat) objs ->
    (depth <? jsontext.maxNestingDepth)%N = true ->
    (List.length objs + M + 2 < n)%nat ->
    jsontext.parse_elements n depth
      (jsontext.join_comma (map (fun ms => jsontext.render (JObject ms)) objs)
       ++ String "]" rest)
    = Some (map (fun ms => JObject (map coerce_member ms)) objs, rest).
Proof.
  induction objs as [|ms objs IH]; intros n depth rest Hne Hall Hd Hn; [congruence|].
  apply Forall_cons_iff in Hall as [(Hms & Hpl & HM) Hall].
  destruct n as [|n]; [lia|]. cbn [List.length] in Hn.
  rewrite parse_elements_step.
  destruct objs as [|ms' objs].
  - cbn [map jsontext.join_comma].
    rewrite (parse_flat_object ms n depth (String "]" rest) Hms Hpl Hd) by lia.
    rewrite skip_ws_plain by reflexivity. reflexivity.
  - change (map (fun ms0 => jsontext.render (JObject ms0)) (ms :: ms' :: objs))
      with (jsontext.render (JObject ms)
            :: map (fun ms0 => jsontext.render (JObject ms0)) (ms' :: objs)).
    rewrite join_comma_cons by discriminate.
    rewrite !append_assoc.
    set (tail := jsontext.join_comma
                   (map (fun ms0 => jsontext.render (JObject ms0)) (ms' :: objs))
                 ++ String "]" rest).
    change ("," ++ tail) with (String "," tail).
    rewrite (parse_flat_object ms n depth (String "," tail) Hms Hpl Hd) by lia.
    rewrite skip_ws_plain by reflexivity.
    unfold tail.
    rewrite (IH n depth rest) by (try discriminate; try assumption; cbn [List.length] in *; lia).
    reflexivity.
Qed.

Lemma parse_value_array (n : nat) (depth : N) (r : string) :
  (depth <? jsontext.maxNestingDepth)%N = true ->
  jsontext.parse_value (S n) depth (String "[" (String "{" r)) =
  match jsontext.parse_elements n (depth + 1)%N (String "{" r) with
  | Some (es, rest) => Some (JArray es, rest)
  | None => None
  end.
Proof.
  intros H.
  change (jsontext.parse_value (S n) depth (String "[" (String "{" r)))
    with (if (depth <? jsontext.maxNestingDepth)%N
          then match jsontext.parse_elements n (depth + 1)%N (String "{" r) with
               | Some (es, rest) => Some (JArray es, rest)
               | None => None
               end
          else None).
  now rewrite H.
Qed.

Lemma members_of_spec (t : Template) :
  json_pkg.Template_toJSON t = JObject (members_of t) /\
  members_of t <> [] /\ plain_members (members_of t) /\
  (List.length (members_of t) <= 7)%nat.
Proof.
  destruct (Template_toJSON_plain t) as (ms & E & Hne & Hpl).
  unfold members_of. rewrite E. repeat split; try assumption.
  unfold json_pkg.Template_toJSON in E. injection E as <-.
  destruct (TemplateID t =? 0), (String.eqb (Alias t) ""), (Active t); simpl; lia.
Qed.

Lemma length_join_render (l : list string) :
  (List.length l <= String.length (jsontext.join_comma l) + 1)%nat.
Proof.
  induction l as [|x l IH]; [simpl; lia|].
  destruct l as [|y l]; [simpl; lia|].
  rewrite join_comma_cons by discriminate.
  rewrite !length_append. cbn [List.length String.length] in *. lia.
Qed.

Lemma render_templates (l : list Template) :
  map jsontext.render (map json_pkg.Template_toJSON l)
  = map (fun ms => jsontext.render (JObject ms)) (map members_of l).
Proof.
  rewrite !map_map. apply map_ext. intros t.
  destruct (members_of_spec t) as [E _]. now rewrite E.
Qed.

Lemma coerced_templates (l : list Template) :
  map (fun ms => JObject (map coerce_member ms)) (map members_of l)
  = map (fun t => JObject (map coerce_member (members_of t))) l.
Proof. now rewrite map_map. Qed.

(** The value under the key [templates], followed by a comma, is read
    back with each template's strings coerced. *)
Lemma parse_templates_value (ts : slice Template) (n : nat) (tail : string) :
  (match ts with Some l => List.length l + 10 | None => 1 end < n)%nat ->
  jsontext.parse_value n 1
    (jsontext.render (match ts with
                      | None => JNull
                      | Some l => JArray (map json_pkg.Template_toJSON l)
                      end) ++ String "," tail)
  = Some (match ts with
          | None => JNull
          | Some l => JArray (map (fun t => JObject (map coerce_member (members_of t))) l)
          end, String "," tail).
Proof.
  intros Hn. destruct n as [|n]; [lia|].
  destruct ts as [[|t l]|]; [reflexivity | | reflexivity].
  cbn [jsontext.render]. rewrite render_templates.
  change (("[" ++ jsontext.join_comma
                   (map (fun ms => jsontext.render (JObject ms)) (map members_of (t :: l)))
              ++ "]") ++ String "," tail)
    with (String "[" ((jsontext.join_comma
                   (map (fun ms => jsontext.render (JObject ms)) (map members_of (t :: l)))
              ++ "]") ++ String "," tail)).
  rewrite append_assoc. change ("]" ++ String "," tail) with (String "]" (String "," tail)).
  assert (Hhead : exists r,
             jsontext.join_comma
               (map (fun ms => jsontext.render (JObject ms)) (map members_of (t :: l)))
             ++ String "]" (String "," tail) = String "{" r).
  { cbn [map]. destruct (map (fun ms => jsontext.render (JObject ms)) (map members_of l));
      cbn [jsontext.join_comma]; rewrite render_object; eexists; reflexivity. }
  destruct Hhead as (r & Hr).
  rewrite Hr, (parse_value_array n 1 r) by reflexivity. rewrite <- Hr.
  rewrite (parse_elements_flat 7 (map members_of (t :: l)) n (1 + 1)%N (String "," tail)).
  - rewrite coerced_templates. reflexivity.
  - discriminate.
  - apply List.Forall_forall. intros ms Hin. apply in_map_iff in Hin as (t' & <- & _).
    destruct (members_of_spec t') as (_ & ? & ? & ?). auto.
  - reflexivity.
  - rewrite length_map. lia.
Qed.

Lemma length_list_body (r : TemplatesResponse) :
  (match Templates r with Some l => List.length l | None => 0 end + 12
   <= String.length (jsontext.render (json_pkg.TemplatesResponse_toJSON r)))%nat.
Proof.
  unfold json_pkg.TemplatesResponse_toJSON. rewrite render_object.
  cbn [map]. rewrite join_comma_cons by discriminate.
  cbn [jsontext.join_comma]. unfold member at 1. cbn [fst snd].
  cbn [String.length]. rewrite !length_append.
  change (String.length (jsontext.quote "templates")) with 11%nat.
  destruct (Templates r) as [l|]; [|cbn [jsontext.render String.length]; lia].
  cbn [jsontext.render]. rewrite !length_append.
  pose proof (length_join_render (map jsontext.render (map json_pkg.Template_toJSON l))) as H.
  rewrite !length_map in H. cbn [String.length]. lia.
Qed.

Lemma readValue_list_response (r : TemplatesResponse) :
  json_pkg.readValue (jsontext.render (json_pkg.TemplatesResponse_toJSON r))
  = Ok (JObject
          [("templates",
            match Templates r with
            | None => JNull
            | Some l => JArray (map (fun t => JObject (map coerce_member (members_of t))) l)
            end);
           ("totalCount", JNumber (strconv.Itoa (TotalCount r)))]).
Proof.
  pose proof (length_list_body r) as Hlen.
  unfold json_pkg.readValue.
  set (body := jsontext.render (json_pkg.TemplatesResponse_toJSON r)) in *.
  assert (Hfuel : exists m, (2 * String.length body + 1 = S (S (S m)))%nat /\
                  (match Templates r with Some l => List.length l + 10 | None => 1 end < m)%nat).
  { exists (2 * String.length body - 2)%nat. destruct (Templates r); lia. }
  destruct Hfuel as (m & -> & Hm).
  unfold body, json_pkg.TemplatesResponse_toJSON. rewrite render_object.
  rewrite skip_ws_plain by reflexivity.
  cbn [map]. rewrite join_comma_cons by discriminate. cbn [jsontext.join_comma].
  unfold member at 1. cbn [fst snd]. rewrite !append_assoc.
  set (V := match Templates r with
            | None => JNull
            | Some l => JArray (map json_pkg.Template_toJSON l)
            end).
  set (last := member ("totalCount", JNumber (strconv.Itoa (TotalCount r))) ++ String "}" "").
  destruct (unquote_quote "templates" (":" ++ jsontext.render V ++ "," ++ last))
    as (q & Hq & Hu).
  rewrite Hq, (parse_value_open _ 0 q) by reflexivity.
  rewrite parse_members_step, Hu.
  change (":" ++ jsontext.render V ++ "," ++ last)
    with (String ":" (jsontext.render V ++ String "," last)).
  rewrite skip_ws_plain by reflexivity.
  change (0 + 1)%N with 1%N.
  unfold V. rewrite (parse_templates_value (Templates r) (S m) last) by lia.
  rewrite skip_ws_plain by reflexivity.
  unfold last.
  change (member ("totalCount", JNumber (strconv.Itoa (TotalCount r))) ++ String "}" "")
    with (jsontext.join_comma (map member [("totalCount", JNumber (strconv.Itoa (TotalCount r)))])
          ++ String "}" "").
  rewrite (parse_members_plain [("totalCount", JNumber (strconv.Itoa (TotalCount r)))]
             (S m) 1%N "").
  - reflexivity.
  - discriminate.
  - repeat constructor.
  - cbn [List.length]. destruct (Templates r); lia.
Qed.

(** The members of a template of a list response fill a template as the
    members of a lone template do: the path only labels errors. *)
Lemma Template_members_of (path : string) (t : Template) :
  strconv.in_int64 (TemplateID t) = true ->
  json_pkg.Template_members path (map coerce_member (members_of t)) zero_Template
  = Ok (coerce_Template t).
Proof.
  intros Hid. pose proof (ParseInt_Itoa _ Hid) as Hp.
  destruct t as [id name subj html text alias active]. cbn [TemplateID] in *.
  unfold members_of, json_pkg.Template_toJSON, coerce_Template.
  cbn [TemplateID Name Subject HtmlBody TextBody Alias Active].
  destruct (id =? 0) eqn:Hz; destruct (String.eqb alias "") eqn:Ha; destruct active;
    cbn [List.app map coerce_member coerce_json fst snd json_pkg.Template_members];
    repeat (match goal with
            | |- context [json_pkg.field_of json_pkg.Template_fields ?k] =>
              let f := eval vm_compute in (json_pkg.field_of json_pkg.Template_fields k) in
              change (json_pkg.field_of json_pkg.Template_fields k) with f
            end; cbv beta iota;
            unfold json_pkg.Template_store; cbn [String.eqb Ascii.eqb Bool.eqb];
            cbn [json_pkg.store_int json_pkg.store_string json_pkg.store_bool bind
                 TemplateID Name Subject HtmlBody TextBody Alias Active
                 json_pkg.Template_members];
            rewrite ?Hp; cbn [bind json_pkg.Template_members]);
    try (apply Z.eqb_eq in Hz; subst id);
    try (apply String.eqb_eq in Ha; subst alias);
    reflexivity.
Qed.

Lemma Template_elems_of (l : list Template) :
  forallb (fun t => strconv.in_int64 (TemplateID t)) l = true ->
  json_pkg.Template_elems (map (fun t => JObject (map coerce_member (members_of t))) l)
  = Ok (map coerce_Template l).
Proof.
  induction l as [|t l IH]; [reflexivity|].
  cbn [forallb]. intros H. apply andb_true_iff in H as [Ht Hl].
  cbn [map json_pkg.Template_elems json_pkg.Template_value].
  rewrite (Template_members_of _ t Ht). cbn [bind]. rewrite (IH Hl). reflexivity.
Qed.

(** A list response as [Marshal] writes it is decoded into the same
    templates in the same order, their text coerced. *)
Lemma Decode_list_response (r : TemplatesResponse) :
  numbers_fit r = true ->
  json_pkg.Decode_TemplatesResponse
    (jsontext.render (json_pkg.TemplatesResponse_toJSON r))
  = Ok (coerce_TemplatesResponse r).
Proof.
  unfold numbers_fit. intros H. apply andb_true_iff in H as [Hn Hl].
  pose proof (ParseInt_Itoa _ Hn) as Hp.
  unfold json_pkg.Decode_TemplatesResponse. rewrite readValue_list_response.
  cbn [bind json_pkg.TemplatesResponse_members].
  change (json_pkg.field_of json_pkg.TemplatesResponse_fields "templates")
    with (Some "templates").
  change (json_pkg.field_of json_pkg.TemplatesResponse_fields "totalCount")
    with (Some "totalCount").
  cbv beta iota. cbn [String.eqb Ascii.eqb Bool.eqb].
  unfold coerce_TemplatesResponse.
  destruct r as [[l|] n]; cbn [Templates TotalCount] in *;
    cbn [json_pkg.store_Templates json_pkg.store_int bind Templates TotalCount
         zero_TemplatesResponse];
    rewrite ?Template_elems_into_nil, ?(Template_elems_of l Hl), ?Hp;
    cbn [bind Templates TotalCount];
    rewrite ?Hp; reflexivity.
Qed.

(** X6. A 200 list response that carries templates as [Marshal] writes
    them is returned by List as those templates, in the same number and
    order, each with its text coerced to well-formed UTF-8 (and unchanged
    when it was well-formed); the count beside them plays no part. *)
Theorem list_reads_back_each_template
        {World : Type} (Do : Request -> World -> result Response error * World)
        (tok : string) (offset count : Z) (w w' : World) (resp : Response)
        (r : TemplatesResponse) (l : list Template) :
  Do (request_of tok (List offset count)) w = (Ok resp, w') ->
  StatusCode resp = http.StatusOK ->
  Body resp = jsontext.render (json_pkg.TemplatesResponse_toJSON r) ->
  Templates r = Some l ->
  numbers_fit r = true ->
  GetTemplates Do tok offset count w = ((Some (map coerce_Template l), None), w') /\
  (forallb well_formed_text l = true ->
   GetTemplates Do tok offset count w = ((Some l, None), w')).
Proof.
  intros HDo Hst Hbody Hl Hfit. apply status_ok in Hst.
  assert (E : GetTemplates Do tok offset count w
              = ((Some (map coerce_Template l), None), w')).
  { rewrite GetTemplates_unfold, HDo, Hst, Hbody, (Decode_list_response r Hfit).
    unfold coerce_TemplatesResponse. cbn [Templates]. now rewrite Hl. }
  split; [exact E|].
  intros Hwf. rewrite E. do 3 f_equal.
  clear -Hwf. induction l as [|t l IH]; [reflexivity|].
  cbn [forallb] in Hwf. apply andb_true_iff in Hwf as [Ht Hwf].
  cbn [map]. now rewrite (coerce_Template_well_formed t Ht), (IH Hwf).
Qed.

Lemma list_reads_back_each_template_witness :
  GetTemplates (canned (mkResponse 200
                          (jsontext.render (json_pkg.TemplatesResponse_toJSON two_of_five))))
               "tok" 0 2 tt
  = ((Templates two_of_five, None), tt).
Proof.
  destruct (list_reads_back_each_template
              (canned (mkResponse 200
                         (jsontext.render (json_pkg.TemplatesResponse_toJSON two_of_five))))
              "tok" 0 2 tt tt
              (mkResponse 200
                 (jsontext.render (json_pkg.TemplatesResponse_toJSON two_of_five)))
              two_of_five
              [mkTemplate 3 "Welcome" "Hello" "<p>Hi</p>" "Hi" "welcome" true;
               mkTemplate 1 "Password Reset" "Reset <now>" "" "Click" "" false])
    as [_ H].
  - reflexivity.
  - reflexivity.
  - reflexivity.
  - reflexivity.
  - vm_compute. reflexivity.
  - apply H. vm_compute. reflexivity.
Defined.

(** ** The entry point *)

Section MainFacts.

Context {World : Type} (Do : Request -> World -> result Response error * World).
Variable tok : string.

Lemma GetTemplates_recording (offset count : Z) (w : World) (log : list Request) :
  GetTemplates (recording Do) tok offset count (w, log)
  = (fst (GetTemplates Do tok offset count w),
     (snd (GetTemplates Do tok offset count w),
      List.app log [request_of tok (List offset count)])).
Proof.
  rewrite !GetTemplates_unfold. unfold recording; cbn [fst snd].
  destruct (Do _ w) as [[resp|err] w1]; by_cases; reflexivity.
Qed.

Lemma DeleteTemplate_recording (id : Z) (w : World) (log : list Request) :
  DeleteTemplate (recording Do) tok id (w, log)
  = (fst (DeleteTemplate Do tok id w),
     (snd (DeleteTemplate Do tok id w), List.app log [request_of tok (Delete id)])).
Proof.
  rewrite !DeleteTemplate_unfold. unfold recording; cbn [fst snd].
  destruct (Do _ w) as [[resp|err] w1]; by_cases; reflexivity.
Qed.

Lemma GetTemplates_succeeds (offset count : Z) (w w' : World) (ts : slice Template) :
  GetTemplates Do tok offset count w = ((ts, None), w') <->
  exists resp r, Do (request_of tok (List offset count)) w = (Ok resp, w') /\
                 StatusCode resp = http.StatusOK /\
                 json_pkg.Decode_TemplatesResponse (Body resp) = Ok r /\
                 Templates r = ts.
Proof.
  rewrite GetTemplates_unfold. split.
  - destruct (Do _ w) as [[resp|err] w1]; [|discriminate].
    destruct (negb (StatusCode resp =? http.StatusOK)) eqn:Hst; [discriminate|].
    destruct (json_pkg.Decode_TemplatesResponse (Body resp)) as [r|e] eqn:Hd;
      [|discriminate].
    intros [= <- <-]. exists resp, r. repeat split; try assumption.
    apply negb_false_iff, Z.eqb_eq in Hst. exact Hst.
  - intros (resp & r & -> & Hst & -> & <-). apply status_ok in Hst. now rewrite Hst.
Qed.

Lemma DeleteTemplate_succeeds (id : Z) (w w' : World) :
  DeleteTemplate Do tok id w = (None, w') <->
  exists resp, Do (request_of tok (Delete id)) w = (Ok resp, w') /\
               StatusCode resp = http.StatusOK.
Proof.
  rewrite DeleteTemplate_unfold. split.
  - destruct (Do _ w) as [[resp|err] w1]; [|discriminate].
    destruct (negb (StatusCode resp =? http.StatusOK)) eqn:Hst; [discriminate|].
    intros [= <-]. exists resp. split; [reflexivity|].
    apply negb_false_iff, Z.eqb_eq in Hst. exact Hst.
  - intros (resp & -> & Hst). apply status_ok in Hst. now rewrite Hst.
Qed.

End MainFacts.

Lemma exit_status_fatal (out : list output) (before : string) (err : error) :
  exit_status (List.app out [Fatalf before err]) = 1.
Proof. unfold exit_status. now rewrite last_last. Qed.

Lemma exit_status_stdout (out more : list output) :
  more <> [] -> forallb (fun o => negb (is_fatal o)) more = true ->
  exit_status (List.app out more) = 0.
Proof.
  intros Hne Hall. unfold exit_status.
  assert (H : is_fatal (List.last (List.app out more) (Stdout "")) = false).
  { induction out as [|o out IH].
    - cbn [List.app]. induction more as [|m more IHm]; [congruence|].
      cbn [forallb] in Hall. apply andb_true_iff in Hall as [Hm Hall].
      destruct more as [|m' more]; [now apply negb_true_iff in Hm|].
      change (List.last (m :: m' :: more) (Stdout ""))
        with (List.last (m' :: more) (Stdout "")).
      apply IHm; [discriminate | exact Hall].
    - destruct (List.app out more) as [|x l] eqn:E.
      + apply app_eq_nil in E as [_ E]. congruence.
      + change (List.app (o :: out) more) with (o :: List.app out more).
        rewrite E. exact IH. }
  destruct (List.last (List.app out more) (Stdout "")); [reflexivity | discriminate].
Qed.

Lemma print_templates_stdout (ts : slice Template) :
  print_templates ts <> [] /\
  forallb (fun o => negb (is_fatal o)) (print_templates ts) = true.
Proof.
  split; [discriminate|]. unfold print_templates. cbn [forallb is_fatal negb andb].
  induction (match ts with Some l => l | None => [] end) as [|t l IH]; [reflexivity|].
  cbn [map forallb is_fatal negb andb]. exact IH.
Qed.

(** X7. Whatever the remote end answers, [main] sends one, two or three
    requests and nothing else, with the credential it was given: the
    listing with offset 0 and count 10; then, only if the listing returned
    no error, the deletion of template 36087634; then, only if the
    deletion returned no error either, the same listing again.  So it
    stops at the first call that fails, and it ends with status 0 exactly
    when none of the three calls failed.  Recording the requests does not
    change what [main] writes. *)
Theorem main_sends_list_delete_list
        {World : Type} (Do : Request -> World -> result Response error * World)
        (tok : string) (w : World) :
  let r1 := GetTemplates Do tok 0 10 w in
  let r2 := DeleteTemplate Do tok 36087634 (snd r1) in
  let r3 := GetTemplates Do tok 0 10 (snd r2) in
  let sent := match snd (fst r1), fst r2 with
              | Some _, _ => 1%nat
              | None, Some _ => 2%nat
              | None, None => 3%nat
              end in
  snd (snd (main (recording Do) tok (w, [])))
  = map (request_of tok) (firstn sent main_calls) /\
  fst (main (recording Do) tok (w, [])) = fst (main Do tok w) /\
  (exit_status (fst (main Do tok w)) = 0 <->
   snd (fst r1) = None /\ fst r2 = None /\ snd (fst r3) = None) /\
  (exit_status (fst (main Do tok w)) = 0 \/ exit_status (fst (main Do tok w)) = 1).
Proof.
  cbv zeta. unfold main.
  rewrite GetTemplates_recording.
  destruct (GetTemplates Do tok 0 10 w) as [[ts1 [e1|]] w1]; cbn [fst snd].
  - rewrite exit_status_fatal.
    repeat split; try discriminate; try (right; reflexivity).
    intros (H & _). discriminate.
  - rewrite DeleteTemplate_recording.
    destruct (DeleteTemplate Do tok 36087634 w1) as [[e2|] w2]; cbn [fst snd].
    + rewrite exit_status_fatal.
      repeat split; try discriminate; try (right; reflexivity).
      intros (_ & H & _). discriminate.
    + rewrite GetTemplates_recording.
      destruct (GetTemplates Do tok 0 10 w2) as [[ts2 [e3|]] w3]; cbn [fst snd].
      * rewrite exit_status_fatal.
        repeat split; try discriminate; try (right; reflexivity).
        intros (_ & _ & H). discriminate.
      * destruct (print_templates_stdout ts2) as [Hne Hall].
        rewrite (exit_status_stdout _ _ Hne Hall).
        repeat split; try (left; reflexivity).
Qed.

Lemma main_sends_list_delete_list_witness :
  snd (snd (main (recording (unreachable (httpError "no route to host"))) "tok" (tt, [])))
  = [request_of "tok" (List 0 10)] /\
  exit_status (fst (main (unreachable (httpError "no route to host")) "tok" tt)) = 1.
Proof.
  destruct (main_sends_list_delete_list (unreachable (httpError "no route to host"))
              "tok" tt) as (Hlog & _).
  split; [exact Hlog | reflexivity].
Defined.

(** X8. [main] ends with status 0 exactly when all three requests were
    answered with status 200 and the two listings could be decoded.  The
    body of the answer to the deletion plays no part: an error reported
    under status 200 still lets the run end with status 0. *)
Theorem main_exit_status
        {World : Type} (Do : Request -> World -> result Response error * World)
        (tok : string) (w : World) :
  exit_status (fst (main Do tok w)) = 0 <->
  exists (r1 r2 r3 : Response) (w1 w2 w3 : World),
    Do (request_of tok (List 0 10)) w = (Ok r1, w1) /\
    Do (request_of tok (Delete 36087634)) w1 = (Ok r2, w2) /\
    Do (request_of tok (List 0 10)) w2 = (Ok r3, w3) /\
    StatusCode r1 = http.StatusOK /\ StatusCode r2 = http.StatusOK /\
    StatusCode r3 = http.StatusOK /\
    (exists x, json_pkg.Decode_TemplatesResponse (Body r1) = Ok x) /\
    (exists x, json_pkg.Decode_TemplatesResponse (Body r3) = Ok x).
Proof.
  unfold main. split.
  - destruct (GetTemplates Do tok 0 10 w) as [[ts1 [e1|]] w1] eqn:E1; cbn [fst].
    { rewrite exit_status_fatal. discriminate. }
    destruct (DeleteTemplate Do tok 36087634 w1) as [[e2|] w2] eqn:E2; cbn [fst].
    { rewrite exit_status_fatal. discriminate. }
    destruct (GetTemplates Do tok 0 10 w2) as [[ts2 [e3|]] w3] eqn:E3; cbn [fst].
    { rewrite exit_status_fatal. discriminate. }
    intros _.
    apply GetTemplates_succeeds in E1 as (r1 & x1 & H1 & S1 & D1 & _).
    apply DeleteTemplate_succeeds in E2 as (r2 & H2 & S2).
    apply GetTemplates_succeeds in E3 as (r3 & x3 & H3 & S3 & D3 & _).
    exists r1, r2, r3, w1, w2, w3. repeat split; try assumption; eexists; eassumption.
  - intros (r1 & r2 & r3 & w1 & w2 & w3 & H1 & H2 & H3 & S1 & S2 & S3 & [x1 D1] & [x3 D3]).
    assert (E1 : GetTemplates Do tok 0 10 w = ((Templates x1, None), w1)).
    { apply GetTemplates_succeeds. exists r1, x1. auto. }
    assert (E2 : DeleteTemplate Do tok 36087634 w1 = (None, w2)).
    { apply DeleteTemplate_succeeds. exists r2. auto. }
    assert (E3 : GetTemplates Do tok 0 10 w2 = ((Templates x3, None), w3)).
    { apply GetTemplates_succeeds. exists r3, x3. auto. }
    rewrite E1, E2, E3. cbn [fst].
    destruct (print_templates_stdout (Templates x3)) as [Hne Hall].
    now apply exit_status_stdout.
Qed.

Lemma main_exit_status_witness :
  exit_status (fst (main (canned (mkResponse 200 "nullx")) "tok" tt)) = 0.
Proof.
  apply (main_exit_status (canned (mkResponse 200 "nullx")) "tok" tt).
  exists (mkResponse 200 "nullx"), (mkResponse 200 "nullx"), (mkResponse 200 "nullx"),
         tt, tt, tt.
  repeat split; exists zero_TemplatesResponse; vm_compute; reflexivity.
Defined.

(** X9. The number [main] prints after the first listing is the number of
    templates on the page it received, not the total count the response
    reports beside them. *)
Theorem main_prints_page_size
        {World : Type} (Do : Request -> World -> result Response error * World)
        (tok : string) (w w1 : World) (resp : Response)
        (r : TemplatesResponse) (l : list Template) :
  Do (request_of tok (List 0 10)) w = (Ok resp, w1) ->
  StatusCode resp = http.StatusOK ->
  Body resp = jsontext.render (json_pkg.TemplatesResponse_toJSON r) ->
  Templates r = Some l ->
  numbers_fit r = true ->
  nth_error (fst (main Do tok w)) 1
  = Some (Stdout ("Total Templates: " ++ strconv.Itoa (Z.of_nat (List.length l)) ++ newline)).
Proof.
  intros HDo Hst Hbody Hl Hfit.
  assert (E : GetTemplates Do tok 0 10 w = ((Some (map coerce_Template l), None), w1)).
  { apply GetTemplates_succeeds. exists resp, (coerce_TemplatesResponse r).
    repeat split; try assumption.
    - rewrite Hbody. now apply Decode_list_response.
    - unfold coerce_TemplatesResponse. cbn [Templates]. now rewrite Hl. }
  unfold main. rewrite E.
  destruct (DeleteTemplate Do tok 36087634 w1) as [[e2|] w2];
    [|destruct (GetTemplates Do tok 0 10 w2) as [[ts2 [e3|]] w3]];
    cbn [fst List.app print_templates nth_error len]; rewrite length_map; reflexivity.
Qed.

Lemma main_prints_page_size_witness :
  nth_error
    (fst (main (canned (mkResponse 200
                          (jsontext.render (json_pkg.TemplatesResponse_toJSON two_of_five))))
               "tok" tt)) 1
  = Some (Stdout ("Total Templates: 2" ++ newline)).
Proof.
  apply (main_prints_page_size
           (canned (mkResponse 200
                      (jsontext.render (json_pkg.TemplatesResponse_toJSON two_of_five))))
           "tok" tt tt
           (mkResponse 200 (jsontext.render (json_pkg.TemplatesResponse_toJSON two_of_five)))
           two_of_five
           [mkTemplate 3 "Welcome" "Hello" "<p>Hi</p>" "Hi" "welcome" true;
            mkTemplate 1 "Password Reset" "Reset <now>" "" "Click" "" false]).
  - reflexivity.
  - reflexivity.
  - reflexivity.
  - reflexivity.
  - vm_compute. reflexivity.
Defined.

(** ** Payloads and results *)

(** X10. The payload of Create, Update and Validate determines the
    template: two templates of well-formed text that are sent as the same
    bytes are the same template. *)
Theorem payload_determines_template (t1 t2 : Template) :
  well_formed_text t1 = true -> well_formed_text t2 = true ->
  strconv.in_int64 (TemplateID t1) = true -> strconv.in_int64 (TemplateID t2) = true ->
  payload_of (Create t1) = payload_of (Create t2) ->
  t1 = t2.
Proof.
  intros W1 W2 I1 I2 E.
  assert (E' : fst (json_pkg.Marshal t1) = fst (json_pkg.Marshal t2)).
  { unfold payload_of in E. congruence. }
  pose proof (Decode_Marshal t1 W1 I1) as D1.
  pose proof (Decode_Marshal t2 W2 I2) as D2.
  rewrite E' in D1. congruence.
Qed.

Lemma payload_determines_template_witness : password_reset = password_reset.
Proof.
  apply (payload_determines_template password_reset password_reset);
    vm_compute; reflexivity.
Defined.

(** X11. Get returns a template exactly when it returns no error: the
    pointer is nil if and only if the error is not. *)
Theorem get_returns_template_or_error
        {World : Type} (Do : Request -> World -> result Response error * World)
        (tok : string) (id : Z) (w : World) :
  fst (fst (GetTemplate Do tok id w)) = None <->
  snd (fst (GetTemplate Do tok id w)) <> None.
Proof.
  rewrite GetTemplate_unfold.
  destruct (Do _ w) as [[resp|err] w1]; cbn [fst snd].
  - destruct (negb (StatusCode resp =? http.StatusOK)); cbn [fst snd].
    + split; [discriminate | reflexivity].
    + destruct (json_pkg.Decode_Template (Body resp)); cbn [fst snd];
        split; try discriminate; try reflexivity; congruence.
  - split; [discriminate | reflexivity].
Qed.

(** ** What follows the first value *)

Lemma skip_ws_app (s x : string) (c : ascii) (r : string) :
  jsontext.skip_ws s = String c r -> jsontext.skip_ws (s ++ x) = String c (r ++ x).
Proof.
  induction s as [|b s IH]; cbn [jsontext.skip_ws]; [discriminate|].
  change (String b s ++ x) with (String b (s ++ x)). cbn [jsontext.skip_ws].
  destruct (jsontext.is_space b); [exact IH|].
  intros [= -> ->]. reflexivity.
Qed.

Lemma strip_prefix_app_r (p s x r : string) :
  jsontext.strip_prefix p s = Some r -> jsontext.strip_prefix p (s ++ x) = Some (r ++ x).
Proof.
  revert s. induction p as [|a p IH]; intros s; cbn [jsontext.strip_prefix].
  - intros [= ->]. destruct (r ++ x); reflexivity.
  - destruct s as [|b s]; [discriminate|].
    change (String b s ++ x) with (String b (s ++ x)). cbn [jsontext.strip_prefix].
    destruct (Ascii.eqb a b); [apply IH | discriminate].
Qed.

Lemma span_digits_app (s x ds r : string) :
  jsontext.span_digits s = (ds, r) -> r <> "" ->
  jsontext.span_digits (s ++ x) = (ds, r ++ x).
Proof.
  revert ds. induction s as [|c s IH]; intros ds; cbn [jsontext.span_digits].
  - intros [= <- <-]. congruence.
  - change (String c s ++ x) with (String c (s ++ x)). cbn [jsontext.span_digits].
    destruct (strconv.is_digit c) eqn:Hc.
    + destruct (jsontext.span_digits s) as [ds' r'] eqn:E.
      intros [= <- <-] Hr. now rewrite (IH ds' eq_refl Hr).
    + intros [= <- <-] _. reflexivity.
Qed.

Lemma digits1_app (s x ds r : string) :
  jsontext.digits1 s = Some (ds, r) -> r <> "" ->
  jsontext.digits1 (s ++ x) = Some (ds, r ++ x).
Proof.
  unfold jsontext.digits1.
  destruct (jsontext.span_digits s) as [ds' r'] eqn:E.
  destruct ds' as [|d ds']; [discriminate|].
  intros [= <- <-] Hr. now rewrite (span_digits_app _ x _ _ E Hr).
Qed.

Lemma span_digits_rest (s ds r : string) :
  jsontext.span_digits s = (ds, r) -> r = "" \/ exists c r', r = String c r' /\ strconv.is_digit c = false.
Proof.
  revert ds. induction s as [|c s IH]; intros ds; cbn [jsontext.span_digits].
  - intros [= <- <-]. now left.
  - destruct (strconv.is_digit c) eqn:Hc.
    + destruct (jsontext.span_digits s) as [ds' r'] eqn:E.
      intros [= <- <-]. exact (IH ds' eq_refl).
    + intros [= <- <-]. right. eauto.
Qed.

Lemma scan_number_stages (s : string) :
  jsontext.scan_number s =
  let (sign, s1) := sign_part s in
  match int_part s1 with
  | None => None
  | Some (ip, s2) =>
    match frac_part s2 with
    | None => None
    | Some (fp, s3) =>
      match exp_part s3 with
      | None => None
      | Some (ep, s4) => Some (sign ++ ip ++ fp ++ ep, s4)
      end
    end
  end.
Proof. reflexivity. Qed.

Lemma sign_part_app (s x : string) :
  s <> "" -> sign_part (s ++ x) = (fst (sign_part s), snd (sign_part s) ++ x).
Proof.
  destruct s as [|c r]; [congruence|]. intros _.
  change (String c r ++ x) with (String c (r ++ x)).
  destruct c as [[] [] [] [] [] [] [] []]; reflexivity.
Qed.

Lemma digits1_nonempty (s ds r : string) :
  jsontext.digits1 s = Some (ds, r) -> s <> "".
Proof. destruct s; [discriminate | discriminate]. Qed.

Lemma int_part_app (s1 x ip s2 : string) :
  int_part s1 = Some (ip, s2) -> s2 <> "" ->
  int_part (s1 ++ x) = Some (ip, s2 ++ x).
Proof.
  destruct s1 as [|c r]; [discriminate|].
  change (String c r ++ x) with (String c (r ++ x)).
  intros H Hne.
  assert (Hd : jsontext.digits1 (String c r) = Some (ip, s2) ->
               jsontext.digits1 (String c (r ++ x)) = Some (ip, s2 ++ x)).
  { intros Hd. exact (digits1_app (String c r) x ip s2 Hd Hne). }
  destruct c as [[] [] [] [] [] [] [] []]; cbn [int_part] in *;
    try (exact (Hd H)).
  injection H as <- <-. reflexivity.
Qed.

Lemma frac_part_app (s2 x fp s3 : string) :
  frac_part s2 = Some (fp, s3) -> s3 <> "" ->
  frac_part (s2 ++ x) = Some (fp, s3 ++ x).
Proof.
  destruct s2 as [|c r]; [intros [= <- <-]; congruence|].
  change (String c r ++ x) with (String c (r ++ x)).
  intros H Hne.
  destruct c as [[] [] [] [] [] [] [] []]; cbn [frac_part] in *;
    try (injection H as <- <-; reflexivity).
  destruct (jsontext.digits1 r) as [[ds r']|] eqn:E; [|discriminate].
  injection H as <- <-. now rewrite (digits1_app r x ds r' E Hne).
Qed.

Lemma exp_part_app (s3 x ep s4 : string) :
  exp_part s3 = Some (ep, s4) -> s4 <> "" ->
  exp_part (s3 ++ x) = Some (ep, s4 ++ x).
Proof.
  destruct s3 as [|e r]; [intros [= <- <-]; congruence|].
  change (String e r ++ x) with (String e (r ++ x)).
  cbn [exp_part].
  destruct ((byteval e =? 101) || (byteval e =? 69)); [|intros [= <- <-]; reflexivity].
  intros H Hne.
  destruct r as [|c r1].
  - discriminate.
  - change (String c r1 ++ x) with (String c (r1 ++ x)).
    destruct c as [[] [] [] [] [] [] [] []];
      cbv beta iota zeta in H; cbv beta iota zeta;
      match type of H with
      | context [jsontext.digits1 ?a] =>
        destruct (jsontext.digits1 a) as [[ds r']|] eqn:E; [|discriminate];
          injection H as H1 H2; subst r';
          pose proof (digits1_app a x ds s4 E Hne) as Hx;
          cbn [String.append] in Hx; rewrite Hx; now rewrite <- H1
      end.
Qed.

Lemma frac_part_rest (s2 fp s3 : string) :
  frac_part s2 = Some (fp, s3) -> s3 <> "" -> s2 <> "".
Proof. destruct s2; [intros [= <- <-]; congruence | discriminate]. Qed.

Lemma exp_part_rest (s3 ep s4 : string) :
  exp_part s3 = Some (ep, s4) -> s4 <> "" -> s3 <> "".
Proof. destruct s3; [intros [= <- <-]; congruence | discriminate]. Qed.

Lemma int_part_nonempty (s1 ip s2 : string) :
  int_part s1 = Some (ip, s2) -> s1 <> "".
Proof. destruct s1; [discriminate | discriminate]. Qed.

(** A number that is followed by a byte is scanned alike whatever comes
    after that byte. *)
Lemma scan_number_app (s x lit r : string) :
  jsontext.scan_number s = Some (lit, r) -> r <> "" ->
  jsontext.scan_number (s ++ x) = Some (lit, r ++ x).
Proof.
  rewrite !scan_number_stages. intros H Hne.
  destruct (sign_part s) as [sign s1] eqn:Es.
  destruct (int_part s1) as [[ip s2]|] eqn:Ei; [|discriminate].
  destruct (frac_part s2) as [[fp s3]|] eqn:Ef; [|discriminate].
  destruct (exp_part s3) as [[ep s4]|] eqn:Ee; [|discriminate].
  injection H as <- <-.
  pose proof (exp_part_rest _ _ _ Ee Hne) as H3.
  pose proof (frac_part_rest _ _ _ Ef H3) as H2.
  assert (Hs : s <> "").
  { intros ->. cbn in Es. injection Es as <- <-. discriminate. }
  rewrite (sign_part_app s x Hs), Es. cbn [fst snd].
  rewrite (int_part_app _ x _ _ Ei H2), (frac_part_app _ x _ _ Ef H3),
          (exp_part_app _ x _ _ Ee Hne).
  reflexivity.
Qed.

Lemma getu4_six (b c2 h3 h2 h1 h0 : ascii) (r : string) :
  jsontext.getu4 (String b (String c2 (String h3 (String h2 (String h1 (String h0 r))))))
  = if Ascii.eqb c2 "u" then
      if Ascii.eqb b bslash then
        match jsontext.hexval h3, jsontext.hexval h2, jsontext.hexval h1, jsontext.hexval h0 with
        | Some a, Some b, Some c, Some d => Some (a * 4096 + b * 256 + c * 16 + d, r)
        | _, _, _, _ => None
        end
      else None
    else None.
Proof. destruct c2 as [[] [] [] [] [] [] [] []]; reflexivity. Qed.

Lemma getu4_short (s : string) : (String.length s < 6)%nat -> jsontext.getu4 s = None.
Proof.
  destruct s as [|b [|c2 [|h3 [|h2 [|h1 [|h0 r]]]]]]; cbn [String.length]; try lia;
    intros _; try reflexivity;
    destruct c2 as [[] [] [] [] [] [] [] []]; reflexivity.
Qed.

Lemma getu4_app (s x r : string) (v : Z) :
  jsontext.getu4 s = Some (v, r) -> jsontext.getu4 (s ++ x) = Some (v, r ++ x).
Proof.
  destruct s as [|b [|c2 [|h3 [|h2 [|h1 [|h0 r0]]]]]];
    try (intros H; rewrite getu4_short in H by (cbn [String.length]; lia); discriminate).
  change (String b (String c2 (String h3 (String h2 (String h1 (String h0 r0))))) ++ x)
    with (String b (String c2 (String h3 (String h2 (String h1 (String h0 (r0 ++ x))))))).
  rewrite !getu4_six.
  destruct (Ascii.eqb c2 "u"); [|discriminate].
  destruct (Ascii.eqb b bslash); [|discriminate].
  destruct (jsontext.hexval h3), (jsontext.hexval h2), (jsontext.hexval h1),
           (jsontext.hexval h0); try discriminate.
  intros [= <- <-]. reflexivity.
Qed.

Lemma getu4_needs_bslash (b : ascii) (t : string) :
  Ascii.eqb b bslash = false -> jsontext.getu4 (String b t) = None.
Proof.
  intros Hb. destruct t as [|c2 [|h3 [|h2 [|h1 [|h0 r]]]]];
    try (apply getu4_short; cbn [String.length]; lia).
  rewrite getu4_six, Hb. now destruct (Ascii.eqb c2 "u").
Qed.

Lemma getu4_needs_u (b e : ascii) (t : string) :
  Ascii.eqb e "u" = false -> jsontext.getu4 (String b (String e t)) = None.
Proof.
  intros He. destruct t as [|h3 [|h2 [|h1 [|h0 r]]]];
    try (apply getu4_short; cbn [String.length]; lia).
  now rewrite getu4_six, He.
Qed.

Lemma simple_escape_not_u (e ch : ascii) :
  jsontext.simple_escape e = Some ch -> Ascii.eqb e "u" = false.
Proof.
  destruct (Ascii.eqb_spec e "u") as [->|]; [discriminate | reflexivity].
Qed.

Lemma prepend_inv (p : string) (u : option (string * string)) (str r : string) :
  jsontext.prepend p u = Some (str, r) ->
  exists str', u = Some (str', r) /\ str = p ++ str'.
Proof.
  destruct u as [[str' r']|]; [|discriminate]. intros [= <- <-]. eauto.
Qed.

Lemma unquote_nil (n : nat) : jsontext.unquote n "" = None.
Proof. destruct n; reflexivity. Qed.

(** Where [getu4] finds no escape in a text that [unquote] can read, it
    finds none whatever follows the text. *)
Lemma getu4_none_app (n : nat) (s x : string) (y : string * string) :
  jsontext.getu4 s = None -> jsontext.unquote n s = Some y ->
  jsontext.getu4 (s ++ x) = None.
Proof.
  intros Hg Hu. destruct n as [|n]; [discriminate|].
  destruct s as [|b r]; [discriminate|].
  change (String b r ++ x) with (String b (r ++ x)).
  rewrite unquote_step in Hu.
  destruct (Ascii.eqb b dquote) eqn:Hq.
  { apply Ascii.eqb_eq in Hq. subst b. now apply getu4_needs_bslash. }
  destruct (Ascii.eqb b bslash) eqn:Hb; [|now apply getu4_needs_bslash].
  destruct r as [|e r']; [discriminate|].
  change (String e r' ++ x) with (String e (r' ++ x)).
  destruct (jsontext.simple_escape e) as [ch|] eqn:He.
  - apply getu4_needs_u. exact (simple_escape_not_u _ _ He).
  - rewrite Hg in Hu. discriminate.
Qed.

Lemma unquote_one (n : nat) (b1 : ascii) (y : string * string) :
  jsontext.unquote n (String b1 "") = Some y -> b1 = dquote.
Proof.
  destruct n as [|n]; [discriminate|]. rewrite unquote_step.
  destruct (Ascii.eqb_spec b1 dquote) as [->|_]; [reflexivity|].
  destruct (Ascii.eqb b1 bslash); [discriminate|].
  destruct (byteval b1 <? 32); [discriminate|].
  destruct (byteval b1 <? utf8.RuneSelf).
  - rewrite unquote_nil. discriminate.
  - cbv zeta. pose proof (DecodeRune_width b1 "") as Hw.
    destruct (snd (utf8.DecodeRune (String b1 ""))) as [|k]; [lia|].
    cbn [utf8.string_drop]. destruct k; cbn [utf8.string_drop];
      rewrite unquote_nil; discriminate.
Qed.

Lemma string_drop_nil (k : nat) : utf8.string_drop k "" = "".
Proof. destruct k; reflexivity. Qed.

Lemma unquote_two (n : nat) (b1 b2 : ascii) (y : string * string) :
  jsontext.unquote n (String b1 (String b2 "")) = Some y -> b1 = dquote \/ b2 = dquote.
Proof.
  destruct y as [str0 rest0].
  destruct n as [|n]; [discriminate|]. rewrite unquote_step.
  destruct (Ascii.eqb_spec b1 dquote) as [->|_]; [now left|].
  destruct (Ascii.eqb b1 bslash).
  { destruct (jsontext.simple_escape b2).
    - rewrite unquote_nil. discriminate.
    - rewrite getu4_short by (cbn [String.length]; lia). discriminate. }
  destruct (byteval b1 <? 32); [discriminate|].
  destruct (byteval b1 <? utf8.RuneSelf).
  - intros H. apply prepend_inv in H as (str' & H & _). right.
    exact (unquote_one _ _ _ H).
  - cbv zeta. pose proof (DecodeRune_width b1 (String b2 "")) as Hw.
    destruct (snd (utf8.DecodeRune (String b1 (String b2 "")))) as [|k]; [lia|].
    cbn [utf8.string_drop]. destruct k; cbn [utf8.string_drop].
    + intros H. apply prepend_inv in H as (str' & H & _). right.
      exact (unquote_one _ _ _ H).
    + rewrite string_drop_nil, unquote_nil. discriminate.
Qed.

(** An ill-formed byte in a text that [unquote] can read is ill-formed
    whatever follows the text: the closing quote is no continuation byte. *)
Lemma DecodeRune_ill_app (n : nat) (c : ascii) (r x : string) (y : string * string) :
  jsontext.unquote n r = Some y ->
  utf8.DecodeRune (String c r) = (utf8.RuneError, 1%nat) ->
  utf8.DecodeRune (String c (r ++ x)) = (utf8.RuneError, 1%nat).
Proof.
  intros Hu Hd.
  destruct r as [|b1 [|b2 [|b3 r']]].
  - rewrite unquote_nil in Hu. discriminate.
  - apply unquote_one in Hu. subst b1.
    change (String dquote "" ++ x) with (String dquote x).
    unfold utf8.DecodeRune, utf8.between, utf8.RuneError in *.
    change (byteval dquote) with 34 in *.
    destruct x as [|x1 [|x2 x']];
      repeat match goal with
             | |- context [if ?c then _ else _] => destruct c eqn:?
             end; try reflexivity; try exact Hd;
      exfalso;
      repeat match goal with
             | H : context [if ?c then _ else _] |- _ => destruct c eqn:?
             end; lia.
  - apply unquote_two in Hu.
    change (String b1 (String b2 "") ++ x) with (String b1 (String b2 x)).
    unfold utf8.DecodeRune, utf8.between, utf8.RuneError in *.
    destruct Hu as [-> | ->]; change (byteval dquote) with 34 in *;
      destruct x as [|x1 x'];
      repeat match goal with
             | |- context [if ?c then _ else _] => destruct c eqn:?
             end; try reflexivity; try exact Hd;
      exfalso;
      repeat match goal with
             | H : context [if ?c then _ else _] |- _ => destruct c eqn:?
             end; lia.
  - exact Hd.
Qed.

(** A string that is closed by its quote reads alike whatever follows. *)
Lemma unquote_app (n : nat) :
  forall (s str r : string),
    jsontext.unquote n s = Some (str, r) ->
    forall (m : nat) (x : string), (n <= m)%nat ->
      jsontext.unquote m (s ++ x) = Some (str, r ++ x).
Proof.
  induction n as [|n IH]; intros s str r Hu m x Hm; [discriminate|].
  destruct m as [|m]; [lia|]. assert (Hnm : (n <= m)%nat) by lia.
  destruct s as [|c s']; [discriminate|].
  change (String c s' ++ x) with (String c (s' ++ x)).
  rewrite unquote_step in Hu. rewrite unquote_step.
  destruct (Ascii.eqb c dquote); [now injection Hu as <- <-|].
  destruct (Ascii.eqb c bslash) eqn:Hb.
  { destruct s' as [|e r']; [discriminate|].
    change (String e r' ++ x) with (String e (r' ++ x)). cbv beta iota.
    destruct (jsontext.simple_escape e) as [ch|].
    { apply prepend_inv in Hu as (str' & Hu & ->).
      now rewrite (IH _ _ _ Hu m x Hnm). }
    destruct (jsontext.getu4 (String c (String e r'))) as [[rr r2]|] eqn:Hg;
      [|discriminate].
    pose proof (getu4_app _ x _ _ Hg) as Hg'.
    change (String c (String e r') ++ x) with (String c (String e (r' ++ x))) in Hg'.
    rewrite Hg'.
    destruct (jsontext.IsSurrogate rr).
    - destruct (jsontext.getu4 r2) as [[rr1 r3]|] eqn:Hg2.
      + rewrite (getu4_app _ x _ _ Hg2). cbv zeta in *.
        destruct (jsontext.utf16_DecodeRune rr rr1 =? utf8.RuneError);
          apply prepend_inv in Hu as (str' & Hu & ->);
          now rewrite (IH _ _ _ Hu m x Hnm).
      + apply prepend_inv in Hu as (str' & Hu & ->).
        rewrite (getu4_none_app n r2 x _ Hg2 Hu).
        now rewrite (IH _ _ _ Hu m x Hnm).
    - apply prepend_inv in Hu as (str' & Hu & ->).
      now rewrite (IH _ _ _ Hu m x Hnm). }
  destruct (byteval c <? 32); [discriminate|].
  destruct (byteval c <? utf8.RuneSelf) eqn:Hself.
  { apply prepend_inv in Hu as (str' & Hu & ->).
    now rewrite (IH _ _ _ Hu m x Hnm). }
  cbv zeta in *.
  apply prepend_inv in Hu as (str' & Hu & ->).
  destruct (utf8.DecodeRune (String c s')) as [rn k] eqn:Hd.
  cbn [fst snd] in *.
  destruct (utf8.ill_formed (rn, k)) eqn:Hill.
  - assert (E : (rn, k) = (utf8.RuneError, 1%nat)).
    { unfold utf8.ill_formed in Hill. cbn [fst snd] in Hill.
      apply andb_true_iff in Hill as [H1 H2].
      apply Z.eqb_eq in H1. apply Nat.eqb_eq in H2. now subst. }
    injection E as -> ->. cbn [utf8.string_drop] in Hu.
    rewrite (DecodeRune_ill_app n c s' x _ Hu Hd). cbn [fst snd utf8.string_drop].
    now rewrite (IH _ _ _ Hu m x Hnm).
  - destruct (DecodeRune_spec (String c s') rn k ltac:(discriminate) Hd Hill)
      as (seq & rest0 & Hs & Hlen & Hk & Henc & _ & Hloc).
    assert (Hdrop : utf8.string_drop k (String c s') = rest0)
      by (rewrite Hs, <- Hlen; apply drop_app).
    rewrite Hdrop in Hu.
    assert (Hsx : String c (s' ++ x) = seq ++ (rest0 ++ x)).
    { change (String c (s' ++ x)) with (String c s' ++ x).
      now rewrite Hs, append_assoc. }
    rewrite Hsx, (Hloc (rest0 ++ x)). cbn [fst snd].
    rewrite <- Hlen, drop_app.
    now rewrite (IH _ _ _ Hu m x Hnm).
Qed.

Lemma parse_value_cases (n : nat) (depth : N) (s : string) :
  jsontext.parse_value (S n) depth s =
  match jsontext.skip_ws s with
  | EmptyString => None
  | String c r =>
    if Ascii.eqb c dquote then
      match jsontext.unquote (String.length r) r with
      | Some (str, rest) => Some (JString str, rest)
      | None => None
      end
    else if Ascii.eqb c "{" then
      if (depth <? jsontext.maxNestingDepth)%N then
        match jsontext.skip_ws r with
        | String c1 r' =>
          if Ascii.eqb c1 "}" then Some (JObject [], r')
          else match jsontext.parse_members n (depth + 1)%N (String c1 r') with
               | Some (ms, rest) => Some (JObject ms, rest)
               | None => None
               end
        | EmptyString =>
          match jsontext.parse_members n (depth + 1)%N "" with
          | Some (ms, rest) => Some (JObject ms, rest)
          | None => None
          end
        end
      else None
    else if Ascii.eqb c "[" then
      if (depth <? jsontext.maxNestingDepth)%N then
        match jsontext.skip_ws r with
        | String c1 r' =>
          if Ascii.eqb c1 "]" then Some (JArray [], r')
          else match jsontext.parse_elements n (depth + 1)%N (String c1 r') with
               | Some (es, rest) => Some (JArray es, rest)
               | None => None
               end
        | EmptyString =>
          match jsontext.parse_elements n (depth + 1)%N "" with
          | Some (es, rest) => Some (JArray es, rest)
          | None => None
          end
        end
      else None
    else if Ascii.eqb c "t" then
      match jsontext.strip_prefix "rue" r with
      | Some rest => Some (JBool true, rest) | None => None end
    else if Ascii.eqb c "f" then
      match jsontext.strip_prefix "alse" r with
      | Some rest => Some (JBool false, rest) | None => None end
    else if Ascii.eqb c "n" then
      match jsontext.strip_prefix "ull" r with
      | Some rest => Some (JNull, rest) | None => None end
    else
      match jsontext.scan_number (String c r) with
      | Some (lit, rest) => Some (JNumber lit, rest)
      | None => None
      end
  end.
Proof.
  rewrite parse_value_step.
  destruct (jsontext.skip_ws s) as [|c r]; [reflexivity|].
  destruct (Ascii.eqb c dquote); [reflexivity|].
  destruct c as [[] [] [] [] [] [] [] []]; try reflexivity;
    cbn [Ascii.eqb Bool.eqb andb];
    (destruct (depth <? jsontext.maxNestingDepth)%N; [|reflexivity]);
    (destruct (jsontext.skip_ws r) as [|c1 r']; [reflexivity|]);
    destruct c1 as [[] [] [] [] [] [] [] []]; reflexivity.
Qed.

Lemma parse_members_cases (n : nat) (depth : N) (s : string) :
  jsontext.parse_members (S n) depth s =
  match jsontext.skip_ws s with
  | String c r =>
    if Ascii.eqb c dquote then
      match jsontext.unquote (String.length r) r with
      | Some (key, r1) =>
        match jsontext.skip_ws r1 with
        | String c1 r2 =>
          if Ascii.eqb c1 ":" then
            match jsontext.parse_value n depth r2 with
            | Some (v, r3) =>
              match jsontext.skip_ws r3 with
              | String c3 r4 =>
                if Ascii.eqb c3 "," then
                  match jsontext.parse_members n depth r4 with
                  | Some (ms, r5) => Some ((key, v) :: ms, r5)
                  | None => None
                  end
                else if Ascii.eqb c3 "}" then Some ([(key, v)], r4)
                else None
              | EmptyString => None
              end
            | None => None
            end
          else None
        | EmptyString => None
        end
      | None => None
      end
    else None
  | EmptyString => None
  end.
Proof.
  change (jsontext.parse_members (S n) depth s)
    with (match jsontext.skip_ws s with
          | String c r =>
            if Ascii.eqb c dquote then
              match jsontext.unquote (String.length r) r with
              | Some (key, r1) =>
                match jsontext.skip_ws r1 with
                | String ":"%char r2 =>
                  match jsontext.parse_value n depth r2 with
                  | Some (v, r3) =>
                    match jsontext.skip_ws r3 with
                    | String ","%char r4 =>
                      match jsontext.parse_members n depth r4 with
                      | Some (ms, r5) => Some ((key, v) :: ms, r5)
                      | None => None
                      end
                    | String "}"%char r4 => Some ([(key, v)], r4)
                    | _ => None
                    end
                  | None => None
                  end
                | _ => None
                end
              | None => None
              end
            else None
          | EmptyString => None
          end).
  destruct (jsontext.skip_ws s) as [|c r]; [reflexivity|].
  destruct (Ascii.eqb c dquote); [|reflexivity].
  destruct (jsontext.unquote (String.length r) r) as [[key r1]|]; [|reflexivity].
  destruct (jsontext.skip_ws r1) as [|c1 r2]; [reflexivity|].
  destruct c1 as [[] [] [] [] [] [] [] []]; try reflexivity.
  cbn [Ascii.eqb Bool.eqb andb].
  destruct (jsontext.parse_value n depth r2) as [[v r3]|]; [|reflexivity].
  destruct (jsontext.skip_ws r3) as [|c3 r4]; [reflexivity|].
  destruct c3 as [[] [] [] [] [] [] [] []]; reflexivity.
Qed.

Lemma parse_elements_cases (n : nat) (depth : N) (s : string) :
  jsontext.parse_elements (S n) depth s =
  match jsontext.parse_value n depth s with
  | Some (v, r1) =>
    match jsontext.skip_ws r1 with
    | String c r2 =>
      if Ascii.eqb c "," then
        match jsontext.parse_elements n depth r2 with
        | Some (es, r3) => Some (v :: es, r3)
        | None => None
        end
      else if Ascii.eqb c "]" then Some ([v], r2)
      else None
    | EmptyString => None
    end
  | None => None
  end.
Proof.
  rewrite parse_elements_step.
  destruct (jsontext.parse_value n depth s) as [[v r1]|]; [|reflexivity].
  destruct (jsontext.skip_ws r1) as [|c r2]; [reflexivity|].
  destruct c as [[] [] [] [] [] [] [] []]; reflexivity.
Qed.

Lemma parse_members_nil (n : nat) (depth : N) : jsontext.parse_members n depth "" = None.
Proof. destruct n; reflexivity. Qed.

Lemma parse_elements_nil (n : nat) (depth : N) : jsontext.parse_elements n depth "" = None.
Proof. destruct n as [|[|n]]; reflexivity. Qed.

Lemma length_app_le (a b : string) : (String.length a <= String.length (a ++ b))%nat.
Proof. rewrite length_append. lia. Qed.

(** The parser reads a value alike whatever follows it, with this fuel or
    more.  A number must be followed by a byte, which ends it. *)
Lemma parse_app (n : nat) :
  (forall depth s j r,
      jsontext.parse_value n depth s = Some (j, r) -> self_delimited j r ->
      forall m x, (n <= m)%nat ->
                  jsontext.parse_value m depth (s ++ x) = Some (j, r ++ x)) /\
  (forall depth s ms r,
      jsontext.parse_members n depth s = Some (ms, r) ->
      forall m x, (n <= m)%nat ->
                  jsontext.parse_members m depth (s ++ x) = Some (ms, r ++ x)) /\
  (forall depth s es r,
      jsontext.parse_elements n depth s = Some (es, r) ->
      forall m x, (n <= m)%nat ->
                  jsontext.parse_elements m depth (s ++ x) = Some (es, r ++ x)).
Proof.
  induction n as [|n (IHv & IHm & IHe)];
    [repeat split; intros; discriminate|].
  assert (Hv : forall depth s j r,
             jsontext.parse_value n depth s = Some (j, r) ->
             forall c r', jsontext.skip_ws r = String c r' ->
             forall m x, (n <= m)%nat ->
                         jsontext.parse_value m depth (s ++ x) = Some (j, r ++ x)).
  { intros depth s j r H c r' Hr m x Hm. apply IHv; try assumption.
    destruct j; try exact I. cbn. intros ->. discriminate. }
  split; [|split].
  - intros depth s j r H Hsd m x Hm.
    destruct m as [|m]; [lia|]. assert (Hnm : (n <= m)%nat) by lia.
    rewrite parse_value_cases in H. rewrite parse_value_cases.
    destruct (jsontext.skip_ws s) as [|c r0] eqn:Hs; [discriminate|].
    rewrite (skip_ws_app s x c r0 Hs).
    destruct (Ascii.eqb c dquote).
    { destruct (jsontext.unquote (String.length r0) r0) as [[str rest]|] eqn:Hu;
        [|discriminate].
      injection H as <- <-.
      now rewrite (unquote_app _ _ _ _ Hu _ x (length_app_le r0 x)). }
    destruct (Ascii.eqb c "{").
    { destruct (depth <? jsontext.maxNestingDepth)%N; [|discriminate].
      destruct (jsontext.skip_ws r0) as [|c1 r'] eqn:Hs1.
      { rewrite parse_members_nil in H. discriminate. }
      rewrite (skip_ws_app r0 x c1 r' Hs1).
      destruct (Ascii.eqb c1 "}"); [now injection H as <- <-|].
      destruct (jsontext.parse_members n (depth + 1) (String c1 r')) as [[ms rest]|] eqn:Hp;
        [|discriminate].
      injection H as <- <-.
      pose proof (IHm _ _ _ _ Hp m x Hnm) as Hp'.
      change (String c1 r' ++ x) with (String c1 (r' ++ x)) in Hp'.
      now rewrite Hp'. }
    destruct (Ascii.eqb c "[").
    { destruct (depth <? jsontext.maxNestingDepth)%N; [|discriminate].
      destruct (jsontext.skip_ws r0) as [|c1 r'] eqn:Hs1.
      { rewrite parse_elements_nil in H. discriminate. }
      rewrite (skip_ws_app r0 x c1 r' Hs1).
      destruct (Ascii.eqb c1 "]"); [now injection H as <- <-|].
      destruct (jsontext.parse_elements n (depth + 1) (String c1 r')) as [[es rest]|] eqn:Hp;
        [|discriminate].
      injection H as <- <-.
      pose proof (IHe _ _ _ _ Hp m x Hnm) as Hp'.
      change (String c1 r' ++ x) with (String c1 (r' ++ x)) in Hp'.
      now rewrite Hp'. }
    destruct (Ascii.eqb c "t").
    { destruct (jsontext.strip_prefix "rue" r0) as [rest|] eqn:Hp; [|discriminate].
      injection H as <- <-. now rewrite (strip_prefix_app_r _ _ x _ Hp). }
    destruct (Ascii.eqb c "f").
    { destruct (jsontext.strip_prefix "alse" r0) as [rest|] eqn:Hp; [|discriminate].
      injection H as <- <-. now rewrite (strip_prefix_app_r _ _ x _ Hp). }
    destruct (Ascii.eqb c "n").
    { destruct (jsontext.strip_prefix "ull" r0) as [rest|] eqn:Hp; [|discriminate].
      injection H as <- <-. now rewrite (strip_prefix_app_r _ _ x _ Hp). }
    destruct (jsontext.scan_number (String c r0)) as [[lit rest]|] eqn:Hn; [|discriminate].
    injection H as <- <-. cbn [self_delimited] in Hsd.
    pose proof (scan_number_app _ x _ _ Hn Hsd) as Hn'.
    change (String c r0 ++ x) with (String c (r0 ++ x)) in Hn'.
    now rewrite Hn'.
  - intros depth s ms r H m x Hm.
    destruct m as [|m]; [lia|]. assert (Hnm : (n <= m)%nat) by lia.
    rewrite parse_members_cases in H. rewrite parse_members_cases.
    destruct (jsontext.skip_ws s) as [|c r0] eqn:Hs; [discriminate|].
    rewrite (skip_ws_app s x c r0 Hs).
    destruct (Ascii.eqb c dquote); [|discriminate].
    destruct (jsontext.unquote (String.length r0) r0) as [[key r1]|] eqn:Hu;
      [|discriminate].
    rewrite (unquote_app _ _ _ _ Hu _ x (length_app_le r0 x)).
    destruct (jsontext.skip_ws r1) as [|c1 r2] eqn:Hs1; [discriminate|].
    rewrite (skip_ws_app r1 x c1 r2 Hs1).
    destruct (Ascii.eqb c1 ":"); [|discriminate].
    destruct (jsontext.parse_value n depth r2) as [[v r3]|] eqn:Hp; [|discriminate].
    destruct (jsontext.skip_ws r3) as [|c3 r4] eqn:Hs3; [discriminate|].
    rewrite (Hv _ _ _ _ Hp c3 r4 Hs3 m x Hnm), (skip_ws_app r3 x c3 r4 Hs3).
    destruct (Ascii.eqb c3 ",").
    { destruct (jsontext.parse_members n depth r4) as [[ms' r5]|] eqn:Hp4; [|discriminate].
      injection H as <- <-. now rewrite (IHm _ _ _ _ Hp4 m x Hnm). }
    destruct (Ascii.eqb c3 "}"); [|discriminate].
    now injection H as <- <-.
  - intros depth s es r H m x Hm.
    destruct m as [|m]; [lia|]. assert (Hnm : (n <= m)%nat) by lia.
    rewrite parse_elements_cases in H. rewrite parse_elements_cases.
    destruct (jsontext.parse_value n depth s) as [[v r1]|] eqn:Hp; [|discriminate].
    destruct (jsontext.skip_ws r1) as [|c r2] eqn:Hs1; [discriminate|].
    rewrite (Hv _ _ _ _ Hp c r2 Hs1 m x Hnm), (skip_ws_app r1 x c r2 Hs1).
    destruct (Ascii.eqb c ",").
    { destruct (jsontext.parse_elements n depth r2) as [[es' r3]|] eqn:Hp2; [|discriminate].
      injection H as <- <-. now rewrite (IHe _ _ _ _ Hp2 m x Hnm). }
    destruct (Ascii.eqb c "]"); [|discriminate].
    now injection H as <- <-.
Qed.

(** What [readValue] reads does not change when bytes are appended to the
    body, unless it is a number that the body ends with. *)
Lemma readValue_app (body x : string) (j : json) :
  json_pkg.readValue body = Ok j -> (forall lit, j <> JNumber lit) ->
  json_pkg.readValue (body ++ x) = Ok j.
Proof.
  unfold json_pkg.readValue. intros H Hnum.
  destruct (jsontext.skip_ws body) as [|c r] eqn:Hs; [discriminate|].
  rewrite (skip_ws_app body x c r Hs).
  destruct (jsontext.parse_value (2 * String.length body + 1) 0 body) as [[j' rest]|] eqn:Hp;
    [|discriminate].
  injection H as ->.
  destruct (parse_app (2 * String.length body + 1)) as (Hv & _ & _).
  rewrite (Hv 0%N body j rest Hp).
  - reflexivity.
  - destruct j; try exact I. exfalso. eapply Hnum. reflexivity.
  - rewrite length_append. lia.
Qed.

Lemma Decode_Template_app (body x : string) (t : Template) :
  json_pkg.Decode_Template body = Ok t -> json_pkg.Decode_Template (body ++ x) = Ok t.
Proof.
  unfold json_pkg.Decode_Template.
  destruct (json_pkg.readValue body) as [j|] eqn:Hj; cbn [bind]; [|discriminate].
  intros H. rewrite (readValue_app body x j Hj); [exact H|].
  intros lit ->. discriminate.
Qed.

Lemma Decode_PostmarkResponse_app (body x : string) (p : PostmarkResponse) :
  json_pkg.Decode_PostmarkResponse body = Ok p ->
  json_pkg.Decode_PostmarkResponse (body ++ x) = Ok p.
Proof.
  unfold json_pkg.Decode_PostmarkResponse.
  destruct (json_pkg.readValue body) as [j|] eqn:Hj; cbn [bind]; [|discriminate].
  intros H. rewrite (readValue_app body x j Hj); [exact H|].
  intros lit ->. discriminate.
Qed.

Lemma Decode_TemplatesResponse_app (body x : string) (r : TemplatesResponse) :
  json_pkg.Decode_TemplatesResponse body = Ok r ->
  json_pkg.Decode_TemplatesResponse (body ++ x) = Ok r.
Proof.
  unfold json_pkg.Decode_TemplatesResponse.
  destruct (json_pkg.readValue body) as [j|] eqn:Hj; cbn [bind]; [|discriminate].
  intros H. rewrite (readValue_app body x j Hj); [exact H|].
  intros lit ->. discriminate.
Qed.

(** X12. Bytes after the first JSON value of a 200 body are not looked
    at.  An operation that is answered with status 200 and does not fail
    to decode the body returns the same result, value and error, when the
    body is followed by any further bytes. *)
Theorem trailing_bytes_are_ignored
        {World : Type} (Do Do' : Request -> World -> result Response error * World)
        (tok : string) (c : call) (w w' : World) (resp : Response) (x : string) :
  Do (request_of tok c) w = (Ok resp, w') ->
  Do' (request_of tok c) w = (Ok (mkResponse (StatusCode resp) (Body resp ++ x)), w') ->
  StatusCode resp = http.StatusOK ->
  (forall cause, failure (run Do tok c w)
                 <> Some (Errorf_w "failed to decode response: " (jsonError cause))) ->
  run Do' tok c w = run Do tok c w.
Proof.
  intros HDo HDo' Hst Hdec. apply status_ok in Hst.
  destruct c; unfold run in *.
  - rewrite !CreateTemplate_unfold, HDo, HDo' in *. cbn [StatusCode Body] in *.
    rewrite Hst in *.
    destruct (json_pkg.Decode_PostmarkResponse (Body resp)) as [p|cause] eqn:E.
    + now rewrite (Decode_PostmarkResponse_app _ x _ E).
    + exfalso. exact (Hdec cause eq_refl).
  - rewrite !GetTemplate_unfold, HDo, HDo' in *. cbn [StatusCode Body] in *.
    rewrite Hst in *.
    destruct (json_pkg.Decode_Template (Body resp)) as [p|cause] eqn:E.
    + now rewrite (Decode_Template_app _ x _ E).
    + exfalso. exact (Hdec cause eq_refl).
  - rewrite !UpdateTemplate_unfold, HDo, HDo' in *. cbn [StatusCode Body] in *.
    rewrite Hst in *.
    destruct (json_pkg.Decode_PostmarkResponse (Body resp)) as [p|cause] eqn:E.
    + now rewrite (Decode_PostmarkResponse_app _ x _ E).
    + exfalso. exact (Hdec cause eq_refl).
  - rewrite !DeleteTemplate_unfold, HDo, HDo'. cbn [StatusCode Body].
    now rewrite Hst.
  - rewrite !GetTemplates_unfold, HDo, HDo' in *. cbn [StatusCode Body] in *.
    rewrite Hst in *.
    destruct (json_pkg.Decode_TemplatesResponse (Body resp)) as [p|cause] eqn:E.
    + now rewrite (Decode_TemplatesResponse_app _ x _ E).
    + exfalso. exact (Hdec cause eq_refl).
  - rewrite !ValidateTemplate_unfold, HDo, HDo'. cbn [StatusCode Body].
    now rewrite Hst.
Qed.

Lemma trailing_bytes_are_ignored_witness :
  run (canned (mkResponse 200 (wire "{'Name': 'a', 'TemplateId': 12}</html> and more")))
      "tok" (Get 12) tt
  = ((VTemplate (Some (mkTemplate 12 "a" "" "" "" "" false)), None), tt).
Proof.
  rewrite (trailing_bytes_are_ignored
             (canned (mkResponse 200 (wire "{'Name': 'a', 'TemplateId': 12}")))
             (canned (mkResponse 200 (wire "{'Name': 'a', 'TemplateId': 12}</html> and more")))
             "tok" (Get 12) tt tt
             (mkResponse 200 (wire "{'Name': 'a', 'TemplateId': 12}"))
             "</html> and more").
  - vm_compute. reflexivity.
  - reflexivity.
  - vm_compute. reflexivity.
  - reflexivity.
  - intros cause. vm_compute. discriminate.
Defined.

(** A number is ended by the byte after it: digits appended to a body
    that ends with a number make another number. *)
Example digits_after_a_number :
  json_pkg.readValue "12" = Ok (JNumber "12") /\
  json_pkg.readValue "123" = Ok (JNumber "123") /\
  json_pkg.readValue "12x" = Ok (JNumber "12").
Proof. repeat split; vm_compute; reflexivity. Qed.

(** ** URLs *)

Lemma Itoa_inj (a b : Z) : strconv.Itoa a = strconv.Itoa b -> a = b.
Proof.
  intros E. unfold strconv.Itoa in E.
  assert (Hn : forall z, Z.to_int z <> Decimal.Pos Decimal.Nil /\
                         Z.to_int z <> Decimal.Neg Decimal.Nil).
  { intros [|p|p]; split; cbn; try discriminate;
      intros [= H]; now apply (Pos_to_uint_nonnil p). }
  destruct (Hn a) as [A1 A2], (Hn b) as [B1 B2].
  pose proof (NilZero.isi _ A1 A2) as Ia. pose proof (NilZero.isi _ B1 B2) as Ib.
  rewrite E in Ia. rewrite Ia in Ib. injection Ib as Ib.
  now apply DecimalZ.to_int_inj.
Qed.

Lemma append_inj_l (p a b : string) : p ++ a = p ++ b -> a = b.
Proof. induction p as [|c p IH]; cbn; [auto | intros [= H]; auto]. Qed.

Lemma no_amp_Itoa (z : Z) : no_amp (strconv.Itoa z) = true.
Proof.
  destruct (Itoa_shape z) as (sign & digits & -> & Hs & _ & Hd).
  unfold no_amp. rewrite list_ascii_app, forallb_app.
  apply andb_true_iff. split.
  - destruct Hs as [-> | ->]; reflexivity.
  - unfold strconv.all_digits in Hd.
    induction (list_ascii_of_string digits) as [|c l IH]; [reflexivity|].
    cbn [forallb] in *. apply andb_true_iff in Hd as [Hc Hl].
    rewrite (IH Hl), andb_true_r.
    destruct (Ascii.eqb_spec c "&"%char) as [-> |]; [discriminate | reflexivity].
Qed.

Lemma split_at_amp (a a' x x' : string) :
  no_amp a = true -> no_amp a' = true ->
  a ++ String "&" x = a' ++ String "&" x' -> a = a' /\ x = x'.
Proof.
  unfold no_amp. revert a'.
  induction a as [|c a IH]; intros [|c' a'] Ha Ha' E; cbn in *.
  - injection E as E. auto.
  - injection E as <- E. discriminate.
  - injection E as -> E. discriminate.
  - injection E as <- E.
    apply andb_true_iff in Ha as [_ Ha]. apply andb_true_iff in Ha' as [_ Ha'].
    destruct (IH a' Ha Ha' E) as [-> ->]. auto.
Qed.

(** X13. Two calls are sent to the same URL exactly when they address the
    same thing: the collection, the same template id, the same page, or
    the validation.  Different ids, and different offsets or counts, never
    share a URL, and no id is taken for the word [validate]. *)
Theorem url_names_the_address (c1 c2 : call) :
  url_of c1 = url_of c2 <-> address_of c1 = address_of c2.
Proof.
  assert (Hu : forall c, url_of c
                 = "https://api.postmarkapp.com/templates"
                   ++ match address_of c with
                      | Collection => ""
                      | Item id => String "/" (strconv.Itoa id)
                      | Page o n => "?offset=" ++ strconv.Itoa o ++ "&count=" ++ strconv.Itoa n
                      | Validation => "/validate"
                      end).
  { intros []; reflexivity. }
  rewrite !Hu. split; [|now intros ->].
  intros E. apply append_inj_l in E.
  destruct (address_of c1) as [|a|o n|], (address_of c2) as [|b|o' n'|];
    try reflexivity; try discriminate.
  - injection E as E. now rewrite (Itoa_inj a b E).
  - exfalso. injection E as E. pose proof (Itoa_not_validate a) as H.
    rewrite E in H. discriminate.
  - apply (append_inj_l "?offset=") in E.
    change ("&count=" ++ strconv.Itoa n) with (String "&" ("count=" ++ strconv.Itoa n)) in E.
    change ("&count=" ++ strconv.Itoa n') with (String "&" ("count=" ++ strconv.Itoa n')) in E.
    apply split_at_amp in E as [Eo En]; try apply no_amp_Itoa.
    apply append_inj_l in En.
    now rewrite (Itoa_inj _ _ Eo), (Itoa_inj _ _ En).
  - exfalso. injection E as E. pose proof (Itoa_not_validate b) as H.
    rewrite <- E in H. discriminate.
Qed.

(** ** Bytes of a payload *)

Lemma all_safe_app (a b : string) : all_safe (a ++ b) = all_safe a && all_safe b.
Proof. unfold all_safe. now rewrite list_ascii_app, forallb_app. Qed.

Lemma escape_safe (b : ascii) :
  all_safe (if jsontext.htmlSafe b then String b "" else jsontext.escape b) = true.
Proof. destruct b as [[] [] [] [] [] [] [] []]; reflexivity. Qed.

Lemma wire_safe_high (v : Z) : 128 <= v < 256 -> wire_safe (mkbyte v) = true.
Proof. intros H. unfold wire_safe. rewrite byteval_mkbyte by lia. lia. Qed.

Lemma EncodeRune_safe (r : Z) : 128 <= r -> all_safe (utf8.EncodeRune r) = true.
Proof.
  intros Hr. unfold utf8.EncodeRune. split_ifs; try lia;
    unfold all_safe; cbn [list_ascii_of_string forallb];
    rewrite ?andb_true_r; rewrite ?andb_true_iff;
    repeat split; apply wire_safe_high;
    try (pose proof (Z.mod_pos_bound r 64 ltac:(lia));
         pose proof (Z.mod_pos_bound (r / 64) 64 ltac:(lia));
         pose proof (Z.mod_pos_bound (r / 4096) 64 ltac:(lia));
         Z.div_mod_to_equations; lia).
Qed.

Lemma quote_body_safe (k : nat) :
  forall s, (String.length s <= k)%nat -> all_safe (jsontext.quote_body k s) = true.
Proof.
  induction k as [|k IH]; intros s Hk; [reflexivity|].
  destruct s as [|b s']; [reflexivity|].
  cbn [String.length] in Hk. cbn [jsontext.quote_body].
  destruct (byteval b <? utf8.RuneSelf) eqn:Hb.
  { rewrite all_safe_app, escape_safe, IH by lia. reflexivity. }
  destruct (utf8.DecodeRune (String b s')) as [r n] eqn:Hd. cbn [fst snd].
  destruct (utf8.ill_formed (r, n)) eqn:Hill.
  { rewrite all_safe_app, IH by lia. reflexivity. }
  destruct (DecodeRune_spec (String b s') r n ltac:(discriminate) Hd Hill)
    as (seq & rest0 & Hs & Hlen & Hn & Henc & Hhigh & _).
  assert (Hdrop : utf8.string_drop n (String b s') = rest0)
    by (rewrite Hs, <- Hlen; apply drop_app).
  assert (Htake : utf8.string_take n (String b s') = seq)
    by (rewrite Hs, <- Hlen; apply take_app).
  assert (Hk0 : (String.length rest0 <= k)%nat).
  { assert (E : String.length (String b s') = String.length (seq ++ rest0))
      by now rewrite Hs.
    rewrite length_append in E. cbn [String.length] in E. lia. }
  unfold utf8.RuneSelf in Hb.
  destruct Hhigh as [Hr _]; [cbn; lia|].
  rewrite Hdrop, Htake.
  destruct ((r =? 8232) || (r =? 8233)) eqn:Hsep.
  - rewrite !all_safe_app, (IH rest0 Hk0), andb_true_r.
    destruct (r =? 8232) eqn:E1.
    + assert (r = 8232) by lia. subst r. reflexivity.
    + assert (r = 8233) by lia. subst r. reflexivity.
  - rewrite all_safe_app, (IH rest0 Hk0), <- Henc, (EncodeRune_safe r Hr). reflexivity.
Qed.

Lemma quote_safe (s : string) : all_safe (jsontext.quote s) = true.
Proof.
  unfold jsontext.quote.
  change (String dquote (jsontext.quote_body (String.length s) s ++ String dquote ""))
    with (String dquote "" ++ jsontext.quote_body (String.length s) s ++ String dquote "").
  rewrite !all_safe_app, quote_body_safe by lia. reflexivity.
Qed.

Lemma Itoa_safe (z : Z) : all_safe (strconv.Itoa z) = true.
Proof.
  destruct (Itoa_shape z) as (sign & digits & -> & Hs & _ & Hd).
  rewrite all_safe_app. apply andb_true_iff. split.
  - destruct Hs as [-> | ->]; reflexivity.
  - unfold strconv.all_digits in Hd. unfold all_safe.
    induction (list_ascii_of_string digits) as [|c l IH]; [reflexivity|].
    cbn [forallb] in *. apply andb_true_iff in Hd as [Hc Hl].
    rewrite (IH Hl), andb_true_r. clear -Hc.
    destruct c as [[] [] [] [] [] [] [] []]; try discriminate; reflexivity.
Qed.

Lemma plain_safe (v : json) : plain v -> all_safe (jsontext.render v) = true.
Proof.
  intros [s | z | b]; cbn [jsontext.render].
  - apply quote_safe.
  - apply Itoa_safe.
  - destruct b; reflexivity.
Qed.

Lemma members_safe (ms : list (string * json)) :
  Forall (fun kv => plain (snd kv)) ms ->
  all_safe (jsontext.join_comma (map member ms)) = true.
Proof.
  induction ms as [|kv ms IH]; intros H; [reflexivity|].
  apply Forall_cons_iff in H as [Hkv H].
  assert (Hm : all_safe (member kv) = true).
  { unfold member. rewrite !all_safe_app, quote_safe, (plain_safe _ Hkv). reflexivity. }
  destruct ms as [|kv' ms]; [exact Hm|].
  change (map member (kv :: kv' :: ms)) with (member kv :: map member (kv' :: ms)).
  rewrite join_comma_cons by discriminate.
  rewrite !all_safe_app, Hm, (IH H). reflexivity.
Qed.

(** X14. The payload of Create, Update and Validate holds no byte below
    0x20 and none of the bytes [<], [>] and [&]: markup, line breaks and
    the other control characters below 0x20 in a template's text are sent
    as escapes.  (DEL, 0x7F, is not escaped: see [del_is_sent_as_it_is].) *)
Theorem payload_has_no_markup_bytes (t : Template) :
  all_safe (fst (json_pkg.Marshal t)) = true.
Proof.
  unfold json_pkg.Marshal. cbn [fst].
  destruct (members_of_spec t) as (E & _ & Hpl & _).
  rewrite E, render_object.
  change (String "{" (jsontext.join_comma (map member (members_of t)) ++ String "}" ""))
    with (String "{" "" ++ jsontext.join_comma (map member (members_of t)) ++ String "}" "").
  rewrite !all_safe_app, members_safe; [reflexivity|].
  eapply Forall_impl; [exact Hpl|]. intros kv [_ H]. exact H.
Qed.

(** The escapes on a template with markup and control bytes. *)
Example markup_is_escaped :
  fst (json_pkg.Marshal with_markup)
  = wire "{'templateID':5,'name':'R\u0026D \u003cnews\u003e','subject':'Hello','htmlBody':'\n\u003cb\u003eHi\u003c/b\u003e','textBody':'\u0001Hi','active':true}".
Proof. vm_compute. reflexivity. Qed.

(** DEL is no byte below 0x20: it is sent as it is. *)
Example del_is_sent_as_it_is :
  fst (json_pkg.Marshal named_del)
  = (wire "{'name':'" ++ String (mkbyte 127) ""
     ++ wire "','subject':'s','htmlBody':'','textBody':'t'}") /\
  http.containsCTLByte (fst (json_pkg.Marshal named_del)) = true /\
  all_safe (fst (json_pkg.Marshal named_del)) = true.
Proof. repeat split; vm_compute; reflexivity. Qed.

(** ** [null] and values of the wrong type *)

Lemma Template_store_null (path f : string) (t : Template) :
  json_pkg.Template_store path f JNull t = Ok t.
Proof.
  unfold json_pkg.Template_store. destruct t.
  repeat match goal with
         | |- context [if ?c then _ else _] => destruct c
         end; reflexivity.
Qed.

(** X16. A member whose value is [null] is skipped when a template or a
    create/update response is decoded: the field keeps the value it had,
    as if the member were absent. *)
Theorem null_members_are_skipped (ms1 ms2 : list (string * json)) (k : string) :
  (forall path t,
      json_pkg.Template_members path (ms1 ++ (k, JNull) :: ms2) t
      = json_pkg.Template_members path (ms1 ++ ms2) t) /\
  (forall p,
      json_pkg.PostmarkResponse_members (ms1 ++ (k, JNull) :: ms2) p
      = json_pkg.PostmarkResponse_members (ms1 ++ ms2) p).
Proof.
  split.
  - intros path. induction ms1 as [|[k1 v1] ms1 IH]; intros t.
    + cbn [List.app json_pkg.Template_members].
      destruct (json_pkg.field_of json_pkg.Template_fields k); [|reflexivity].
      now rewrite Template_store_null.
    + cbn [List.app json_pkg.Template_members].
      destruct (json_pkg.field_of json_pkg.Template_fields k1); [|apply IH].
      destruct (json_pkg.Template_store path s v1 t); cbn [bind]; [apply IH | reflexivity].
  - induction ms1 as [|[k1 v1] ms1 IH]; intros p.
    + cbn [List.app json_pkg.PostmarkResponse_members].
      destruct (json_pkg.field_of json_pkg.PostmarkResponse_fields k); [|reflexivity].
      destruct p.
      repeat match goal with
             | |- context [if ?c then _ else _] => destruct c
             end; reflexivity.
    + cbn [List.app json_pkg.PostmarkResponse_members].
      destruct (json_pkg.field_of json_pkg.PostmarkResponse_fields k1); [|apply IH].
      match goal with |- bind ?r _ = bind ?r _ => destruct r end;
        cbn [bind]; [apply IH | reflexivity].
Qed.

Lemma Template_store_rejects (path f : string) (v : json) (t : Template) :
  In f json_pkg.Template_fields -> rejects f v = true ->
  exists e, json_pkg.Template_store path f v t = Err e.
Proof.
  intros Hin Hr.
  unfold json_pkg.Template_fields in Hin. cbn [In] in Hin.
  repeat (destruct Hin as [<- | Hin]); try contradiction;
    unfold json_pkg.Template_store; cbn [String.eqb Ascii.eqb Bool.eqb];
    destruct v; try discriminate;
    cbn [json_pkg.store_int json_pkg.store_string json_pkg.store_bool bind];
    unfold json_pkg.mismatch; cbn [bind]; try (eexists; reflexivity).
  cbn [rejects String.eqb Ascii.eqb Bool.eqb negb orb] in Hr.
  destruct (strconv.ParseInt lit); [discriminate | eexists; reflexivity].
Qed.

Lemma Template_members_reject (path : string) (ms : list (string * json)) :
  forall (t : Template) (k f : string) (v : json),
    In (k, v) ms -> json_pkg.field_of json_pkg.Template_fields k = Some f ->
    rejects f v = true ->
    exists e, json_pkg.Template_members path ms t = Err e.
Proof.
  induction ms as [|[k1 v1] ms IH]; intros t k f v Hin Hf Hr; [contradiction|].
  cbn [json_pkg.Template_members].
  destruct Hin as [[= -> ->] | Hin].
  - rewrite Hf.
    destruct (Template_store_rejects path f v t (field_of_in _ _ _ Hf) Hr) as (e & ->).
    exists e. reflexivity.
  - destruct (json_pkg.field_of json_pkg.Template_fields k1) as [f1|];
      [|exact (IH t k f v Hin Hf Hr)].
    destruct (json_pkg.Template_store path f1 v1 t) as [t1|e1]; cbn [bind].
    + exact (IH t1 k f v Hin Hf Hr).
    + exists e1. reflexivity.
Qed.

(** X17. One member of the wrong type makes Get fail.  When the object
    of a 200 body has, under a key of a field, a value of another JSON
    type than the field's or a number that is no 64-bit integer, Get
    returns no template and a decode error, whatever the other members
    hold. *)
Theorem wrong_type_fails_get
        {World : Type} (Do : Request -> World -> result Response error * World)
        (tok : string) (id : Z) (w w' : World) (resp : Response)
        (ms : list (string * json)) (k f : string) (v : json) :
  Do (request_of tok (Get id)) w = (Ok resp, w') ->
  StatusCode resp = http.StatusOK ->
  json_pkg.readValue (Body resp) = Ok (JObject ms) ->
  In (k, v) ms ->
  json_pkg.field_of json_pkg.Template_fields k = Some f ->
  rejects f v = true ->
  exists e cause,
    GetTemplate Do tok id w = ((None, Some e), w') /\ DecodeError e cause.
Proof.
  intros HDo Hst Hj Hin Hf Hr. apply status_ok in Hst.
  destruct (Template_members_reject "" ms zero_Template k f v Hin Hf Hr) as (cause & Hc).
  exists (Errorf_w "failed to decode response: " (jsonError cause)), cause.
  split; [|reflexivity].
  rewrite GetTemplate_unfold, HDo, Hst.
  unfold json_pkg.Decode_Template. rewrite Hj. cbn [bind json_pkg.Template_value].
  now rewrite Hc.
Qed.

Lemma wrong_type_fails_get_witness :
  exists e cause,
    GetTemplate (canned (mkResponse 200 (wire "{'Name': 'a', 'TemplateId': '12'}")))
                "tok" 12 tt = ((None, Some e), tt) /\
    DecodeError e cause.
Proof.
  apply (wrong_type_fails_get
           (canned (mkResponse 200 (wire "{'Name': 'a', 'TemplateId': '12'}")))
           "tok" 12 tt tt
           (mkResponse 200 (wire "{'Name': 'a', 'TemplateId': '12'}"))
           [("Name", JString "a"); ("TemplateId", JString "12")]
           "TemplateId" "templateID" (JString "12")).
  - reflexivity.
  - reflexivity.
  - vm_compute. reflexivity.
  - cbn [In]. auto.
  - vm_compute. reflexivity.
  - reflexivity.
Defined.

(** ** Numbers of a response stay within their Go types *)

Lemma ParseInt_fits (s : string) (z : Z) :
  strconv.ParseInt s = Some z -> strconv.in_int64 z = true.
Proof.
  unfold strconv.ParseInt.
  destruct (match s with
            | String "-"%char r => r
            | String "+"%char r => r
            | _ => s
            end); [discriminate|].
  destruct (strconv.all_digits _); [|discriminate].
  destruct (NilEmpty.uint_of_string _); [|discriminate].
  match goal with |- context [strconv.in_int64 ?x] => destruct (strconv.in_int64 x) eqn:E end;
    [|discriminate].
  intros [= <-]. exact E.
Qed.

Lemma store_int_fits (field : string) (v : json) (cur z : Z) :
  strconv.in_int64 cur = true ->
  json_pkg.store_int field v cur = Ok z -> strconv.in_int64 z = true.
Proof.
  intros Hc. destruct v; cbn [json_pkg.store_int]; try discriminate.
  - now intros [= <-].
  - destruct (strconv.ParseInt lit) eqn:E; [|discriminate].
    intros [= <-]. exact (ParseInt_fits _ _ E).
Qed.

Lemma Template_store_fits (path f : string) (v : json) (t t' : Template) :
  strconv.in_int64 (TemplateID t) = true ->
  json_pkg.Template_store path f v t = Ok t' -> strconv.in_int64 (TemplateID t') = true.
Proof.
  intros Ht. unfold json_pkg.Template_store.
  repeat match goal with
         | |- context [if ?c then _ else _] => destruct c
         end;
    match goal with
    | |- context [json_pkg.store_int ?a ?b ?c] =>
      destruct (json_pkg.store_int a b c) eqn:E; cbn [bind]; [|discriminate];
        intros [= <-]; cbn [TemplateID]; exact (store_int_fits _ _ _ _ Ht E)
    | |- context [json_pkg.store_string ?a ?b ?c] =>
      destruct (json_pkg.store_string a b c); cbn [bind]; [|discriminate];
        intros [= <-]; exact Ht
    | |- context [json_pkg.store_bool ?a ?b ?c] =>
      destruct (json_pkg.store_bool a b c); cbn [bind]; [|discriminate];
        intros [= <-]; exact Ht
    end.
Qed.

Lemma Template_members_fit (path : string) (ms : list (string * json)) :
  forall t t', strconv.in_int64 (TemplateID t) = true ->
               json_pkg.Template_members path ms t = Ok t' ->
               strconv.in_int64 (TemplateID t') = true.
Proof.
  induction ms as [|[k v] ms IH]; intros t t' Ht; cbn [json_pkg.Template_members].
  - now intros [= <-].
  - destruct (json_pkg.field_of json_pkg.Template_fields k) as [f|]; [|now apply IH].
    destruct (json_pkg.Template_store path f v t) as [t1|] eqn:E; cbn [bind];
      [|discriminate].
    apply IH. exact (Template_store_fits _ _ _ _ _ Ht E).
Qed.

Lemma Template_value_fits (path field : string) (j : json) (t t' : Template) :
  strconv.in_int64 (TemplateID t) = true ->
  json_pkg.Template_value path field j t = Ok t' ->
  strconv.in_int64 (TemplateID t') = true.
Proof.
  intros Ht. destruct j; cbn [json_pkg.Template_value]; try discriminate.
  - now intros [= <-].
  - now apply Template_members_fit.
Qed.

Lemma Template_elems_into_fit (es : list json) :
  forall cur l,
    forallb (fun t => strconv.in_int64 (TemplateID t)) cur = true ->
    json_pkg.Template_elems_into cur es = Ok l ->
    forallb (fun t => strconv.in_int64 (TemplateID t)) l = true.
Proof.
  induction es as [|e es IH]; intros cur l Hcur; cbn [json_pkg.Template_elems_into].
  - now intros [= <-].
  - assert (Hhd : strconv.in_int64 (TemplateID (List.hd zero_Template cur)) = true).
    { destruct cur; [reflexivity|]. cbn [forallb List.hd] in *.
      now apply andb_true_iff in Hcur. }
    assert (Htl : forallb (fun t => strconv.in_int64 (TemplateID t)) (List.tl cur) = true).
    { destruct cur; [reflexivity|]. cbn [forallb List.tl] in *.
      now apply andb_true_iff in Hcur. }
    destruct (json_pkg.Template_value "templates." "templates" e (List.hd zero_Template cur))
      as [t|] eqn:Et; cbn [bind]; [|discriminate].
    destruct (json_pkg.Template_elems_into (List.tl cur) es) as [ts|] eqn:Es; cbn [bind];
      [|discriminate].
    intros [= <-]. cbn [forallb].
    now rewrite (Template_value_fits _ _ _ _ _ Hhd Et), (IH _ _ Htl Es).
Qed.

Lemma TemplatesResponse_members_fit (ms : list (string * json)) :
  forall r r', numbers_fit r = true ->
               json_pkg.TemplatesResponse_members ms r = Ok r' ->
               numbers_fit r' = true.
Proof.
  induction ms as [|[k v] ms IH]; intros r r' Hr; cbn [json_pkg.TemplatesResponse_members].
  - now intros [= <-].
  - destruct (json_pkg.field_of json_pkg.TemplatesResponse_fields k) as [f|];
      [|now apply IH].
    unfold numbers_fit in Hr. apply andb_true_iff in Hr as [Hn Hl].
    destruct (String.eqb f "templates").
    + destruct v; cbn [json_pkg.store_Templates bind]; try discriminate.
      * apply IH. unfold numbers_fit. cbn [Templates TotalCount]. now rewrite Hn.
      * match goal with
        | |- context [json_pkg.Template_elems_into ?c ?es] =>
          destruct (json_pkg.Template_elems_into c es) as [ts|] eqn:E; cbn [bind];
            [|discriminate];
            assert (Hc : forallb (fun t => strconv.in_int64 (TemplateID t)) c = true)
              by (destruct (Templates r); [exact Hl | reflexivity])
        end.
        apply IH. unfold numbers_fit. cbn [Templates TotalCount].
        now rewrite Hn, (Template_elems_into_fit _ _ _ Hc E).
    + destruct (json_pkg.store_int f v (TotalCount r)) as [x|] eqn:E; cbn [bind];
        [|discriminate].
      apply IH. unfold numbers_fit. cbn [Templates TotalCount].
      now rewrite (store_int_fits _ _ _ _ Hn E), Hl.
Qed.

Lemma PostmarkResponse_members_fit (ms : list (string * json)) :
  forall p p', strconv.in_int64 (RespTemplateID p) = true ->
               json_pkg.PostmarkResponse_members ms p = Ok p' ->
               strconv.in_int64 (RespTemplateID p') = true.
Proof.
  induction ms as [|[k v] ms IH]; intros p p' Hp; cbn [json_pkg.PostmarkResponse_members].
  - now intros [= <-].
  - destruct (json_pkg.field_of json_pkg.PostmarkResponse_fields k) as [f|];
      [|now apply IH].
    destruct (String.eqb f "templateID"); [|destruct (String.eqb f "errorCode")].
    + destruct (json_pkg.store_int f v (RespTemplateID p)) as [x|] eqn:E; cbn [bind];
        [|discriminate].
      apply IH. cbn [RespTemplateID]. exact (store_int_fits _ _ _ _ Hp E).
    + destruct (json_pkg.store_int f v (ErrorCode p)) as [x|]; cbn [bind];
        [|discriminate].
      apply IH. exact Hp.
    + destruct (json_pkg.store_string f v (Message p)) as [x|]; cbn [bind];
        [|discriminate].
      apply IH. exact Hp.
Qed.

(** What [ParseInt] makes of a printed integer: the integer when it
    fits 64 bits, an error when it does not. *)
Lemma ParseInt_Itoa_any (z : Z) :
  strconv.ParseInt (strconv.Itoa z) = if strconv.in_int64 z then Some z else None.
Proof.
  pose proof (Itoa_cases z) as Hc.
  destruct z as [|p|p]; rewrite Hc; [reflexivity| |].
  - destruct (pos_digits_shape p) as (c & r & E & Hc1 & Hc0 & Hr' & Hu).
    rewrite E. unfold strconv.ParseInt.
    assert (Hs : match String c r with
                 | String "-"%char r0 => r0
                 | String "+"%char r0 => r0
                 | _ => String c r
                 end = String c r).
    { destruct c as [[] [] [] [] [] [] [] []]; try reflexivity; discriminate. }
    rewrite Hs.
    assert (Ha : strconv.all_digits (String c r) = true).
    { unfold strconv.all_digits in *. simpl. rewrite Hc1. exact Hr'. }
    rewrite Ha, Hu.
    assert (Hz : match String c r with
                 | String "-"%char _ => Z.of_int (Decimal.Neg (Pos.to_uint p))
                 | _ => Z.of_int (Decimal.Pos (Pos.to_uint p))
                 end = Z.pos p).
    { pose proof (DecimalZ.of_to (Z.pos p)) as Hof.
      change (Z.to_int (Z.pos p)) with (Decimal.Pos (Pos.to_uint p)) in Hof.
      destruct c as [[] [] [] [] [] [] [] []]; try exact Hof; discriminate. }
    rewrite Hz. reflexivity.
  - destruct (pos_digits_shape p) as (c & r & E & Hc1 & Hc0 & Hr' & Hu).
    rewrite E. unfold strconv.ParseInt.
    assert (Ha : strconv.all_digits (String c r) = true).
    { unfold strconv.all_digits in *. simpl. rewrite Hc1. exact Hr'. }
    cbv beta iota. rewrite Ha, Hu.
    pose proof (DecimalZ.of_to (Z.neg p)) as Hof.
    change (Z.to_int (Z.neg p)) with (Decimal.Neg (Pos.to_uint p)) in Hof.
    rewrite Hof. reflexivity.
Qed.

(** X15. An id that does not fit a Go [int64] is never returned, and it
    is not wrapped around: a 200 body that carries the integer [z] as the
    template id makes Create return exactly [z] when [z] fits 64 bits and
    fail with a decode error when it does not, and likewise Get for the id
    of the template in its body.  On any body at all, the id Create
    returns, the id of the template Get returns and the ids of the
    templates List returns fit 64 bits. *)
Theorem ids_beyond_int64_are_rejected
        {World : Type} (Do : Request -> World -> result Response error * World)
        (tok : string) (w w' : World) (resp : Response) :
  StatusCode resp = http.StatusOK ->
  (forall (t : Template) (z : Z) (msg : string),
      Do (request_of tok (Create t)) w = (Ok resp, w') ->
      Body resp = jsontext.render
                    (json_pkg.PostmarkResponse_toJSON (mkPostmarkResponse z 0 msg)) ->
      if strconv.in_int64 z
      then CreateTemplate Do tok t w = ((z, None), w')
      else exists e cause,
          CreateTemplate Do tok t w = ((0, Some e), w') /\ DecodeError e cause) /\
  (forall (id : Z) (t : Template),
      Do (request_of tok (Get id)) w = (Ok resp, w') ->
      Body resp = fst (json_pkg.Marshal t) ->
      if strconv.in_int64 (TemplateID t)
      then GetTemplate Do tok id w = ((Some (coerce_Template t), None), w')
      else exists e cause,
          GetTemplate Do tok id w = ((None, Some e), w') /\ DecodeError e cause) /\
  (forall t, strconv.in_int64 (fst (fst (CreateTemplate Do tok t w))) = true) /\
  (forall id t', fst (fst (GetTemplate Do tok id w)) = Some t' ->
                 strconv.in_int64 (TemplateID t') = true) /\
  (forall offset count l,
      fst (fst (GetTemplates Do tok offset count w)) = Some l ->
      forallb (fun t => strconv.in_int64 (TemplateID t)) l = true).
Proof.
  intros Hst. apply status_ok in Hst.
  split; [|split; [|split; [|split]]].
  - intros t z msg HDo Hbody.
    rewrite CreateTemplate_unfold, HDo, Hst, Hbody.
    unfold json_pkg.Decode_PostmarkResponse, json_pkg.PostmarkResponse_toJSON.
    rewrite readValue_render_object; [|discriminate|repeat constructor].
    cbn [RespTemplateID ErrorCode Message].
    cbn [bind map coerce_member coerce_json fst snd json_pkg.PostmarkResponse_members].
    change (json_pkg.field_of json_pkg.PostmarkResponse_fields "templateID")
      with (Some "templateID").
    cbv beta iota. cbn [String.eqb Ascii.eqb Bool.eqb json_pkg.store_int].
    rewrite ParseInt_Itoa_any.
    destruct (strconv.in_int64 z); cbn [bind].
    + cbn [json_pkg.PostmarkResponse_members].
      change (json_pkg.field_of json_pkg.PostmarkResponse_fields "errorCode")
        with (Some "errorCode").
      change (json_pkg.field_of json_pkg.PostmarkResponse_fields "message")
        with (Some "message").
      cbv beta iota.
      cbn [String.eqb Ascii.eqb Bool.eqb json_pkg.store_int json_pkg.store_string bind
           RespTemplateID ErrorCode Message json_pkg.PostmarkResponse_members].
      change (strconv.ParseInt (strconv.Itoa 0)) with (Some 0).
      cbn [bind RespTemplateID ErrorCode Message json_pkg.PostmarkResponse_members].
      reflexivity.
    + eexists. eexists. split; reflexivity.
  - intros id t HDo Hbody.
    rewrite GetTemplate_unfold, HDo, Hst, Hbody.
    destruct (strconv.in_int64 (TemplateID t)) eqn:Hid.
    + now rewrite (Decode_Marshal_coerced t Hid).
    + unfold json_pkg.Decode_Template, json_pkg.Marshal. cbn [fst].
      destruct (members_of_spec t) as (E & Hne & Hpl & _).
      rewrite E, (readValue_render_object _ Hne Hpl).
      cbn [bind json_pkg.Template_value].
      assert (Hin : In ("templateID", JNumber (strconv.Itoa (TemplateID t)))
                       (map coerce_member (members_of t))).
      { unfold members_of, json_pkg.Template_toJSON.
        destruct (TemplateID t =? 0) eqn:Hz.
        - apply Z.eqb_eq in Hz. rewrite Hz in Hid. discriminate.
        - cbn [List.app map coerce_member coerce_json fst snd]. left. reflexivity. }
      destruct (Template_members_reject "" _ zero_Template "templateID" "templateID" _ Hin)
        as (cause & Hc).
      * reflexivity.
      * cbn [rejects String.eqb Ascii.eqb Bool.eqb negb orb].
        now rewrite ParseInt_Itoa_any, Hid.
      * rewrite Hc. eexists. eexists. split; reflexivity.
  - intros t. rewrite CreateTemplate_unfold.
    destruct (Do _ w) as [[resp1|err] w1]; [|reflexivity].
    destruct (negb (StatusCode resp1 =? http.StatusOK)); [reflexivity|].
    unfold json_pkg.Decode_PostmarkResponse.
    destruct (json_pkg.readValue (Body resp1)) as [j|]; cbn [bind]; [|reflexivity].
    match goal with
    | |- context [match ?d with Ok _ => _ | Err _ => _ end] => destruct d as [p|] eqn:E
    end; [|reflexivity].
    destruct (negb (ErrorCode p =? 0)); [reflexivity|]. cbn [fst].
    destruct j; try discriminate.
    + now injection E as <-.
    + exact (PostmarkResponse_members_fit _ zero_PostmarkResponse _ eq_refl E).
  - intros id t'. rewrite GetTemplate_unfold.
    destruct (Do _ w) as [[resp1|err] w1]; [|discriminate].
    destruct (negb (StatusCode resp1 =? http.StatusOK)); [discriminate|].
    unfold json_pkg.Decode_Template.
    destruct (json_pkg.readValue (Body resp1)) as [j|]; cbn [bind]; [|discriminate].
    destruct (json_pkg.Template_value "" "" j zero_Template) as [t|] eqn:E;
      [|discriminate].
    cbn [fst]. intros [= <-]. exact (Template_value_fits _ _ _ zero_Template _ eq_refl E).
  - intros offset count l. rewrite GetTemplates_unfold.
    destruct (Do _ w) as [[resp1|err] w1]; [|discriminate].
    destruct (negb (StatusCode resp1 =? http.StatusOK)); [discriminate|].
    unfold json_pkg.Decode_TemplatesResponse.
    destruct (json_pkg.readValue (Body resp1)) as [j|]; cbn [bind]; [|discriminate].
    match goal with
    | |- context [match ?d with Ok _ => _ | Err _ => _ end] => destruct d as [r|] eqn:E
    end; [|discriminate].
    cbn [fst]. intros Hl.
    assert (Hr : numbers_fit r = true).
    { destruct j; try discriminate.
      - now injection E as <-.
      - exact (TemplatesResponse_members_fit _ zero_TemplatesResponse _ eq_refl E). }
    unfold numbers_fit in Hr. apply andb_true_iff in Hr as [_ Hr].
    now rewrite Hl in Hr.
Qed.

Lemma ids_beyond_int64_are_rejected_witness :
  exists e cause,
    CreateTemplate
      (canned (mkResponse 200
                 (jsontext.render
                    (json_pkg.PostmarkResponse_toJSON
                       (mkPostmarkResponse 9223372036854775808 0 "OK")))))
      "tok" password_reset tt = ((0, Some e), tt) /\
    DecodeError e cause.
Proof.
  destruct (ids_beyond_int64_are_rejected
              (canned (mkResponse 200
                         (jsontext.render
                            (json_pkg.PostmarkResponse_toJSON
                               (mkPostmarkResponse 9223372036854775808 0 "OK")))))
              "tok" tt tt
              (mkResponse 200
                 (jsontext.render
                    (json_pkg.PostmarkResponse_toJSON
                       (mkPostmarkResponse 9223372036854775808 0 "OK")))))
    as (HC & _).
  - reflexivity.
  - apply (HC password_reset 9223372036854775808 "OK"); reflexivity.
Defined.

(** The largest [int64] is returned as it is. *)
Example largest_id_is_returned :
  CreateTemplate (canned (mkResponse 200 (wire "{'templateID': 9223372036854775807}")))
                 "tok" password_reset tt = ((9223372036854775807, None), tt).
Proof. vm_compute. reflexivity. Qed.

(** An id one beyond the largest [int64] is a decode error. *)
Example out_of_range_id_is_rejected :
  exists e cause,
    CreateTemplate (canned (mkResponse 200 (wire "{'templateID': 9223372036854775808}")))
                   "tok" password_reset tt = ((0, Some e), tt) /\
    DecodeError e cause.
Proof. eexists. eexists. split; [vm_compute; reflexivity | reflexivity]. Qed.

(** ** The order of the members of an object *)

Lemma same_outcome_refl {A E : Type} (r : result A E) : same_outcome r r.
Proof. destruct r; cbn; auto. Qed.

Lemma same_outcome_trans {A E : Type} (r1 r2 r3 : result A E) :
  same_outcome r1 r2 -> same_outcome r2 r3 -> same_outcome r1 r3.
Proof. destruct r1, r2, r3; cbn; try tauto; congruence. Qed.

Lemma Template_store_commute (path f1 f2 : string) (v1 v2 : json) (t : Template) :
  In f1 json_pkg.Template_fields -> In f2 json_pkg.Template_fields -> f1 <> f2 ->
  same_outcome
    (bind (json_pkg.Template_store path f1 v1 t) (json_pkg.Template_store path f2 v2))
    (bind (json_pkg.Template_store path f2 v2 t) (json_pkg.Template_store path f1 v1)).
Proof.
  intros H1 H2 Hne.
  unfold json_pkg.Template_fields in H1, H2. cbn [In] in H1, H2.
  repeat (destruct H1 as [<- | H1]); try contradiction;
    repeat (destruct H2 as [<- | H2]); try contradiction; try congruence;
    unfold json_pkg.Template_store; cbn [String.eqb Ascii.eqb Bool.eqb];
    destruct v1; cbn [json_pkg.store_int json_pkg.store_string json_pkg.store_bool
                      json_pkg.mismatch bind];
    repeat match goal with
           | |- context [strconv.ParseInt ?l] => destruct (strconv.ParseInt l)
           end;
    cbn [bind]; unfold json_pkg.Template_store; cbn [String.eqb Ascii.eqb Bool.eqb];
    destruct v2; cbn [json_pkg.store_int json_pkg.store_string json_pkg.store_bool
                      json_pkg.mismatch bind
                      TemplateID Name Subject HtmlBody TextBody Alias Active];
    repeat match goal with
           | |- context [strconv.ParseInt ?l] => destruct (strconv.ParseInt l)
           end;
    cbn [bind same_outcome json_pkg.store_int json_pkg.store_string json_pkg.store_bool
         json_pkg.mismatch TemplateID Name Subject HtmlBody TextBody Alias Active];
    auto.
Qed.

Lemma targets_in_fields (ms : list (string * json)) (f : string) :
  In f (targets ms) -> In f json_pkg.Template_fields.
Proof.
  induction ms as [|[k v] ms IH]; cbn [targets]; [contradiction|].
  destruct (json_pkg.field_of json_pkg.Template_fields k) as [f1|] eqn:E; [|exact IH].
  intros [<- | H]; [exact (field_of_in _ _ _ E) | exact (IH H)].
Qed.

Lemma targets_Permutation (ms ms' : list (string * json)) :
  Permutation ms ms' -> Permutation (targets ms) (targets ms').
Proof.
  induction 1 as [|[k v] l l' _ IH|[k1 v1] [k2 v2] l|l1 l2 l3 _ IH1 _ IH2];
    cbn [targets].
  - constructor.
  - destruct (json_pkg.field_of json_pkg.Template_fields k); [now constructor | exact IH].
  - destruct (json_pkg.field_of json_pkg.Template_fields k1),
             (json_pkg.field_of json_pkg.Template_fields k2);
      try reflexivity. constructor.
  - now transitivity (targets l2).
Qed.

(** X18. The order of the members of a template object does not matter
    when no two of them address the same field: the object decodes to the
    same template, or fails, in whatever order its members come. *)
Theorem member_order_is_irrelevant (ms ms' : list (string * json)) :
  Permutation ms ms' -> List.NoDup (targets ms) ->
  forall (path : string) (t : Template),
    same_outcome (json_pkg.Template_members path ms t)
                 (json_pkg.Template_members path ms' t).
Proof.
  intros HP. induction HP as [|[k v] l l' HP IH|[k1 v1] [k2 v2] l|l1 l2 l3 HP1 IH1 HP2 IH2];
    intros Hnd path t.
  - apply same_outcome_refl.
  - cbn [json_pkg.Template_members]. cbn [targets] in Hnd.
    destruct (json_pkg.field_of json_pkg.Template_fields k) as [f|].
    + apply NoDup_cons_iff in Hnd as [_ Hnd].
      destruct (json_pkg.Template_store path f v t) as [t1|e]; cbn [bind];
        [exact (IH Hnd path t1) | exact I].
    + exact (IH Hnd path t).
  - cbn [json_pkg.Template_members]. cbn [targets] in Hnd.
    destruct (json_pkg.field_of json_pkg.Template_fields k1) as [f1|] eqn:E1;
      destruct (json_pkg.field_of json_pkg.Template_fields k2) as [f2|] eqn:E2;
      try apply same_outcome_refl.
    assert (Hne : f1 <> f2).
    { apply NoDup_cons_iff in Hnd as [Hn _]. intros ->. apply Hn. now left. }
    pose proof (Template_store_commute path f1 f2 v1 v2 t
                  (field_of_in _ _ _ E1) (field_of_in _ _ _ E2) Hne) as Hc.
    destruct (json_pkg.Template_store path f2 v2 t) as [a|ea];
      destruct (json_pkg.Template_store path f1 v1 t) as [b|eb]; cbn [bind] in *.
    + destruct (json_pkg.Template_store path f1 v1 a) as [a'|];
        destruct (json_pkg.Template_store path f2 v2 b) as [b'|];
        cbn [same_outcome] in Hc; try contradiction; cbn [bind].
      * subst. apply same_outcome_refl.
      * exact I.
    + destruct (json_pkg.Template_store path f1 v1 a) as [a'|];
        cbn [same_outcome] in Hc; try contradiction; cbn [bind]. exact I.
    + destruct (json_pkg.Template_store path f2 v2 b) as [b'|];
        cbn [same_outcome] in Hc; try contradiction; cbn [bind]. exact I.
    + exact I.
  - eapply same_outcome_trans; [exact (IH1 Hnd path t)|].
    apply IH2. eapply Permutation_NoDup; [|exact Hnd]. now apply targets_Permutation.
Qed.

Lemma member_order_is_irrelevant_witness :
  same_outcome
    (json_pkg.Template_members ""
       [("Name", JString "a"); ("TemplateId", JNumber "12"); ("Active", JBool true)]
       zero_Template)
    (json_pkg.Template_members ""
       [("Active", JBool true); ("Name", JString "a"); ("TemplateId", JNumber "12")]
       zero_Template).
Proof.
  apply (member_order_is_irrelevant
           [("Name", JString "a"); ("TemplateId", JNumber "12"); ("Active", JBool true)]
           [("Active", JBool true); ("Name", JString "a"); ("TemplateId", JNumber "12")]).
  - apply Permutation_sym, (Permutation_cons_app [_; _] []). reflexivity.
  - vm_compute. repeat (constructor; [cbn [In]; intuition discriminate|]). constructor.
Defined.
